(** * Credora: normalization, currency conversion, token manager and data sync

    A shallow embedding of
      - [credora/normalization/currency.py]   (module [Currency]),
      - [credora/normalization/models.py]     (module [Models]),
      - [credora/normalization/normalizer.py] (module [Normalizer]),
      - [credora/mcp_servers/fastmcp/token_manager.py] (module [TokenManager]),
      - [credora/services/data_sync.py]       (module [DataSync]),
    preceded by the fragment of Python they run on: dynamically typed
    values, exceptions, strings and the [decimal] module in its default
    context.

    What the embedding leaves abstract: a float is kept as the text of
    the Decimal it was converted from, no float arithmetic is done; text
    is ASCII, so [upper] and [lower] map the 26 letters only; the clock,
    [uuid4], the two date parsers, [isoformat], the database, the MCP
    router and the HTTP client are parameters, and a call to one of them
    returns, raises an [Exception] or does not come back; exceptions
    outside [Exception] (task cancellation, keyboard interrupt) are not
    modelled.  Of the cited files, [_upsert_product], [_upsert_campaign]
    and [TokenData.to_dict]/[from_dict] are not embedded: they compute
    with floats or with the ISO text of a datetime. *)

From Stdlib Require Import ZArith NArith List String Ascii Bool Lia DecimalString.
From stdpp Require Import base gmap strings.
Import ListNotations.

Open Scope string_scope.
Open Scope Z_scope.

(** ** Exceptions and the error monad *)

Inductive ExcClass : Type :=
| ValueError
| TypeError
| AttributeError
| KeyError
| OverflowError
| InvalidOperation   (* decimal.InvalidOperation and its subclasses *)
| DecimalOverflow    (* decimal.Overflow *)
| DivisionByZero     (* decimal.DivisionByZero *)
| OtherException (name : string). (* any other subclass of Exception *)

(** An exception object: its class and the text [str(e)] renders. *)
Record PyExc : Type := mkExc { exc_class : ExcClass; exc_str : string }.

Inductive result (A : Type) : Type :=
| Ok (a : A)
| Raise (e : PyExc).
Arguments Ok {A} a.
Arguments Raise {A} e.

Definition rbind {A B} (m : result A) (k : A -> result B) : result B :=
  match m with
  | Ok a => k a
  | Raise e => Raise e
  end.

Declare Scope py_scope.
Delimit Scope py_scope with py.
Notation "'let!' x ':=' e 'in' k" := (rbind e (fun x => k))
  (at level 10, x pattern, e at level 100, k at level 200) : py_scope.
Open Scope py_scope.

Definition raise {A} (c : ExcClass) (msg : string) : result A := Raise (mkExc c msg).

Definition is_ok {A} (r : result A) : bool :=
  match r with Ok _ => true | Raise _ => false end.

(** ** Strings

    A [str] is modelled by its UTF-8 bytes.  Case mapping and whitespace
    are the ASCII ones; bytes above 127 are left alone. *)
Module PyStr.

Definition chars (s : string) : list ascii := list_ascii_of_string s.
Definition of_chars (l : list ascii) : string := string_of_list_ascii l.

Definition code (c : ascii) : N := N_of_ascii c.

Definition is_digit (c : ascii) : bool := (48 <=? code c)%N && (code c <=? 57)%N.

(** [str.isspace] on ASCII: TAB, LF, VT, FF, CR, FS, GS, RS, US, SPACE. *)
Definition is_space (c : ascii) : bool :=
  ((9 <=? code c)%N && (code c <=? 13)%N)
  || ((28 <=? code c)%N && (code c <=? 32)%N).

Definition upper_char (c : ascii) : ascii :=
  if (97 <=? code c)%N && (code c <=? 122)%N then ascii_of_N (code c - 32) else c.
Definition lower_char (c : ascii) : ascii :=
  if (65 <=? code c)%N && (code c <=? 90)%N then ascii_of_N (code c + 32) else c.

Definition upper (s : string) : string := of_chars (map upper_char (chars s)).
Definition lower (s : string) : string := of_chars (map lower_char (chars s)).

Fixpoint lstrip_chars (l : list ascii) : list ascii :=
  match l with
  | c :: l' => if is_space c then lstrip_chars l' else l
  | [] => []
  end.
Definition strip_chars (l : list ascii) : list ascii :=
  rev (lstrip_chars (rev (lstrip_chars l))).
Definition strip (s : string) : string := of_chars (strip_chars (chars s)).

(** [s.replace(c, by)] for a one-character pattern. *)
Fixpoint replace_char (c : ascii) (by_ : string) (s : string) : string :=
  match s with
  | EmptyString => EmptyString
  | String a s' =>
      if Ascii.eqb a c then by_ +:+ replace_char c by_ s'
      else String a (replace_char c by_ s')
  end.

(** [c in s] for a one-character pattern. *)
Definition contains_char (c : ascii) (s : string) : bool :=
  existsb (Ascii.eqb c) (chars s).

Definition is_empty (s : string) : bool :=
  match s with EmptyString => true | _ => false end.

(** [str(n)] for an int. *)
Definition of_Z (z : Z) : string := NilZero.string_of_int (Z.to_int z).

End PyStr.

(** ** Dynamically typed values

    The values a decoded JSON payload holds.  A [float] is carried by the
    text [str()] prints for it; the model never computes with floats. *)
#[warnings="-register-all"]
Inductive pyval : Type :=
| VNone
| VBool (b : bool)
| VInt (z : Z)
| VFloat (repr : string)
| VStr (s : string)
| VList (l : list pyval)
| VDict (d : list (string * pyval)).

(** A [dict] with string keys, in insertion order. *)
Abbreviation PyDict := (list (string * pyval)).

Module PyVal.

(** Truth value testing. *)
Definition truthy (v : pyval) : bool :=
  match v with
  | VNone => false
  | VBool b => b
  | VInt z => negb (z =? 0)
  | VFloat r => negb (String.eqb r "0.0" || String.eqb r "-0.0")
  | VStr s => negb (PyStr.is_empty s)
  | VList l => match l with [] => false | _ => true end
  | VDict d => match d with [] => false | _ => true end
  end.

(** [a or b]. *)
Definition or_ (a b : pyval) : pyval := if truthy a then a else b.

Definition type_name (v : pyval) : string :=
  match v with
  | VNone => "NoneType"
  | VBool _ => "bool"
  | VInt _ => "int"
  | VFloat _ => "float"
  | VStr _ => "str"
  | VList _ => "list"
  | VDict _ => "dict"
  end.

Fixpoint lookup (k : string) (d : PyDict) : option pyval :=
  match d with
  | [] => None
  | (k', v) :: d' => if String.eqb k k' then Some v else lookup k d'
  end.

(** [k in d]. *)
Definition contains (k : string) (d : PyDict) : bool :=
  match lookup k d with Some _ => true | None => false end.

(** [d.get(k, default)] and [d.get(k)]. *)
Definition get_default (d : PyDict) (k : string) (default : pyval) : pyval :=
  match lookup k d with Some v => v | None => default end.
Definition get (d : PyDict) (k : string) : pyval := get_default d k VNone.

Definition no_attribute {A} (v : pyval) (attr : string) : result A :=
  raise AttributeError
    ("'" +:+ type_name v +:+ "' object has no attribute '" +:+ attr +:+ "'").

(** [v.get(k, default)] on a value that is only hoped to be a dict. *)
Definition dyn_get_default (v : pyval) (k : string) (default : pyval) : result pyval :=
  match v with
  | VDict d => Ok (get_default d k default)
  | _ => no_attribute v "get"
  end.
Definition dyn_get (v : pyval) (k : string) : result pyval := dyn_get_default v k VNone.

(** [repr] of a str: quote choice and the escapes of ASCII text. *)
Definition hex_digit (n : N) : ascii :=
  if (n <? 10)%N then ascii_of_N (48 + n) else ascii_of_N (87 + n).
Definition escape_char (quote : ascii) (c : ascii) : list ascii :=
  let bs := ascii_of_N 92 in
  if Ascii.eqb c bs then [bs; bs]
  else if Ascii.eqb c quote then [bs; quote]
  else if Ascii.eqb c (ascii_of_N 10) then [bs; "n"%char]
  else if Ascii.eqb c (ascii_of_N 13) then [bs; "r"%char]
  else if Ascii.eqb c (ascii_of_N 9) then [bs; "t"%char]
  else if (PyStr.code c <? 32)%N || (PyStr.code c =? 127)%N
       then [bs; "x"%char; hex_digit (PyStr.code c / 16); hex_digit (PyStr.code c mod 16)]
  else [c].
Definition repr_str (s : string) : string :=
  let cs := PyStr.chars s in
  let sq := "'"%char in
  let dq := ascii_of_N 34 in
  let quote :=
    if existsb (Ascii.eqb sq) cs && negb (existsb (Ascii.eqb dq) cs) then dq else sq in
  PyStr.of_chars ([quote] ++ flat_map (escape_char quote) cs ++ [quote]).

Definition join_comma (l : list string) : string :=
  match l with
  | [] => EmptyString
  | x :: l' => fold_left (fun acc y => acc +:+ ", " +:+ y) l' x
  end.

(** [repr(v)]: what [str()] shows for the elements of a container. *)
Fixpoint repr (v : pyval) : string :=
  match v with
  | VNone => "None"
  | VBool true => "True"
  | VBool false => "False"
  | VInt z => PyStr.of_Z z
  | VFloat r => r
  | VStr s => repr_str s
  | VList l => "[" +:+ join_comma (map repr l) +:+ "]"
  | VDict d =>
      "{" +:+ join_comma (map (fun kv => repr_str (fst kv) +:+ ": " +:+ repr (snd kv)) d) +:+ "}"
  end.

(** [str(v)]. *)
Definition str (v : pyval) : string :=
  match v with
  | VStr s => s
  | _ => repr v
  end.

(** [len(v)]. *)
Definition len (v : pyval) : result Z :=
  match v with
  | VStr s => Ok (Z.of_nat (String.length s))
  | VList l => Ok (Z.of_nat (length l))
  | VDict d => Ok (Z.of_nat (length d))
  | _ => raise TypeError ("object of type '" +:+ type_name v +:+ "' has no len()")
  end.

(** [v[0]]; the keys of a decoded JSON object are strings, never [0]. *)
Definition item0 (v : pyval) : result pyval :=
  match v with
  | VList (x :: _) => Ok x
  | VList [] => raise (OtherException "IndexError") "list index out of range"
  | VStr (String c _) => Ok (VStr (String c EmptyString))
  | VStr EmptyString => raise (OtherException "IndexError") "string index out of range"
  | VDict _ => raise KeyError "0"
  | _ => raise TypeError ("'" +:+ type_name v +:+ "' object is not subscriptable")
  end.

(** [for x in v]: the items the loop visits. *)
Definition iter (v : pyval) : result (list pyval) :=
  match v with
  | VList l => Ok l
  | VDict d => Ok (map (fun kv => VStr (fst kv)) d)
  | VStr s => Ok (map (fun c => VStr (String c EmptyString)) (PyStr.chars s))
  | _ => raise TypeError ("'" +:+ type_name v +:+ "' object is not iterable")
  end.

End PyVal.

(** ** The [decimal] module

    [Decimal] values and the operations the code applies to them, under the
    default context: 28 significant digits, ROUND_HALF_EVEN, exponents in
    [-999999, 999999], traps on InvalidOperation, DivisionByZero and
    Overflow.  Coefficients are numbers rather than digit strings, so a
    slice of the digit string is a quotient by a power of ten.  NaN
    payloads are not kept. *)
Module Dec.

Inductive Decimal : Type :=
| Fin (neg : bool) (coef : N) (exp : Z)   (* (-1)^neg * coef * 10^exp *)
| Inf (neg : bool)
| NaN (signaling : bool).

Definition prec : Z := 28.
Definition Emax : Z := 999999.
Definition Emin : Z := -999999.
Definition Etiny : Z := Emin - prec + 1.
Definition Etop : Z := Emax - prec + 1.

Definition pow10 (k : Z) : N := (10 ^ Z.to_N k)%N.

(** The text [str(e)] shows for the signals the context traps. *)
Definition invalid_operation {A} : result A :=
  raise InvalidOperation "[<class 'decimal.InvalidOperation'>]".
Definition overflow {A} : result A :=
  raise DecimalOverflow "[<class 'decimal.Overflow'>]".

(** [len(self._int)]: the number of decimal digits, 1 for zero. *)
Fixpoint ndigits_fuel (fuel : nat) (n : N) : Z :=
  match fuel with
  | O => 1
  | S f => if (n <? 10)%N then 1 else 1 + ndigits_fuel f (n / 10)%N
  end.
Definition ndigits (n : N) : Z := ndigits_fuel (N.to_nat (N.log2 n)) n.

(** [__bool__]. *)
Definition truthy (d : Decimal) : bool :=
  match d with
  | Fin _ c _ => negb (c =? 0)%N
  | _ => true
  end.

(** Rounding decisions when the last [k > 0] digits are dropped:
    [_round_half_up] looks at the first dropped digit,
    [_round_half_even] also at an exact half and the parity of what is kept. *)
Definition round_half_up (c : N) (k : Z) : bool :=
  (5 <=? (c / pow10 (k - 1)) mod 10)%N.
Definition round_half_even (c : N) (k : Z) : bool :=
  if ((c mod pow10 k =? 5 * pow10 (k - 1))%N && N.even (c / pow10 k)) then false
  else round_half_up c k.

(** [_fix]: round to the context precision, check the exponent range. *)
Definition fix_ (d : Decimal) : result Decimal :=
  match d with
  | Fin neg c e =>
      if (c =? 0)%N then Ok (Fin neg 0 (Z.min (Z.max e Etiny) Emax))
      else
        let exp_min := ndigits c + e - prec in
        if Etop <? exp_min then overflow
        else
          let exp_min := Z.max exp_min Etiny in
          if e <? exp_min then
            let k := exp_min - e in
            let coeff := (c / pow10 k)%N in
            let '(coeff, exp_min) :=
              if round_half_even c k then
                let coeff := (coeff + 1)%N in
                if prec <? ndigits coeff then ((coeff / 10)%N, exp_min + 1)
                else (coeff, exp_min)
              else (coeff, exp_min) in
            if Etop <? exp_min then overflow
            else Ok (Fin neg coeff exp_min)
          else Ok d
  | _ => Ok d
  end.

(** [_check_nans] for one and for two operands. *)
Definition check_nan (a : Decimal) : option (result Decimal) :=
  match a with
  | NaN true => Some (invalid_operation (* sNaN *))
  | NaN false => Some (Ok (NaN false))
  | _ => None
  end.
Definition check_nans (a b : Decimal) : option (result Decimal) :=
  match a, b with
  | NaN true, _ | _, NaN true => Some (invalid_operation (* sNaN *))
  | NaN false, _ | _, NaN false => Some (Ok (NaN false))
  | _, _ => None
  end.

(** [a * b]. *)
Definition mul (a b : Decimal) : result Decimal :=
  match check_nans a b with
  | Some r => r
  | None =>
      match a, b with
      | Fin s1 c1 e1, Fin s2 c2 e2 => fix_ (Fin (xorb s1 s2) (c1 * c2) (e1 + e2))
      | Inf s1, Fin s2 c2 _ =>
          if (c2 =? 0)%N then invalid_operation (* (+-)INF * 0 *)
          else Ok (Inf (xorb s1 s2))
      | Fin s1 c1 _, Inf s2 =>
          if (c1 =? 0)%N then invalid_operation (* 0 * (+-)INF *)
          else Ok (Inf (xorb s1 s2))
      | Inf s1, Inf s2 => Ok (Inf (xorb s1 s2))
      | _, _ => Ok (NaN false)
      end
  end.

(** The loop of [__truediv__] that drops trailing zeros of an exact
    quotient until the ideal exponent is reached; it runs at most
    [ideal_exp - exp] times. *)
Fixpoint strip_zeros (fuel : nat) (coeff : N) (exp ideal_exp : Z) : N * Z :=
  match fuel with
  | O => (coeff, exp)
  | S f =>
      if (exp <? ideal_exp) && (coeff mod 10 =? 0)%N
      then strip_zeros f (coeff / 10)%N (exp + 1) ideal_exp
      else (coeff, exp)
  end.

(** [a / b]. *)
Definition div (a b : Decimal) : result Decimal :=
  match check_nans a b with
  | Some r => r
  | None =>
      match a, b with
      | Inf _, Inf _ => invalid_operation (* (+-)INF/(+-)INF *)
      | Inf s1, Fin s2 _ _ => Ok (Inf (xorb s1 s2))
      | Fin s1 _ _, Inf s2 => Ok (Fin (xorb s1 s2) 0 Etiny)
      | Fin s1 c1 e1, Fin s2 c2 e2 =>
          let sign := xorb s1 s2 in
          if (c2 =? 0)%N then
            if (c1 =? 0)%N then raise InvalidOperation "[<class 'decimal.DivisionUndefined'>]"
            else raise DivisionByZero "[<class 'decimal.DivisionByZero'>]"
          else if (c1 =? 0)%N then fix_ (Fin sign 0 (e1 - e2))
          else
            let shift := ndigits c2 - ndigits c1 + prec + 1 in
            let exp := e1 - e2 - shift in
            let '(num, den) :=
              if 0 <=? shift then ((c1 * pow10 shift)%N, c2)
              else (c1, (c2 * pow10 (- shift))%N) in
            let coeff := (num / den)%N in
            let remainder := (num mod den)%N in
            let '(coeff, exp) :=
              if negb (remainder =? 0)%N then
                ((if (coeff mod 5 =? 0)%N then coeff + 1 else coeff)%N, exp)
              else strip_zeros (Z.to_nat (e1 - e2 - exp)) coeff exp (e1 - e2) in
            fix_ (Fin sign coeff exp)
      | _, _ => Ok (NaN false)
      end
  end.

(** [d < 0]: comparisons that involve a NaN signal InvalidOperation. *)
Definition lt_zero (d : Decimal) : result bool :=
  match d with
  | Fin neg c _ => Ok (neg && negb (c =? 0)%N)
  | Inf neg => Ok neg
  | NaN _ => invalid_operation (* comparison involving NaN *)
  end.

(** [d <= 0]. *)
Definition le_zero (d : Decimal) : result bool :=
  match d with
  | Fin neg c _ => Ok (neg || (c =? 0)%N)
  | Inf neg => Ok neg
  | NaN _ => invalid_operation (* comparison involving NaN *)
  end.

(** [abs(d)]. *)
Definition abs (d : Decimal) : result Decimal :=
  match check_nan d with
  | Some r => r
  | None =>
      match d with
      | Fin _ c e => fix_ (Fin false c e)
      | _ => Ok (Inf false)
      end
  end.

(** [_rescale(exp, ROUND_HALF_UP)] on a coefficient. *)
Definition rescale_half_up (c : N) (e qexp : Z) : N :=
  if qexp <=? e then (c * pow10 (e - qexp))%N
  else
    let k := qexp - e in
    ((c / pow10 k) + (if round_half_up c k then 1 else 0))%N.

(** [d.quantize(Decimal(10) ** qexp, rounding=ROUND_HALF_UP)]. *)
Definition quantize_half_up (d : Decimal) (qexp : Z) : result Decimal :=
  match check_nan d with
  | Some r => r
  | None =>
      match d with
      | Fin neg c e =>
          if negb ((Etiny <=? qexp) && (qexp <=? Emax)) then
            invalid_operation (* target exponent out of bounds in quantize *)
          else if (c =? 0)%N then fix_ (Fin neg 0 qexp)
          else
            let adjusted := e + ndigits c - 1 in
            if Emax <? adjusted then
              invalid_operation (* exponent of quantize result too large for current context *)
            else if prec <? adjusted - qexp + 1 then
              invalid_operation (* quantize result has too many digits for current context *)
            else
              let coeff := rescale_half_up c e qexp in
              if Emax <? qexp + ndigits coeff - 1 then
                invalid_operation (* exponent of quantize result too large for current context *)
              else if prec <? ndigits coeff then
                invalid_operation (* quantize result has too many digits for current context *)
              else fix_ (Fin neg coeff qexp)
      | _ => invalid_operation (* quantize with one INF *)
      end
  end.

(** *** [Decimal(s)] for a str *)

Fixpoint span_digits (l : list ascii) : list ascii * list ascii :=
  match l with
  | c :: l' =>
      if PyStr.is_digit c then let '(ds, rest) := span_digits l' in (c :: ds, rest)
      else ([], l)
  | [] => ([], [])
  end.

Fixpoint digits_value (acc : N) (l : list ascii) : N :=
  match l with
  | c :: l' => digits_value (10 * acc + (PyStr.code c - 48))%N l'
  | [] => acc
  end.

Definition split_sign (l : list ascii) : bool * list ascii :=
  match l with
  | c :: r =>
      if Ascii.eqb c "-" then (true, r)
      else if Ascii.eqb c "+" then (false, r)
      else (false, l)
  | [] => (false, [])
  end.

(** What follows the [E]: an optional sign and at least one digit, up
    to the end of the text. *)
Definition parse_exponent (l : list ascii) : option Z :=
  let '(neg, r) := split_sign l in
  let '(ds, rest) := span_digits r in
  match ds, rest with
  | _ :: _, [] =>
      let v := Z.of_N (digits_value 0 ds) in Some (if neg then - v else v)
  | _, _ => None
  end.

(** The numeric alternative of the pattern: digits with an optional
    fraction, at least one digit in all, an optional exponent. *)
Definition parse_number (l : list ascii) : option (N * Z) :=
  let '(ip, r1) := span_digits l in
  let '(fp, r2) :=
    match r1 with
    | c :: r => if Ascii.eqb c "." then span_digits r else ([], r1)
    | [] => ([], [])
    end in
  match ip, fp with
  | [], [] => None
  | _, _ =>
      let coef := digits_value 0 (ip ++ fp) in
      let frac_len := Z.of_nat (length fp) in
      match r2 with
      | [] => Some (coef, - frac_len)
      | c :: r =>
          if Ascii.eqb (PyStr.lower_char c) "e" then
            match parse_exponent r with
            | Some e => Some (coef, e - frac_len)
            | None => None
            end
          else None
      end
  end.

(** The special alternatives, case-insensitively: [Inf], [Infinity],
    [NaN] and [sNaN] with optional diagnostic digits. *)
Definition parse_special (neg : bool) (l : list ascii) : option Decimal :=
  let low := PyStr.of_chars (map PyStr.lower_char l) in
  if String.eqb low "inf" || String.eqb low "infinity" then Some (Inf neg)
  else
    match map PyStr.lower_char l with
    | "n"%char :: "a"%char :: "n"%char :: diag =>
        if forallb PyStr.is_digit diag then Some (NaN false) else None
    | "s"%char :: "n"%char :: "a"%char :: "n"%char :: diag =>
        if forallb PyStr.is_digit diag then Some (NaN true) else None
    | _ => None
    end.

Definition conversion_syntax {A} : result A :=
  raise InvalidOperation "[<class 'decimal.ConversionSyntax'>]".

(** [Decimal(s)]: the text is stripped, underscores are removed, and the
    rest must match the pattern in full. *)
Definition of_string (s : string) : result Decimal :=
  let l := filter (fun c => negb (Ascii.eqb c "_")) (PyStr.chars (PyStr.strip s)) in
  let '(neg, body) := split_sign l in
  match parse_number body with
  | Some (coef, e) => Ok (Fin neg coef e)
  | None =>
      match parse_special neg body with
      | Some d => Ok d
      | None => conversion_syntax
      end
  end.

(** [Decimal(str(v))]. *)
Definition of_str_of (v : pyval) : result Decimal := of_string (PyVal.str v).

(** A literal of the source, such as [Decimal("1.08")]. *)
Definition lit (s : string) : Decimal :=
  match of_string s with
  | Ok d => d
  | Raise _ => NaN false
  end.

(** The float [float(d)] yields is not computed: it is named by the
    decimal it was made from. *)
Inductive PyFloat : Type := FloatOf (d : Decimal).
Definition to_float (d : Decimal) : result PyFloat :=
  match d with
  | NaN true => raise ValueError "cannot convert signaling NaN to float"
  | _ => Ok (FloatOf d)
  end.

(** Numerically non-negative: zero of either sign counts. *)
Definition nonneg (d : Decimal) : bool :=
  match d with
  | Fin neg c _ => negb neg || (c =? 0)%N
  | Inf neg => negb neg
  | NaN _ => false
  end.

(** Equal as numbers: [Decimal("1.5") == Decimal("1.50")]. *)
Definition num_eqb (a b : Decimal) : bool :=
  match a, b with
  | Fin s1 c1 e1, Fin s2 c2 e2 =>
      let m := Z.min e1 e2 in
      let v1 := (c1 * pow10 (e1 - m))%N in
      let v2 := (c2 * pow10 (e2 - m))%N in
      (v1 =? v2)%N && (Bool.eqb s1 s2 || (v1 =? 0)%N)
  | Inf s1, Inf s2 => Bool.eqb s1 s2
  | _, _ => false
  end.

(** *** [str(d)] *)

(** The decimal digits of a coefficient, most significant first. *)
Fixpoint digits_fuel (fuel : nat) (n : N) (acc : list ascii) : list ascii :=
  match fuel with
  | O => acc
  | S f =>
      let acc := ascii_of_N (48 + n mod 10) :: acc in
      if (n <? 10)%N then acc else digits_fuel f (n / 10)%N acc
  end.
Definition digits (n : N) : list ascii := digits_fuel (S (N.to_nat (N.log2 n))) n [].

(** ["%+d" % z]. *)
Definition signed_digits (z : Z) : list ascii :=
  (if z <? 0 then "-"%char else "+"%char) :: digits (Z.abs_N z).

Definition finite (d : Decimal) : bool :=
  match d with Fin _ _ _ => true | _ => false end.

(** [__str__]: the scientific string of the specification, with the
    exponent in capitals.  For a NaN the sign and the payload, which
    the model does not keep, are not shown. *)
Definition to_str (d : Decimal) : string :=
  match d with
  | Fin neg c e =>
      let _int := digits c in
      let len := Z.of_nat (length _int) in
      (* number of digits of self._int to left of decimal point *)
      let leftdigits := e + len in
      let dotplace := if (e <=? 0) && (-6 <? leftdigits) then leftdigits else 1 in
      let '(intpart, fracpart) :=
        if dotplace <=? 0 then
          (["0"%char], ("."%char :: repeat "0"%char (Z.to_nat (- dotplace)) ++ _int)%list)
        else if len <=? dotplace then
          ((_int ++ repeat "0"%char (Z.to_nat (dotplace - len)))%list, [])
        else
          (firstn (Z.to_nat dotplace) _int, "."%char :: skipn (Z.to_nat dotplace) _int) in
      let exp :=
        if leftdigits =? dotplace then []
        else "E"%char :: signed_digits (leftdigits - dotplace) in
      PyStr.of_chars ((if neg then ["-"%char] else []) ++ intpart ++ fracpart ++ exp)%list
  | Inf neg => if neg then "-Infinity" else "Infinity"
  | NaN signaling => if signaling then "sNaN" else "NaN"
  end.

End Dec.

(** ** Dates and times

    A [datetime] is its wall-clock reading, counted in microseconds from
    0001-01-01T00:00:00, with the UTC offset of its [tzinfo] ([None] when
    naive); a [date] is its proleptic Gregorian ordinal.  Values outside
    the years 1..9999 do not exist: arithmetic that leaves the range
    raises OverflowError. *)
Module PyTime.

Record datetime : Type := mkDatetime { wall : Z; utcoffset : option Z }.

Definition us_per_second : Z := 1000000.
Definition us_per_day : Z := 86400 * us_per_second.
Definition MAX_ORDINAL : Z := 3652059.              (* date.max.toordinal() *)
Definition MAX_WALL : Z := MAX_ORDINAL * us_per_day. (* first reading past datetime.max *)

Definition in_range (w : Z) : bool := (0 <=? w) && (w <? MAX_WALL).

(** [timedelta(seconds=n)] for an int, in microseconds. *)
Definition timedelta_seconds (n : Z) : result Z :=
  if 999999999 <? Z.abs (n / 86400) then
    raise OverflowError "days out of range for timedelta"
  else Ok (n * us_per_second).

(** [d - delta] and [d + delta] for a timedelta of [delta] microseconds. *)
Definition add_us (d : datetime) (delta : Z) : result datetime :=
  let w := wall d + delta in
  if in_range w then Ok (mkDatetime w (utcoffset d))
  else raise OverflowError "date value out of range".
Definition sub_us (d : datetime) (delta : Z) : result datetime := add_us d (- delta).

(** [a >= b]: aware values compare as instants, naive ones as readings. *)
Definition ge (a b : datetime) : result bool :=
  match utcoffset a, utcoffset b with
  | Some oa, Some ob => Ok (wall b - ob <=? wall a - oa)
  | None, None => Ok (wall b <=? wall a)
  | _, _ => raise TypeError "can't compare offset-naive and offset-aware datetimes"
  end.

(** The instant a datetime names, a naive one being read as UTC. *)
Definition instant (d : datetime) : Z :=
  wall d - match utcoffset d with Some o => o | None => 0 end.

(** [d.replace(tzinfo=timezone.utc)]. *)
Definition replace_tz_utc (d : datetime) : datetime := mkDatetime (wall d) (Some 0).

(** [d - timedelta(days=n)] on a [date] given by its ordinal. *)
Definition date_sub_days (ordinal n : Z) : result Z :=
  let o := ordinal - n in
  if (1 <=? o) && (o <=? MAX_ORDINAL) then Ok o
  else raise OverflowError "date value out of range".

End PyTime.

(** What a call reads from outside the program: the clock, the random
    UUIDs, and the two parsers of the standard library whose grammar the
    model leaves open. *)
Record Runtime : Type := mkRuntime {
  datetime_now : PyTime.datetime;                        (* datetime.now() *)
  uuid4 : nat -> string;                                 (* str(uuid.uuid4()), by call *)
  fromisoformat : string -> result PyTime.datetime;      (* datetime.fromisoformat *)
  strptime : string -> string -> result PyTime.datetime; (* datetime.strptime *)
}.

(** ** credora/normalization/currency.py *)
Module Currency.
Import Dec.

(** A rate table: a dict from currency code to rate, in insertion order. *)
Abbreviation Rates := (list (string * Decimal)).

Definition DEFAULT_EXCHANGE_RATES : Rates :=
  [ ("USD", lit "1.0");
    ("EUR", lit "1.08");
    ("GBP", lit "1.27");
    ("CAD", lit "0.74");
    ("AUD", lit "0.65");
    ("JPY", lit "0.0067");
    ("INR", lit "0.012");
    ("CNY", lit "0.14");
    ("BRL", lit "0.20");
    ("MXN", lit "0.058") ].

Fixpoint rates_get (k : string) (r : Rates) : option Decimal :=
  match r with
  | [] => None
  | (k', v) :: r' => if String.eqb k k' then Some v else rates_get k r'
  end.

Definition keys (r : Rates) : list string := map fst r.

Record CurrencyConverter : Type := mkConverter { _rates : Rates }.

(** [__init__]: [exchange_rates or DEFAULT_EXCHANGE_RATES.copy()]. *)
Definition init (exchange_rates : option Rates) : CurrencyConverter :=
  match exchange_rates with
  | Some ((_ :: _) as r) => mkConverter r
  | _ => mkConverter DEFAULT_EXCHANGE_RATES
  end.

Definition get_rate (self : CurrencyConverter) (currency : string) : option Decimal :=
  rates_get (PyStr.upper currency) (_rates self).

(** [self._rates[k] = v]: the value of a key the dict holds is
    replaced where it stands, a new key goes to the end. *)
Fixpoint rates_set (k : string) (v : Decimal) (r : Rates) : Rates :=
  match r with
  | [] => [(k, v)]
  | (k', v') :: r' =>
      if String.eqb k k' then (k', v) :: r' else (k', v') :: rates_set k v r'
  end.

(** [set_rate]; the converter is returned as the call leaves it. *)
Definition set_rate (self : CurrencyConverter) (currency : string) (rate : Decimal)
    : result CurrencyConverter :=
  let! not_positive := le_zero rate in
  if not_positive then raise ValueError "Exchange rate must be positive"
  else Ok (mkConverter (rates_set (PyStr.upper currency) rate (_rates self))).

Definition list_supported_currencies (self : CurrencyConverter) : list string :=
  keys (_rates self).

Definition is_supported (self : CurrencyConverter) (currency : string) : bool :=
  match rates_get (PyStr.upper currency) (_rates self) with
  | Some _ => true
  | None => false
  end.

(** The exponent of [Decimal(f"0.{'0' * round_places}")]. *)
Definition quantum_exp (round_places : Z) : Z := - Z.max 0 round_places.

(** The message of the ValueError for an unknown code. *)
Definition unsupported_message (currency : string) (supported : list string) : string :=
  "Unsupported currency: " +:+ currency +:+ ". Supported currencies: "
    +:+ PyVal.repr (VList (map VStr supported)).

Definition convert_to_usd (self : CurrencyConverter) (amount : Decimal)
    (currency : string) (round_places : Z) : result Decimal :=
  let currency_upper := PyStr.upper currency in
  if String.eqb currency_upper "USD" then
    quantize_half_up amount (quantum_exp round_places)
  else
    match rates_get currency_upper (_rates self) with
    | None => raise ValueError (unsupported_message currency (keys (_rates self)))
    | Some rate =>
        let! amount_usd := mul amount rate in
        quantize_half_up amount_usd (quantum_exp round_places)
    end.

Definition convert_from_usd (self : CurrencyConverter) (amount_usd : Decimal)
    (target_currency : string) (round_places : Z) : result Decimal :=
  let currency_upper := PyStr.upper target_currency in
  if String.eqb currency_upper "USD" then
    quantize_half_up amount_usd (quantum_exp round_places)
  else
    match rates_get currency_upper (_rates self) with
    | None => raise ValueError ("Unsupported currency: " +:+ target_currency)
    | Some rate =>
        let! amount := div amount_usd rate in
        quantize_half_up amount (quantum_exp round_places)
    end.



(** Every rate of the table is a number above zero, as [set_rate]
    demands of the rates it is given. *)
Definition positive_rates (self : CurrencyConverter) : Prop :=
  Forall (fun kv => le_zero (snd kv) = Ok false) (_rates self).

(** A run of [set_rate] calls, stopped by the first that raises. *)
Fixpoint set_rates (self : CurrencyConverter) (calls : list (string * Decimal))
    : result CurrencyConverter :=
  match calls with
  | [] => Ok self
  | (currency, rate) :: rest =>
      let! self' := set_rate self currency rate in
      set_rates self' rest
  end.

End Currency.

(** ** credora/normalization/models.py *)
Module Models.
Import Dec.

Inductive TransactionType : Type :=
| ORDER | REFUND | AD_SPEND | EXPENSE | PAYOUT | INVENTORY_COST.

Definition TransactionType_value (t : TransactionType) : string :=
  match t with
  | ORDER => "order"
  | REFUND => "refund"
  | AD_SPEND => "ad_spend"
  | EXPENSE => "expense"
  | PAYOUT => "payout"
  | INVENTORY_COST => "inventory_cost"
  end.

Definition TransactionType_eqb (a b : TransactionType) : bool :=
  String.eqb (TransactionType_value a) (TransactionType_value b).

(** The [timestamp] field holds a datetime, or whatever truthy value
    that is not a str the raw record carried in its place. *)
Inductive Timestamp : Type :=
| TsDatetime (d : PyTime.datetime)
| TsValue (v : pyval).

(** The dataclass.  Annotations are not enforced: [currency], [sku_id]
    and [quantity] hold what the raw record held. *)
Record NormalizedTransaction : Type := mkTransaction {
  id : string;
  platform : string;
  platform_id : string;
  type : TransactionType;
  amount : Decimal;
  currency : pyval;
  timestamp : Timestamp;
  amount_usd : option Decimal;
  sku_id : pyval;
  quantity : pyval;
  cost_per_unit : option Decimal;
  campaign_id : option string;
  customer_id : option string;
  metadata : PyDict;
}.

(** [__post_init__], run by the constructor.  The Decimal fields of the
    model are Decimals already, so the [isinstance] conversions do
    nothing. *)
Definition post_init (rt : Runtime) (self : NormalizedTransaction)
    : result NormalizedTransaction :=
  let id' := if PyStr.is_empty (id self) then uuid4 rt 1%nat else id self in
  let platform' := PyStr.strip (PyStr.lower (platform self)) in
  let! amount_usd' :=
    match amount_usd self with
    | Some u => Ok (Some u)
    | None =>
        match currency self with
        | VStr c =>
            if String.eqb (PyStr.upper c) "USD" then Ok (Some (amount self)) else Ok None
        | v => PyVal.no_attribute v "upper"
        end
    end in
  Ok (mkTransaction id' platform' (platform_id self) (type self) (amount self)
        (currency self) (timestamp self) amount_usd' (sku_id self) (quantity self)
        (cost_per_unit self) (campaign_id self) (customer_id self) (metadata self)).

Definition is_revenue (self : NormalizedTransaction) : bool :=
  TransactionType_eqb (type self) ORDER.
Definition is_refund (self : NormalizedTransaction) : bool :=
  TransactionType_eqb (type self) REFUND.
Definition is_expense (self : NormalizedTransaction) : bool :=
  TransactionType_eqb (type self) AD_SPEND || TransactionType_eqb (type self) EXPENSE.
Definition is_marketing_expense (self : NormalizedTransaction) : bool :=
  TransactionType_eqb (type self) AD_SPEND.

Definition get_effective_amount_usd (self : NormalizedTransaction) : Decimal :=
  match amount_usd self with
  | Some u => u
  | None => amount self
  end.

Definition missing {A} (field_name : string) : result A :=
  raise ValueError ("Required field '" +:+ field_name +:+ "' is missing or empty").

(** [value is None or (isinstance(value, str) and not value.strip())]. *)
Definition blank_str (s : string) : bool := PyStr.is_empty (PyStr.strip s).
Definition blank_val (v : pyval) : bool :=
  match v with
  | VNone => true
  | VStr s => blank_str s
  | _ => false
  end.

Definition valid_platforms : list string := ["shopify"; "meta"; "google"].

(** [validate]: the required fields in their order, the platform, the
    sign of the amount.  Of the required fields, [type] and [amount]
    are never [None] nor a blank str. *)
Definition validate (self : NormalizedTransaction) : result bool :=
  if blank_str (id self) then missing "id"
  else if blank_str (platform self) then missing "platform"
  else if blank_val (currency self) then missing "currency"
  else if match timestamp self with TsValue v => blank_val v | TsDatetime _ => false end
       then missing "timestamp"
  else if negb (existsb (String.eqb (platform self)) valid_platforms) then
    raise ValueError ("Invalid platform: " +:+ platform self +:+ ". Must be one of: "
                        +:+ PyVal.repr (VList (map VStr valid_platforms)))
  else
    let! negative :=
      if negb (TransactionType_eqb (type self) REFUND) then lt_zero (amount self)
      else Ok false in
    if negative then
      raise ValueError ("Amount must be non-negative for type TransactionType."
                          +:+ PyStr.upper (TransactionType_value (type self)))
    else Ok true.

(** What an attribute of an instance holds. *)
Inductive Attr : Type :=
| AStr (s : string)
| AType (t : TransactionType)
| ADecimal (d : Decimal)
| AOptDecimal (d : option Decimal)
| ATimestamp (t : Timestamp)
| AValue (v : pyval)
| AOptStr (s : option string)
| ADict (d : PyDict)
| AMethod (name : string).

Definition method_names : list string :=
  [ "is_revenue"; "is_refund"; "is_expense"; "is_marketing_expense";
    "get_effective_amount_usd"; "to_dict"; "from_dict"; "validate" ].

(** [self.<name>]: the fields of the dataclass, then the methods the
    class defines; any other name raises AttributeError. *)
Definition getattr (self : NormalizedTransaction) (name : string) : result Attr :=
  if String.eqb name "id" then Ok (AStr (id self))
  else if String.eqb name "platform" then Ok (AStr (platform self))
  else if String.eqb name "platform_id" then Ok (AStr (platform_id self))
  else if String.eqb name "type" then Ok (AType (type self))
  else if String.eqb name "amount" then Ok (ADecimal (amount self))
  else if String.eqb name "currency" then Ok (AValue (currency self))
  else if String.eqb name "timestamp" then Ok (ATimestamp (timestamp self))
  else if String.eqb name "amount_usd" then Ok (AOptDecimal (amount_usd self))
  else if String.eqb name "sku_id" then Ok (AValue (sku_id self))
  else if String.eqb name "quantity" then Ok (AValue (quantity self))
  else if String.eqb name "cost_per_unit" then Ok (AOptDecimal (cost_per_unit self))
  else if String.eqb name "campaign_id" then Ok (AOptStr (campaign_id self))
  else if String.eqb name "customer_id" then Ok (AOptStr (customer_id self))
  else if String.eqb name "metadata" then Ok (ADict (metadata self))
  else if existsb (String.eqb name) method_names then Ok (AMethod name)
  else
    raise AttributeError
      ("'NormalizedTransaction' object has no attribute '" +:+ name +:+ "'").

(** *** [to_dict] and [from_dict] *)

(** [TransactionType(value)] for a str. *)
Definition TransactionType_of_value (value : string) : result TransactionType :=
  match find (fun t => String.eqb value (TransactionType_value t))
             [ORDER; REFUND; AD_SPEND; EXPENSE; PAYOUT; INVENTORY_COST] with
  | Some t => Ok t
  | None => raise ValueError (PyVal.repr_str value +:+ " is not a valid TransactionType")
  end.

(** The dict [to_dict] returns, by its fourteen entries: text where
    [to_dict] writes text, [None] where it writes [None], and the
    value of the transaction where it passes a value on. *)
Record TransactionDict : Type := mkTransactionDict {
  d_id : string;
  d_platform : string;
  d_platform_id : string;
  d_type : string;
  d_amount : string;
  d_currency : pyval;
  d_amount_usd : option string;
  d_timestamp : string;
  d_sku_id : pyval;
  d_quantity : pyval;
  d_cost_per_unit : option string;
  d_campaign_id : option string;
  d_customer_id : option string;
  d_metadata : PyDict;
}.

(** [str(d) if d else None] for an optional Decimal. *)
Definition str_if_nonzero (d : option Decimal) : option string :=
  match d with
  | Some d => if Dec.truthy d then Some (to_str d) else None
  | None => None
  end.

(** An optional Decimal as it comes back from the dict: a zero has
    become [None]. *)
Definition drop_zero (d : option Decimal) : option Decimal :=
  match d with
  | Some d => if Dec.truthy d then Some d else None
  | None => None
  end.

(** [to_dict]; [isoformat] is [datetime.isoformat], whose text the
    model leaves open. *)
Definition to_dict (isoformat : PyTime.datetime -> string) (self : NormalizedTransaction)
    : result TransactionDict :=
  let! timestamp :=
    match timestamp self with
    | TsDatetime d => Ok (isoformat d)
    | TsValue v => PyVal.no_attribute v "isoformat"
    end in
  Ok (mkTransactionDict
        (id self)
        (platform self)
        (platform_id self)
        (TransactionType_value (type self))
        (to_str (amount self))
        (currency self)
        (str_if_nonzero (amount_usd self))
        timestamp
        (sku_id self)
        (quantity self)
        (str_if_nonzero (cost_per_unit self))
        (campaign_id self)
        (customer_id self)
        (metadata self)).

(** [Decimal(s) if s else None] for an optional str. *)
Definition decimal_if_truthy (s : option string) : result (option Decimal) :=
  match s with
  | Some s => if PyStr.is_empty s then Ok None else let! d := of_string s in Ok (Some d)
  | None => Ok None
  end.

(** [from_dict] on a dict of the shape [to_dict] returns. *)
Definition from_dict (rt : Runtime) (data : TransactionDict) : result NormalizedTransaction :=
  let! type := TransactionType_of_value (d_type data) in
  let! amount := of_string (d_amount data) in
  let! timestamp := fromisoformat rt (d_timestamp data) in
  let! amount_usd := decimal_if_truthy (d_amount_usd data) in
  let! cost_per_unit := decimal_if_truthy (d_cost_per_unit data) in
  post_init rt
    (mkTransaction
       (d_id data)
       (d_platform data)
       (d_platform_id data)
       type
       amount
       (d_currency data)
       (TsDatetime timestamp)
       amount_usd
       (d_sku_id data)
       (d_quantity data)
       cost_per_unit
       (d_campaign_id data)
       (d_customer_id data)
       (d_metadata data)).

End Models.

(** ** credora/normalization/normalizer.py *)
Module Normalizer.
Import Dec Models.

(** [v == s] for a str literal [s]. *)
Definition eq_str (v : pyval) (s : string) : bool :=
  match v with
  | VStr s' => String.eqb s' s
  | _ => false
  end.

(** [str(v) if v else None]. *)
Definition str_if_truthy (v : pyval) : option string :=
  if PyVal.truthy v then Some (PyVal.str v) else None.

(** [a or b] where [b] is only evaluated, and may only raise, when [a]
    is falsy. *)
Definition or_else (a : pyval) (b : result pyval) : result pyval :=
  if PyVal.truthy a then Ok a else b.

Module ShopifyNormalizer.

Definition platform : string := "shopify".

(** The pieces of [normalize] that later statements name. *)
Definition financial_status (data : PyDict) : pyval :=
  PyVal.get_default data "financial_status" (VStr "paid").
Definition is_refund (data : PyDict) : bool :=
  eq_str (financial_status data) "refunded" || eq_str (PyVal.get data "kind") "refund".
Definition amount_str (data : PyDict) : pyval :=
  PyVal.or_ (PyVal.or_ (PyVal.get data "total_price") (PyVal.get data "amount"))
            (VStr "0").
(** [if is_refund and amount < 0: amount = abs(amount)]. *)
Definition refund_magnitude (is_refund : bool) (amount : Decimal) : result Decimal :=
  if is_refund then
    let! negative := lt_zero amount in
    if negative then Dec.abs amount else Ok amount
  else Ok amount.
Definition timestamp_str (data : PyDict) : pyval :=
  PyVal.or_ (PyVal.get data "created_at") (PyVal.get data "processed_at").
Definition parse_timestamp (rt : Runtime) (timestamp_str : pyval) : result Timestamp :=
  match timestamp_str with
  | VStr s =>
      let! d := fromisoformat rt (PyStr.replace_char "Z" "+00:00" s) in
      Ok (TsDatetime d)
  | v => Ok (if PyVal.truthy v then TsValue v else TsDatetime (datetime_now rt))
  end.

Definition normalize (rt : Runtime) (data : PyDict) : result NormalizedTransaction :=
  (* Determine transaction type *)
  let financial_status := financial_status data in
  let is_refund := is_refund data in
  let tx_type := if is_refund then REFUND else ORDER in
  (* Extract amount *)
  let! amount := of_str_of (amount_str data) in
  let! amount := refund_magnitude is_refund amount in
  (* Extract line item info (first item only) *)
  let line_items := PyVal.get_default data "line_items" (VList []) in
  let! (sku_id, quantity, cost_per_unit) :=
    if PyVal.truthy line_items then
      let! first_item := PyVal.item0 line_items in
      match first_item with
      | VDict item =>
          let sku_id := PyVal.or_ (PyVal.get item "sku") (PyVal.get item "product_id") in
          let quantity := PyVal.get item "quantity" in
          let! cost_per_unit :=
            match PyVal.lookup "cost_per_item" item with
            | Some v => let! d := of_str_of v in Ok (Some d)
            | None => Ok None
            end in
          Ok (sku_id, quantity, cost_per_unit)
      | v => PyVal.no_attribute v "get"
      end
    else Ok (VNone, VNone, None) in
  (* Parse timestamp *)
  let! timestamp := parse_timestamp rt (timestamp_str data) in
  (* Extract customer ID *)
  let customer := PyVal.get_default data "customer" (VDict []) in
  let! customer_key := PyVal.dyn_get customer "id" in
  let customer_id := str_if_truthy customer_key in
  let! line_items_count := PyVal.len line_items in
  post_init rt
    (mkTransaction
       (uuid4 rt 0%nat)
       platform
       (PyVal.str (PyVal.get_default data "id" (VStr EmptyString)))
       tx_type
       amount
       (PyVal.get_default data "currency" (VStr "USD"))
       timestamp
       None
       sku_id
       quantity
       cost_per_unit
       None
       customer_id
       [ ("financial_status", financial_status);
         ("order_number", PyVal.get data "order_number");
         ("line_items_count", VInt line_items_count) ]).

End ShopifyNormalizer.

(** The date parsing Meta and Google share. *)
Definition parse_ad_date (rt : Runtime) (date_str : pyval) : result Timestamp :=
  match date_str with
  | VStr s =>
      if PyStr.contains_char "T" s then
        let! d := fromisoformat rt (PyStr.replace_char "Z" "+00:00" s) in
        Ok (TsDatetime d)
      else
        let! d := strptime rt s "%Y-%m-%d" in
        Ok (TsDatetime d)
  | v => Ok (if PyVal.truthy v then TsValue v else TsDatetime (datetime_now rt))
  end.

Module MetaNormalizer.

Definition platform : string := "meta".

Definition spend_str (data : PyDict) : pyval :=
  PyVal.or_ (PyVal.or_ (PyVal.get data "spend") (PyVal.get data "amount")) (VStr "0").

Definition normalize (rt : Runtime) (data : PyDict) : result NormalizedTransaction :=
  (* Extract spend amount *)
  let! amount := of_str_of (spend_str data) in
  (* Parse timestamp *)
  let date_str :=
    PyVal.or_ (PyVal.or_ (PyVal.get data "date_start") (PyVal.get data "date"))
              (PyVal.get data "created_time") in
  let! timestamp := parse_ad_date rt date_str in
  (* Extract campaign info *)
  let campaign_id := PyVal.or_ (PyVal.get data "campaign_id") (PyVal.get data "id") in
  post_init rt
    (mkTransaction
       (uuid4 rt 0%nat)
       platform
       (PyVal.str (PyVal.get_default data "id" (VStr EmptyString)))
       AD_SPEND
       amount
       (PyVal.get_default data "currency" (VStr "USD"))
       timestamp
       None
       VNone
       VNone
       None
       (str_if_truthy campaign_id)
       None
       [ ("campaign_name",
          PyVal.or_ (PyVal.get data "campaign_name") (PyVal.get data "name"));
         ("impressions", PyVal.get data "impressions");
         ("clicks", PyVal.get data "clicks");
         ("conversions", PyVal.get data "conversions");
         ("date_start", PyVal.get data "date_start");
         ("date_stop", PyVal.get data "date_stop") ]).

End MetaNormalizer.

Module GoogleNormalizer.

Definition platform : string := "google".

(** [data.get(k) or data.get(outer, {}).get(inner)]. *)
Definition get_or_nested (data : PyDict) (k outer inner : string) : result pyval :=
  or_else (PyVal.get data k)
          (PyVal.dyn_get (PyVal.get_default data outer (VDict [])) inner).

(** The pieces of [normalize] that later statements name. *)
Definition cost_micros (data : PyDict) : pyval :=
  PyVal.or_ (PyVal.or_ (PyVal.get data "cost_micros") (PyVal.get data "cost"))
            (VStr "0").
Definition amount_of (data : PyDict) : result Decimal :=
  if PyVal.contains "cost_micros" data then
    let! micros := of_str_of (cost_micros data) in
    Dec.div micros (lit "1000000")
  else of_str_of (cost_micros data).

Definition normalize (rt : Runtime) (data : PyDict) : result NormalizedTransaction :=
  (* Extract cost (Google uses micros - divide by 1,000,000) *)
  let! amount := amount_of data in
  (* Parse timestamp *)
  let! date_str := get_or_nested data "date" "segments" "date" in
  let! timestamp := parse_ad_date rt date_str in
  (* Extract campaign info *)
  let! campaign_id := get_or_nested data "campaign_id" "campaign" "id" in
  let platform_id :=
    PyVal.str (PyVal.get_default data "id" (PyVal.or_ campaign_id (VStr EmptyString))) in
  let! campaign_name := get_or_nested data "campaign_name" "campaign" "name" in
  let! impressions := get_or_nested data "impressions" "metrics" "impressions" in
  let! clicks := get_or_nested data "clicks" "metrics" "clicks" in
  let! conversions := get_or_nested data "conversions" "metrics" "conversions" in
  post_init rt
    (mkTransaction
       (uuid4 rt 0%nat)
       platform
       platform_id
       AD_SPEND
       amount
       (PyVal.get_default data "currency_code" (VStr "USD"))
       timestamp
       None
       VNone
       VNone
       None
       (str_if_truthy campaign_id)
       None
       [ ("campaign_name", campaign_name);
         ("impressions", impressions);
         ("clicks", clicks);
         ("conversions", conversions);
         ("cost_micros", PyVal.get data "cost_micros") ]).

End GoogleNormalizer.

(** The three classes behind the abstract [Normalizer]. *)
Inductive Normalizer : Type := Shopify | Meta | Google.

Definition platform_of (self : Normalizer) : string :=
  match self with
  | Shopify => ShopifyNormalizer.platform
  | Meta => MetaNormalizer.platform
  | Google => GoogleNormalizer.platform
  end.

(** The key of the raw record an adapter reads the currency from. *)
Definition currency_key (self : Normalizer) : string :=
  match self with
  | Google => "currency_code"
  | _ => "currency"
  end.

Definition normalize (self : Normalizer) (rt : Runtime) (data : PyDict)
    : result NormalizedTransaction :=
  match self with
  | Shopify => ShopifyNormalizer.normalize rt data
  | Meta => MetaNormalizer.normalize rt data
  | Google => GoogleNormalizer.normalize rt data
  end.

(** [normalize] called on a value that is only hoped to be a dict: the
    first thing each of the three does is [data.get]. *)
Definition normalize_value (self : Normalizer) (rt : Runtime) (data : pyval)
    : result NormalizedTransaction :=
  match data with
  | VDict d => normalize self rt d
  | v => PyVal.no_attribute v "get"
  end.

(** [normalize_batch]: the list comprehension
    [[self.normalize(record) for record in records]]; [rt i] is what
    the call for the [i]-th record reads from outside. *)
Fixpoint normalize_batch_from (self : Normalizer) (rt : nat -> Runtime) (i : nat)
    (records : list PyDict) : result (list NormalizedTransaction) :=
  match records with
  | [] => Ok []
  | record :: rest =>
      let! tx := normalize self (rt i) record in
      let! txs := normalize_batch_from self rt (S i) rest in
      Ok (tx :: txs)
  end.
Definition normalize_batch (self : Normalizer) (rt : nat -> Runtime)
    (records : list PyDict) : result (list NormalizedTransaction) :=
  normalize_batch_from self rt 0%nat records.

(** The registry [_NORMALIZERS] and its lookup. *)
Definition _NORMALIZERS : list (string * Normalizer) :=
  [("shopify", Shopify); ("meta", Meta); ("google", Google)].

Definition get_normalizer (platform : string) : result Normalizer :=
  let platform_lower := PyStr.strip (PyStr.lower platform) in
  match find (fun kv => String.eqb platform_lower (fst kv)) _NORMALIZERS with
  | Some kv => Ok (snd kv)
  | None =>
      raise ValueError
        ("Unsupported platform: " +:+ platform +:+ ". Supported platforms: "
           +:+ PyVal.repr (VList (map (fun kv => VStr (fst kv)) _NORMALIZERS)))
  end.

Definition normalize_transaction (platform : string) (rt : Runtime) (data : PyDict)
    : result NormalizedTransaction :=
  let! normalizer := get_normalizer platform in
  normalize normalizer rt data.

Definition normalize_transactions (platform : string) (rt : nat -> Runtime)
    (records : list PyDict) : result (list NormalizedTransaction) :=
  let! normalizer := get_normalizer platform in
  normalize_batch normalizer rt records.

End Normalizer.

(** ** Coroutines over a state

    An [async def] is run to completion on a state [S] that holds the
    object's attributes and the world outside.  It returns, raises, or
    never completes. *)
Inductive outcome (A : Type) : Type :=
| Returns (a : A)
| Raises (e : PyExc)
| Hangs.
Arguments Returns {A} a.
Arguments Raises {A} e.
Arguments Hangs {A}.

Definition Task (S A : Type) : Type := S -> outcome A * S.

Module Task.
Section Ops.
Context {S : Type}.

Definition ret {A} (a : A) : Task S A := fun s => (Returns a, s).

Definition bind {A B} (m : Task S A) (k : A -> Task S B) : Task S B :=
  fun s =>
    match m s with
    | (Returns a, s') => k a s'
    | (Raises e, s') => (Raises e, s')
    | (Hangs, s') => (Hangs, s')
    end.

Definition throw {A} (e : PyExc) : Task S A := fun s => (Raises e, s).

(** A computation that touches no state. *)
Definition lift {A} (r : result A) : Task S A :=
  fun s => match r with Ok a => (Returns a, s) | Raise e => (Raises e, s) end.

Definition gets {A} (f : S -> A) : Task S A := fun s => (Returns (f s), s).
Definition modify (f : S -> S) : Task S unit := fun s => (Returns tt, f s).

(** [try: body  except Exception as e: handler(e)]. *)
Definition try_except {A} (body : Task S A) (handler : PyExc -> Task S A) : Task S A :=
  fun s =>
    match body s with
    | (Raises e, s') => handler e s'
    | r => r
    end.

(** A [for] loop whose body updates an accumulator. *)
Fixpoint for_each {A X} (xs : list X) (body : X -> A -> Task S A) (acc : A) : Task S A :=
  match xs with
  | [] => ret acc
  | x :: xs' => bind (body x acc) (for_each xs' body)
  end.
(** [m] completes, by a return or an exception, in a state that
    [R] relates to the one it started in. *)
Definition steady (R : S -> S -> Prop) {A} (m : Task S A) : Prop :=
  forall s, fst (m s) <> Hangs /\ R s (snd (m s)).

(** [m] ends in an exception, in a state that [R] relates to the one
    it started in. *)
Definition fails (R : S -> S -> Prop) {A} (m : Task S A) : Prop :=
  forall s, (exists e, fst (m s) = Raises e) /\ R s (snd (m s)).
End Ops.
End Task.

Notation "'let*' x ':=' e 'in' k" := (Task.bind e (fun x => k))
  (at level 10, x pattern, e at level 100, k at level 200) : py_scope.

(** ** credora/mcp_servers/fastmcp/token_manager.py *)
Module TokenManager.
Import PyTime.

(** The dataclass [TokenData]; the annotations are not enforced, the
    text fields hold what the database row or the JSON reply held. *)
Record TokenData : Type := mkTokenData {
  access_token : pyval;
  refresh_token : pyval;
  expires_at : option datetime;
  platform_user_id : pyval;
  scopes : pyval;
  metadata : pyval;
}.

(** [is_expired], with [now] the value of [datetime.now(timezone.utc)]. *)
Definition is_expired (now : datetime) (self : TokenData) (buffer_seconds : Z)
    : result bool :=
  match expires_at self with
  | None => Ok false
  | Some expires_at =>
      let expires_at :=
        match utcoffset expires_at with
        | None => replace_tz_utc expires_at
        | Some _ => expires_at
        end in
      let! buffer := timedelta_seconds buffer_seconds in
      let! limit := sub_us expires_at buffer in
      ge now limit
  end.

(** The reading of the clock as an aware UTC datetime. *)
Definition utc (reading : Z) : datetime := mkDatetime reading (Some 0).

(** A row of the [tokens] table, as [fetchrow] returns it. *)
Record TokenRow : Type := mkTokenRow {
  access_token_encrypted : pyval;
  refresh_token_encrypted : pyval;
  row_expires_at : option datetime;
  row_scopes : pyval;
  row_platform_user_id : pyval;
}.

(** What lies outside the manager, acting on a state [Ext] of its own:
    the clock, the database, the process environment, the OAuth
    endpoints. *)
Record Outside (Ext : Type) : Type := mkOutside {
  now_utc : Ext -> Z;
  get_database : Ext -> result unit * Ext;
  db_is_connected : Ext -> bool;
  db_connect : Ext -> result unit * Ext;
  (* fetchval("SELECT id FROM users WHERE external_id = $1 OR email = $1"),
     already through [str(result) if result else None] *)
  db_fetchval_user : string -> Ext -> result (option string) * Ext;
  uuid_UUID : string -> result string;
  db_fetchrow_token : string -> string -> Ext -> result (option TokenRow) * Ext;
  db_execute_upsert_token : string -> string -> TokenData -> Ext -> result unit * Ext;
  environ_get : string -> Ext -> string;   (* os.environ.get(name), empty when unset *)
  (* the GET or POST of the refresh grant: status code and [response.json()] *)
  http_refresh : string -> string -> string -> pyval -> Ext -> result (Z * result pyval) * Ext;
  timedelta_of_float : string -> result Z; (* timedelta(seconds=x) for a float x *)
}.
Arguments now_utc {Ext}.
Arguments get_database {Ext}.
Arguments db_is_connected {Ext}.
Arguments db_connect {Ext}.
Arguments db_fetchval_user {Ext}.
Arguments uuid_UUID {Ext}.
Arguments db_fetchrow_token {Ext}.
Arguments db_execute_upsert_token {Ext}.
Arguments environ_get {Ext}.
Arguments http_refresh {Ext}.
Arguments timedelta_of_float {Ext}.

(** A [Dict[str, TokenData]], the credentials of one user by platform:
    a dict keeps its keys in the order in which they were inserted. *)
Abbreviation Tokens := (list (string * TokenData)).

(** [d.get(k)]. *)
Fixpoint tokens_get (k : string) (d : Tokens) : option TokenData :=
  match d with
  | [] => None
  | (k', v) :: d' => if String.eqb k k' then Some v else tokens_get k d'
  end.

(** [d[k] = v]: the value of a key the dict holds is replaced where it
    stands, a new key goes to the end. *)
Fixpoint tokens_set (k : string) (v : TokenData) (d : Tokens) : Tokens :=
  match d with
  | [] => [(k, v)]
  | (k', v') :: d' =>
      if String.eqb k k' then (k', v) :: d' else (k', v') :: tokens_set k v d'
  end.

(** [del d[k]]; the keys that stay keep their order. *)
Fixpoint tokens_del (k : string) (d : Tokens) : Tokens :=
  match d with
  | [] => []
  | (k', v') :: d' =>
      if String.eqb k k' then tokens_del k d' else (k', v') :: tokens_del k d'
  end.

(** [self._cache]: the dict of the users, whose order no method reads,
    and for each user the dict of the platforms. *)
Abbreviation Cache := (gmap string Tokens).

(** The attributes of a [TokenManager] and the world outside it. *)
Record State (Ext : Type) : Type := mkState {
  _db : bool;        (* [self._db is not None] *)
  _lock : bool;      (* the [asyncio.Lock] is held *)
  _cache : Cache;
  ext : Ext;
}.
Arguments mkState {Ext}.
Arguments _db {Ext}.
Arguments _lock {Ext}.
Arguments _cache {Ext}.
Arguments ext {Ext}.

(** [self._cache.get(user_id, {}).get(platform)]. *)
Definition cache_get (cache : Cache) (user_id platform : string) : option TokenData :=
  match cache !! user_id with
  | Some per_user => tokens_get platform per_user
  | None => None
  end.

(** [self._cache[user_id][platform] = token_data], after the entry of
    the user is created when missing. *)
Definition cache_set (cache : Cache) (user_id platform : string) (token_data : TokenData)
    : Cache :=
  <[user_id := tokens_set platform token_data (default [] (cache !! user_id))]> cache.

Section Manager.
Context {Ext : Type} (O : Outside Ext).

Abbreviation M := (Task (State Ext)).

(** A call to the outside. *)
Definition call {A} (f : Ext -> result A * Ext) : M A :=
  fun s =>
    let '(r, x) := f (ext s) in
    let s' := mkState (_db s) (_lock s) (_cache s) x in
    match r with
    | Ok a => (Returns a, s')
    | Raise e => (Raises e, s')
    end.

Definition set_db (b : bool) : M unit :=
  Task.modify (fun s => mkState b (_lock s) (_cache s) (ext s)).
Definition set_lock (b : bool) : M unit :=
  Task.modify (fun s => mkState (_db s) b (_cache s) (ext s)).
Definition set_cache (f : Cache -> Cache) : M unit :=
  Task.modify (fun s => mkState (_db s) (_lock s) (f (_cache s)) (ext s)).

(** [async with self._lock: body].  The lock is not reentrant: a
    coroutine that asks for it while holding it waits for ever.  It
    is released when the body returns or raises. *)
Definition with_lock {A} (body : M A) : M A :=
  fun s =>
    if _lock s then (Hangs, s)
    else
      match body (mkState (_db s) true (_cache s) (ext s)) with
      | (Hangs, s') => (Hangs, s')
      | (r, s') => (r, mkState (_db s') false (_cache s') (ext s'))
      end.

Definition now : M datetime := Task.gets (fun s => utc (now_utc O (ext s))).

(** [_get_db]: [true] when a database object is returned, [false]
    for [None]. *)
Definition _get_db : M bool :=
  let* have := Task.gets _db in
  if have then Task.ret true
  else
    Task.try_except
      (let* _ := call (get_database O) in
       let* _ := set_db true in
       let* connected := Task.gets (fun s => db_is_connected O (ext s)) in
       let* _ := if connected then Task.ret tt else call (db_connect O) in
       Task.ret true)
      (fun e => Task.ret false).

Definition _get_user_uuid (user_id : string) : M (option string) :=
  let* db := _get_db in
  if negb db then Task.ret None
  else
    Task.try_except
      (call (db_fetchval_user O user_id))
      (fun e => Task.ret None).

Definition store_token (user_id platform : string) (token_data : TokenData) : M unit :=
  with_lock
    (let* _ := set_cache (fun c => cache_set c user_id platform token_data) in
     let* db := _get_db in
     if negb db then Task.ret tt
     else
       Task.try_except
         (let* user_uuid := _get_user_uuid user_id in
          match user_uuid with
          | None => Task.ret tt
          | Some user_uuid =>
              let* u := Task.lift (uuid_UUID O user_uuid) in
              call (db_execute_upsert_token O u platform token_data)
          end)
         (fun e => Task.ret tt)).

(** [timedelta(seconds=v)] for a value of a JSON reply, in microseconds. *)
Definition timedelta_of_value (v : pyval) : result Z :=
  match v with
  | VInt n => timedelta_seconds n
  | VBool b => timedelta_seconds (if b then 1 else 0)
  | VFloat r => timedelta_of_float O r
  | _ =>
      raise TypeError
        ("unsupported type for timedelta seconds component: " +:+ PyVal.type_name v)
  end.

Definition _refresh_token (platform : string) (token_data : TokenData)
    : M (option TokenData) :=
  if String.eqb platform "shopify" then Task.ret None
  else
    let prefix := PyStr.upper platform in
    let* client_id := Task.gets (fun s => environ_get O (prefix +:+ "_CLIENT_ID") (ext s)) in
    let* client_secret :=
      Task.gets (fun s => environ_get O (prefix +:+ "_CLIENT_SECRET") (ext s)) in
    if PyStr.is_empty client_id || PyStr.is_empty client_secret then Task.ret None
    else if String.eqb platform "meta" || String.eqb platform "google" then
      let* response :=
        call (http_refresh O platform client_id client_secret (refresh_token token_data)) in
      let '(status_code, json) := response in
      if negb (status_code =? 200) then Task.ret None
      else
        let* data := Task.lift json in
        let* access := Task.lift (PyVal.dyn_get_default data "access_token" (VStr EmptyString)) in
        let* refresh :=
          Task.lift (PyVal.dyn_get_default data "refresh_token" (refresh_token token_data)) in
        let* t := now in
        let* expires_in := Task.lift (PyVal.dyn_get_default data "expires_in" (VInt 3600)) in
        let* delta := Task.lift (timedelta_of_value expires_in) in
        let* expires := Task.lift (add_us t delta) in
        Task.ret (Some (mkTokenData access refresh (Some expires)
                          (platform_user_id token_data) (scopes token_data)
                          (metadata token_data)))
    else Task.ret None.

Definition token_of_row (row : TokenRow) : TokenData :=
  mkTokenData (access_token_encrypted row) (refresh_token_encrypted row)
    (row_expires_at row) (row_platform_user_id row) (row_scopes row) VNone.

(** [token_data.is_expired()] at the current reading of the clock. *)
Definition expired_now (token_data : TokenData) : M bool :=
  let* t := now in
  Task.lift (is_expired t token_data 300).

Definition get_token (user_id platform : string) (auto_refresh : bool)
    : M (option TokenData) :=
  with_lock
    (let* cached := Task.gets (fun s => cache_get (_cache s) user_id platform) in
     let* hit :=
       match cached with
       | Some token_data =>
           let* expired := expired_now token_data in
           Task.ret (if expired then None else Some token_data)
       | None => Task.ret None
       end in
     match hit with
     | Some token_data => Task.ret (Some token_data)
     | None =>
         let* db := _get_db in
         if negb db then Task.gets (fun s => cache_get (_cache s) user_id platform)
         else
           Task.try_except
             (let* user_uuid := _get_user_uuid user_id in
              match user_uuid with
              | None => Task.ret None
              | Some user_uuid =>
                  let* u := Task.lift (uuid_UUID O user_uuid) in
                  let* row := call (db_fetchrow_token O u platform) in
                  match row with
                  | None => Task.ret None
                  | Some row =>
                      let token_data := token_of_row row in
                      let* _ := set_cache (fun c => cache_set c user_id platform token_data) in
                      let* expired :=
                        if auto_refresh then expired_now token_data else Task.ret false in
                      if auto_refresh && expired && PyVal.truthy (refresh_token token_data)
                      then
                        let* refreshed :=
                          Task.try_except
                            (let* refreshed := _refresh_token platform token_data in
                             match refreshed with
                             | Some refreshed =>
                                 let* _ := store_token user_id platform refreshed in
                                 Task.ret (Some refreshed)
                             | None => Task.ret None
                             end)
                            (fun e => Task.ret None) in
                        match refreshed with
                        | Some refreshed => Task.ret (Some refreshed)
                        | None => Task.ret (Some token_data)
                        end
                      else Task.ret (Some token_data)
                  end
              end)
             (fun e => Task.gets (fun s => cache_get (_cache s) user_id platform))
     end).

End Manager.

(** The two statements that [delete_token] and [list_platforms] run
    on the [tokens] table. *)
Record TokenQueries (Ext : Type) : Type := mkTokenQueries {
  db_execute_delete_token : string -> string -> Ext -> result unit * Ext;
  (* fetch("SELECT platform FROM tokens WHERE user_id = $1"), each row
     by its column [platform] *)
  db_fetch_platforms : string -> Ext -> result (list string) * Ext;
}.
Arguments db_execute_delete_token {Ext}.
Arguments db_fetch_platforms {Ext}.

(** [del self._cache[user_id][platform]] when the entry is there, and
    [del self._cache[user_id]] when that leaves the user with none. *)
Definition cache_del (cache : Cache) (user_id platform : string) : Cache :=
  match cache !! user_id with
  | Some per_user =>
      match tokens_get platform per_user with
      | Some _ =>
          match tokens_del platform per_user with
          | [] => delete user_id cache
          | per_user => <[user_id := per_user]> cache
          end
      | None => cache
      end
  | None => cache
  end.

(** [list(self._cache.get(user_id, {}).keys())]: the platforms of the
    user in the order in which they were first cached. *)
Definition cached_platforms (cache : Cache) (user_id : string) : list string :=
  match cache !! user_id with
  | Some per_user => map fst per_user
  | None => []
  end.

Section Queries.
Context {Ext : Type} (O : Outside Ext) (Q : TokenQueries Ext).

Abbreviation M := (Task (State Ext)).

Definition delete_token (user_id platform : string) : M bool :=
  with_lock
    (let* _ := set_cache (fun c => cache_del c user_id platform) in
     let* db := _get_db O in
     if negb db then Task.ret true
     else
       Task.try_except
         (let* user_uuid := _get_user_uuid O user_id in
          match user_uuid with
          | None => Task.ret false
          | Some user_uuid =>
              let* u := Task.lift (uuid_UUID O user_uuid) in
              let* _ := call (db_execute_delete_token Q u platform) in
              Task.ret true
          end)
         (fun e => Task.ret false)).

Definition list_platforms (user_id : string) : M (list string) :=
  with_lock
    (let* db := _get_db O in
     if negb db then Task.gets (fun s => cached_platforms (_cache s) user_id)
     else
       Task.try_except
         (let* user_uuid := _get_user_uuid O user_id in
          match user_uuid with
          | None => Task.ret []
          | Some user_uuid =>
              let* u := Task.lift (uuid_UUID O user_uuid) in
              call (db_fetch_platforms Q u)
          end)
         (fun e => Task.gets (fun s => cached_platforms (_cache s) user_id))).

End Queries.

End TokenManager.

(** ** credora/services/data_sync.py *)
Module DataSync.
Import PyTime.

(** The summary dict a sync returns. *)
Record SyncResult : Type := mkResult {
  platform : string;
  transactions_synced : Z;
  products_synced : Z;
  campaigns_synced : Z;
  errors : list string;
}.

Definition new_result (platform : string) : SyncResult := mkResult platform 0 0 0 [].

Definition append_error (r : SyncResult) (msg : string) : SyncResult :=
  mkResult (platform r) (transactions_synced r) (products_synced r) (campaigns_synced r)
           (errors r ++ [msg]).
Definition count_transaction (r : SyncResult) : SyncResult :=
  mkResult (platform r) (transactions_synced r + 1) (products_synced r) (campaigns_synced r)
           (errors r).
Definition count_product (r : SyncResult) : SyncResult :=
  mkResult (platform r) (transactions_synced r) (products_synced r + 1) (campaigns_synced r)
           (errors r).
Definition count_campaign (r : SyncResult) : SyncResult :=
  mkResult (platform r) (transactions_synced r) (products_synced r) (campaigns_synced r + 1)
           (errors r).

(** A row of the [transactions] table, by the columns the INSERT names. *)
Record TxRow : Type := mkTxRow {
  row_type : string;
  row_amount : Dec.PyFloat;
  row_currency : pyval;
  row_amount_usd : Dec.PyFloat;
  row_quantity : pyval;
  row_occurred_at : Models.Attr;
}.

(** The table, by (user_id, platform, platform_id). *)
Abbreviation TxStore := (gmap (string * string * string) TxRow).

(** Modelled from the spec: the definition of the [transactions] table
    is not among the sources.  The spec gives it a uniqueness
    constraint on (user, platform, platformId), under which
    [INSERT ... ON CONFLICT DO NOTHING] adds the row when its key is
    new and does nothing when the key is taken. *)
Definition insert_on_conflict_do_nothing (key : string * string * string) (row : TxRow)
    (table : TxStore) : TxStore :=
  match table !! key with
  | Some _ => table
  | None => <[key := row]> table
  end.

(** What lies outside the service, acting on a state [Ext] of its own:
    the clock and the random source, the MCP router and the platforms
    behind it, the database other than the [transactions] table. *)
Record Outside (Ext : Type) : Type := mkOutside {
  today : Ext -> Z;                      (* date.today(), as an ordinal *)
  isoformat : Z -> string;               (* date.isoformat() *)
  runtime : Ext -> Runtime;              (* what [normalize] reads *)
  get_mcp_router : Ext -> result unit * Ext;
  get_database : Ext -> result unit * Ext;
  db_is_connected : Ext -> bool;
  db_connect : Ext -> result unit * Ext;
  (* fetchval("SELECT id FROM users WHERE external_id = $1"), already
     through [str(result) if result else None] *)
  db_fetchval_user : string -> Ext -> result (option string) * Ext;
  db_execute_insert_user : string -> Ext -> result unit * Ext;
  db_acquire : Ext -> result unit * Ext; (* the connection an [execute] runs on *)
  uuid_UUID : string -> result string;
  fetch_orders : string -> string -> string -> string -> Z -> Ext -> result pyval * Ext;
  fetch_products : string -> string -> Z -> Ext -> result pyval * Ext;
  fetch_ad_accounts : string -> string -> Ext -> result pyval * Ext;
  fetch_campaigns : string -> string -> pyval -> string -> string -> Ext -> result pyval * Ext;
  (* [_upsert_product] and [_upsert_campaign]: float conversions and
     writes to tables no property here reads *)
  upsert_product : string -> string -> pyval -> Ext -> result unit * Ext;
  upsert_campaign : string -> string -> pyval -> Ext -> result unit * Ext;
}.
Arguments today {Ext}.
Arguments isoformat {Ext}.
Arguments runtime {Ext}.
Arguments get_mcp_router {Ext}.
Arguments get_database {Ext}.
Arguments db_is_connected {Ext}.
Arguments db_connect {Ext}.
Arguments db_fetchval_user {Ext}.
Arguments db_execute_insert_user {Ext}.
Arguments db_acquire {Ext}.
Arguments uuid_UUID {Ext}.
Arguments fetch_orders {Ext}.
Arguments fetch_products {Ext}.
Arguments fetch_ad_accounts {Ext}.
Arguments fetch_campaigns {Ext}.
Arguments upsert_product {Ext}.
Arguments upsert_campaign {Ext}.

(** The attributes of a [DataSyncService], the [transactions] table
    and the rest of the world. *)
Record State (Ext : Type) : Type := mkState {
  _db : bool;           (* [self._db is not None] *)
  _mcp_router : bool;   (* [self._mcp_router is not None] *)
  transactions : TxStore;
  ext : Ext;
}.
Arguments mkState {Ext}.
Arguments _db {Ext}.
Arguments _mcp_router {Ext}.
Arguments transactions {Ext}.
Arguments ext {Ext}.

Section Service.
Context {Ext : Type} (O : Outside Ext).

Abbreviation M := (Task (State Ext)).
(** Inside a [_sync_*] method the local [result] dict is state too:
    what was counted before an exception stays counted. *)
Abbreviation L := (Task (State Ext * SyncResult)).

Definition call {A} (f : Ext -> result A * Ext) : M A :=
  fun s =>
    let '(r, x) := f (ext s) in
    let s' := mkState (_db s) (_mcp_router s) (transactions s) x in
    match r with
    | Ok a => (Returns a, s')
    | Raise e => (Raises e, s')
    end.

Definition up {A} (m : M A) : L A :=
  fun sr => let '(o, s') := m (fst sr) in (o, (s', snd sr)).

Definition update_result (f : SyncResult -> SyncResult) : L unit :=
  Task.modify (fun sr => (fst sr, f (snd sr))).

(** Run the part of a method that works on its [result] dict, and
    return the dict. *)
Definition with_result (init : SyncResult) (body : L unit) : M SyncResult :=
  fun s =>
    match body (s, init) with
    | (Returns _, (s', r)) => (Returns r, s')
    | (Raises e, (s', _)) => (Raises e, s')
    | (Hangs, (s', _)) => (Hangs, s')
    end.

Definition for_ {S X} (xs : list X) (body : X -> Task S unit) : Task S unit :=
  Task.for_each xs (fun x _ => body x) tt.

Definition _get_db : M unit :=
  let* have := Task.gets _db in
  if have then Task.ret tt
  else
    let* _ := call (get_database O) in
    let* _ := Task.modify
                (fun s => mkState true (_mcp_router s) (transactions s) (ext s)) in
    let* connected := Task.gets (fun s => db_is_connected O (ext s)) in
    if connected then Task.ret tt else call (db_connect O).

Definition _get_router : M unit :=
  let* have := Task.gets _mcp_router in
  if have then Task.ret tt
  else
    let* _ := call (get_mcp_router O) in
    Task.modify (fun s => mkState (_db s) true (transactions s) (ext s)).

Definition _get_user_uuid (external_id : string) : M (option string) :=
  let* _ := _get_db in
  call (db_fetchval_user O external_id).

Definition _ensure_user_uuid (external_id : string) : M string :=
  let* _ := _get_db in
  let* user_uuid := _get_user_uuid external_id in
  match user_uuid with
  | Some u => Task.ret u
  | None =>
      let* _ := call (db_execute_insert_user O external_id) in
      let* user_uuid := _get_user_uuid external_id in
      match user_uuid with
      | Some u => Task.ret u
      | None =>
          Task.throw (mkExc ValueError ("Failed to create user for " +:+ external_id))
      end
  end.

(** [db.execute] of the INSERT into [transactions]. *)
Definition db_execute_insert_transaction (key : string * string * string) (row : TxRow)
    : M unit :=
  let* _ := call (db_acquire O) in
  Task.modify
    (fun s => mkState (_db s) (_mcp_router s)
                (insert_on_conflict_do_nothing key row (transactions s)) (ext s)).

(** [_insert_transaction]: the arguments of [db.execute] are
    evaluated left to right, then the call is made. *)
Definition _insert_transaction (user_uuid : string)
    (transaction : Models.NormalizedTransaction) : M unit :=
  let* _ := _get_db in
  let tx_type := Models.TransactionType_value (Models.type transaction) in
  let* user := Task.lift (uuid_UUID O user_uuid) in
  let platform := Models.platform transaction in
  let platform_id := Models.platform_id transaction in
  let* amount := Task.lift (Dec.to_float (Models.amount transaction)) in
  let currency := Models.currency transaction in
  let* amount_usd :=
    Task.lift
      (match Models.amount_usd transaction with
       | Some u =>
           if Dec.truthy u then Dec.to_float u
           else Dec.to_float (Models.amount transaction)
       | None => Dec.to_float (Models.amount transaction)
       end) in
  let quantity := Models.quantity transaction in
  let* occurred_at := Task.lift (Models.getattr transaction "occurred_at") in
  db_execute_insert_transaction (user, platform, platform_id)
    (mkTxRow tx_type amount currency amount_usd quantity occurred_at).

(** [f"{label} {item.get('id', 'unknown')}: {str(e)}"]. *)
Definition item_error (label : string) (item : pyval) (e : PyExc) : result string :=
  let! ident := PyVal.dyn_get_default item "id" (VStr "unknown") in
  Ok (label +:+ " " +:+ PyVal.str ident +:+ ": " +:+ exc_str e).

(** The body of the loop over the orders, with its [try]. *)
Definition sync_order (user_uuid : string) (normalizer : Normalizer.Normalizer)
    (order_data : pyval) : L unit :=
  Task.try_except
    (let* rt := Task.gets (fun sr => runtime O (ext (fst sr))) in
     let* normalized :=
       Task.lift (Normalizer.normalize_value normalizer rt order_data) in
     let* _ := up (_insert_transaction user_uuid normalized) in
     update_result count_transaction)
    (fun e =>
       let* msg := Task.lift (item_error "Order" order_data e) in
       update_result (fun r => append_error r msg)).

(** The body of the loop over the products, with its [try]. *)
Definition sync_product (user_uuid : string) (product_data : pyval) : L unit :=
  Task.try_except
    (let* _ := up (call (upsert_product O user_uuid "shopify" product_data)) in
     update_result count_product)
    (fun e =>
       let* msg := Task.lift (item_error "Product" product_data e) in
       update_result (fun r => append_error r msg)).

Definition _sync_shopify (user_id date_from date_to : string) : M SyncResult :=
  let* _ := _get_router in
  let* normalizer := Task.lift (Normalizer.get_normalizer "shopify") in
  let* _ := _get_db in
  let* user_uuid := _ensure_user_uuid user_id in
  with_result (new_result "shopify")
    ((* Fetch orders *)
     let* _ :=
       Task.try_except
         (let* orders :=
            up (call (fetch_orders O user_id "shopify" date_from date_to 250)) in
          let* orders := Task.lift (PyVal.iter orders) in
          (* Normalize and insert orders *)
          for_ orders (sync_order user_uuid normalizer))
         (fun e =>
            update_result (fun r => append_error r ("Failed to fetch orders: " +:+ exc_str e))) in
     (* Fetch products *)
     Task.try_except
       (let* products := up (call (fetch_products O user_id "shopify" 250)) in
        let* products := Task.lift (PyVal.iter products) in
        for_ products (sync_product user_uuid))
       (fun e =>
          update_result (fun r => append_error r ("Failed to fetch products: " +:+ exc_str e)))).

(** The body of the loop over the campaigns of an account, with its
    [try]. *)
Definition sync_campaign (name user_uuid : string) (normalizer : Normalizer.Normalizer)
    (campaign_data : pyval) : L unit :=
  Task.try_except
    ((* Store campaign *)
     let* _ := up (call (upsert_campaign O user_uuid name campaign_data)) in
     let* _ := update_result count_campaign in
     (* Normalize spend as transaction *)
     let* rt := Task.gets (fun sr => runtime O (ext (fst sr))) in
     let* normalized :=
       Task.lift (Normalizer.normalize_value normalizer rt campaign_data) in
     let* _ := up (_insert_transaction user_uuid normalized) in
     update_result count_transaction)
    (fun e =>
       let* msg := Task.lift (item_error "Campaign" campaign_data e) in
       update_result (fun r => append_error r msg)).

(** The body of the loop over the ad accounts. *)
Definition sync_account (name account_key account_label : string)
    (user_id user_uuid date_from date_to : string) (normalizer : Normalizer.Normalizer)
    (account : pyval) : L unit :=
  let* fallback := Task.lift (PyVal.dyn_get_default account account_key (VStr EmptyString)) in
  let* account_id := Task.lift (PyVal.dyn_get_default account "id" fallback) in
  (* Fetch campaigns for each account *)
  Task.try_except
    (let* campaigns :=
       up (call (fetch_campaigns O user_id name account_id date_from date_to)) in
     let* campaigns := Task.lift (PyVal.iter campaigns) in
     for_ campaigns (sync_campaign name user_uuid normalizer))
    (fun e =>
       update_result
         (fun r => append_error r
            (account_label +:+ " " +:+ PyVal.str account_id +:+ ": " +:+ exc_str e))).

(** [_sync_meta] and [_sync_google] are the same text up to the
    platform name, the fallback key of an account's id, and the
    words of two messages. *)
Definition _sync_ads (name account_key account_label fetch_failed : string)
    (user_id date_from date_to : string) : M SyncResult :=
  let* _ := _get_router in
  let* normalizer := Task.lift (Normalizer.get_normalizer name) in
  let* _ := _get_db in
  let* user_uuid := _ensure_user_uuid user_id in
  with_result (new_result name)
    (Task.try_except
       (let* ad_accounts := up (call (fetch_ad_accounts O user_id name)) in
        let* ad_accounts := Task.lift (PyVal.iter ad_accounts) in
        for_ ad_accounts
          (sync_account name account_key account_label user_id user_uuid
             date_from date_to normalizer))
       (fun e =>
          update_result (fun r => append_error r (fetch_failed +:+ exc_str e)))).

Definition _sync_meta : string -> string -> string -> M SyncResult :=
  _sync_ads "meta" "account_id" "Account" "Failed to fetch ad accounts: ".
Definition _sync_google : string -> string -> string -> M SyncResult :=
  _sync_ads "google" "customer_id" "Customer" "Failed to fetch customers: ".

(** [sync_platform]; a date is its ordinal, [None] a date left out. *)
Definition sync_platform (user_id platform : string) (date_from date_to : option Z)
    : M SyncResult :=
  let platform := PyStr.lower platform in
  (* Default date range: last 30 days *)
  let* date_to :=
    match date_to with
    | Some d => Task.ret d
    | None => Task.gets (fun s => today O (ext s))
    end in
  let* date_from :=
    match date_from with
    | Some d => Task.ret d
    | None => Task.lift (date_sub_days date_to 30)
    end in
  let date_from_str := isoformat O date_from in
  let date_to_str := isoformat O date_to in
  let result := new_result platform in
  Task.try_except
    (if String.eqb platform "shopify" then _sync_shopify user_id date_from_str date_to_str
     else if String.eqb platform "meta" then _sync_meta user_id date_from_str date_to_str
     else if String.eqb platform "google" then _sync_google user_id date_from_str date_to_str
     else Task.ret (append_error result ("Unsupported platform: " +:+ platform)))
    (fun e => Task.ret (append_error result (exc_str e))).

(** What the properties of a sync speak of.  The [transactions]
    table is left as it was. *)
Definition same_table (s s' : State Ext) : Prop := transactions s' = transactions s.
(** So is the table, and the count of transactions in [result]. *)
Definition same_count (sr sr' : State Ext * SyncResult) : Prop :=
  transactions (fst sr') = transactions (fst sr)
  /\ transactions_synced (snd sr') = transactions_synced (snd sr).

(** A method that returns a report: it completes, leaves the table
    as it was, and a report it returns counts no transaction. *)
Definition quiet (m : M SyncResult) : Prop :=
  forall s,
    match m s with
    | (Returns r, s') => transactions s' = transactions s /\ transactions_synced r = 0
    | (Raises _, s') => transactions s' = transactions s
    | (Hangs, _) => False
    end.

(** A report that counts nothing and holds an error. *)
Definition empty_handed (r : SyncResult) : Prop :=
  transactions_synced r = 0 /\ products_synced r = 0 /\ campaigns_synced r = 0
  /\ errors r <> [].

End Service.

(** The summary dict [sync_all_platforms] returns. *)
Record AllResult : Type := mkAllResult {
  all_user_id : string;
  platforms_synced : list string;
  total_transactions : Z;
  total_products : Z;
  total_campaigns : Z;
  all_errors : list string;
}.

(** What the body of the loop over the platforms does to the summary. *)
Definition add_platform (results : AllResult) (platform : string)
    (platform_result : SyncResult) : AllResult :=
  mkAllResult (all_user_id results)
    (platforms_synced results ++ [platform])
    (total_transactions results + transactions_synced platform_result)
    (total_products results + products_synced platform_result)
    (total_campaigns results + campaigns_synced platform_result)
    (all_errors results ++ errors platform_result).

Section AllPlatforms.
Context {Ext : Type} (O : Outside Ext).
(** [get_token_manager().list_platforms(user_id)]: the token manager
    is an object of its own, and what it answers is read from
    outside. *)
Variable list_platforms : string -> Ext -> result (list string) * Ext.

Definition sync_all_platforms (user_id : string) (date_from date_to : option Z)
    : Task (State Ext) AllResult :=
  (* Get connected platforms from FastMCP token manager *)
  let* connected_platforms := call (list_platforms user_id) in
  Task.for_each connected_platforms
    (fun platform results =>
       let* platform_result := sync_platform O user_id platform date_from date_to in
       Task.ret (add_platform results platform platform_result))
    (mkAllResult user_id [] 0 0 0 []).

End AllPlatforms.

End DataSync.

(** ** Sample surroundings

    Concrete clocks, parsers and collaborators on which the definitions
    above are evaluated. *)
Module Sample.

(** 2024-01-15T10:30:00, naive: day 738900 of the calendar. *)
Definition a_moment : PyTime.datetime :=
  PyTime.mkDatetime ((738899 * 86400 + 37800) * 1000000) None.

(** A runtime whose clock reads [now] and whose parsers know a single
    text each. *)
Definition runtime_at (now : PyTime.datetime) : Runtime :=
  mkRuntime now
    (fun n => "3f2b8c1e-6d4a-4e0b-9a57-0c1d2e3f4a5" +:+ PyStr.of_Z (Z.of_nat n))
    (fun s =>
       if String.eqb s "2024-01-15T10:30:00+00:00"
       then Ok (PyTime.mkDatetime (PyTime.wall a_moment) (Some 0))
       else raise ValueError ("Invalid isoformat string: " +:+ PyVal.repr_str s))
    (fun s fmt =>
       if String.eqb s "2024-01-15"
       then Ok (PyTime.mkDatetime (738899 * 86400 * 1000000) None)
       else raise ValueError
              ("time data " +:+ PyVal.repr_str s +:+ " does not match format "
                 +:+ PyVal.repr_str fmt)).

Definition runtime : Runtime := runtime_at a_moment.

(** Raw records. *)
Definition order_eur : PyDict :=
  [("id", VStr "ord_1"); ("total_price", VStr "10.00"); ("currency", VStr "EUR")].
Definition order_plain : PyDict :=
  [("id", VStr "ord_2"); ("total_price", VStr "49.99")].
Definition refund_negative : PyDict :=
  [("id", VStr "ord_3"); ("total_price", VStr "-20.00"); ("financial_status", VStr "refunded")].
Definition refund_by_kind : PyDict :=
  [("id", VStr "ord_4"); ("total_price", VStr "20.00"); ("financial_status", VStr "paid");
   ("kind", VStr "refund")].

Definition order_malformed : PyDict :=
  [("id", VStr "ord_5"); ("total_price", VStr "12,50")].

Definition order_negative : PyDict :=
  [("id", VStr "ord_6"); ("total_price", VStr "-5.00")].
Definition order_amount_only : PyDict :=
  [("id", VStr "ord_7"); ("amount", VStr "12.50")].
Definition campaign_micros : PyDict :=
  [("campaign_id", VStr "c1"); ("cost_micros", VStr "1500000"); ("date", VStr "2024-01-15")].
Definition campaign_cost : PyDict :=
  [("campaign_id", VStr "c2"); ("cost", VStr "2.50"); ("date", VStr "2024-01-15")].
Definition campaign_zero_micros : PyDict :=
  [("campaign_id", VStr "c3"); ("cost_micros", VInt 0); ("cost", VStr "2.50");
   ("date", VStr "2024-01-15")].

(** A world for the sync service in which every collaborator answers:
    the user is known, the order fetch returns [orders], the other
    fetches return nothing.  Today is 2024-01-15; a date is shown by
    its ordinal, its ISO text not being computed. *)
Definition a_user_uuid : string := "0b9f4c1e-5a7d-4f3b-8e2a-6c1d9f0e4b7a".

Definition sync_world (orders : result pyval) : DataSync.Outside unit :=
  DataSync.mkOutside unit
    (fun _ => 738900)
    PyStr.of_Z
    (fun _ => runtime)
    (fun x => (Ok tt, x))
    (fun x => (Ok tt, x))
    (fun _ => true)
    (fun x => (Ok tt, x))
    (fun _ x => (Ok (Some a_user_uuid), x))
    (fun _ x => (Ok tt, x))
    (fun x => (Ok tt, x))
    (fun s => Ok s)
    (fun _ _ _ _ _ x => (orders, x))
    (fun _ _ _ x => (Ok (VList []), x))
    (fun _ _ x => (Ok (VList []), x))
    (fun _ _ _ _ _ x => (Ok (VList []), x))
    (fun _ _ _ x => (Ok tt, x))
    (fun _ _ _ x => (Ok tt, x)).

(** A world in which every call to the outside raises. *)
Definition unreachable {A} : unit -> result A * unit :=
  fun x => (raise (OtherException "ConnectionError") "All connection attempts failed", x).

Definition offline_world : DataSync.Outside unit :=
  DataSync.mkOutside unit
    (fun _ => 738900)
    PyStr.of_Z
    (fun _ => runtime)
    unreachable
    unreachable
    (fun _ => false)
    unreachable
    (fun _ => unreachable)
    (fun _ => unreachable)
    unreachable
    (fun s => Ok s)
    (fun _ _ _ _ _ => unreachable)
    (fun _ _ _ => unreachable)
    (fun _ _ => unreachable)
    (fun _ _ _ _ _ => unreachable)
    (fun _ _ _ => unreachable)
    (fun _ _ _ => unreachable).

(** A service just created, over an empty [transactions] table. *)
Definition new_service : DataSync.State unit := DataSync.mkState false false empty tt.

(** Tokens: the clock reads 2024-01-15T10:30:00 UTC. *)
Definition utc_reading : Z := PyTime.wall a_moment.

Definition token_expiring_in (seconds : Z) : TokenManager.TokenData :=
  TokenManager.mkTokenData (VStr "ya29.a0Af") (VStr "1//0gRefresh")
    (Some (PyTime.mkDatetime (utc_reading + seconds * PyTime.us_per_second) (Some 0)))
    VNone VNone VNone.

Definition token_for_ever : TokenManager.TokenData :=
  TokenManager.mkTokenData (VStr "shpat_3f9a") VNone None VNone VNone VNone.

(** The row stored for the user: a credential that expired an hour
    before the reading of the clock, with a refresh token. *)
Definition stale_row : TokenManager.TokenRow :=
  TokenManager.mkTokenRow (VStr "ya29.a0Af") (VStr "1//0gRefresh")
    (Some (PyTime.mkDatetime (utc_reading - 3600 * PyTime.us_per_second) (Some 0)))
    (VList [VStr "https://www.googleapis.com/auth/adwords"]) (VStr "1234567890").

(** A world for the token manager: the database answers and holds
    [stale_row], the client id and secret are set, and the OAuth
    endpoint answers as [reply] says. *)
Definition token_world_with
    (reply : result (Z * result pyval)) : TokenManager.Outside unit :=
  TokenManager.mkOutside unit
    (fun _ => utc_reading)
    (fun x => (Ok tt, x))
    (fun _ => true)
    (fun x => (Ok tt, x))
    (fun _ x => (Ok (Some a_user_uuid), x))
    (fun s => Ok s)
    (fun _ _ x => (Ok (Some stale_row), x))
    (fun _ _ _ x => (Ok tt, x))
    (fun name _ => "configured-" +:+ name)
    (fun _ _ _ _ x => (reply, x))
    (fun r => raise TypeError "unsupported type for timedelta seconds component: float").

(** The endpoint cannot be reached. *)
Definition token_world : TokenManager.Outside unit :=
  token_world_with (raise (OtherException "ConnectError") "All connection attempts failed").

(** The endpoint grants a new access token. *)
Definition granting_world : TokenManager.Outside unit :=
  token_world_with
    (Ok (200, Ok (VDict [("access_token", VStr "ya29.b1Bg"); ("expires_in", VInt 3599)]))).

Definition new_manager : TokenManager.State unit := TokenManager.mkState false false empty tt.

(** The endpoint grants a new access token and says no more. *)
Definition terse_world : TokenManager.Outside unit :=
  token_world_with (Ok (200, Ok (VDict [("access_token", VStr "ya29.c2Ch")]))).

(** A world for the token manager in which no database can be had. *)
Definition token_world_offline : TokenManager.Outside unit :=
  TokenManager.mkOutside unit
    (fun _ => utc_reading)
    unreachable
    (fun _ => false)
    unreachable
    (fun _ => unreachable)
    (fun s => Ok s)
    (fun _ _ => unreachable)
    (fun _ _ _ => unreachable)
    (fun name _ => "configured-" +:+ name)
    (fun _ _ _ _ => unreachable)
    (fun r => raise TypeError "unsupported type for timedelta seconds component: float").

(** The row stored for the user: a credential good for another hour. *)
Definition fresh_row : TokenManager.TokenRow :=
  TokenManager.mkTokenRow (VStr "ya29.a0Af") (VStr "1//0gRefresh")
    (Some (PyTime.mkDatetime (utc_reading + 3600 * PyTime.us_per_second) (Some 0)))
    (VList [VStr "https://www.googleapis.com/auth/adwords"]) (VStr "1234567890").

(** A world whose database answers and holds [fresh_row]. *)
Definition fresh_token_world : TokenManager.Outside unit :=
  TokenManager.mkOutside unit
    (fun _ => utc_reading)
    (fun x => (Ok tt, x))
    (fun _ => true)
    (fun x => (Ok tt, x))
    (fun _ x => (Ok (Some a_user_uuid), x))
    (fun s => Ok s)
    (fun _ _ x => (Ok (Some fresh_row), x))
    (fun _ _ _ x => (Ok tt, x))
    (fun name _ => "configured-" +:+ name)
    (fun _ _ _ _ => unreachable)
    (fun r => raise TypeError "unsupported type for timedelta seconds component: float").

(** A world in an outage: the database object is there, and every
    attempt to connect to the database or to query it raises. *)
Definition token_world_outage : TokenManager.Outside unit :=
  TokenManager.mkOutside unit
    (fun _ => utc_reading)
    (fun x => (Ok tt, x))
    (fun _ => false)
    unreachable
    (fun _ => unreachable)
    (fun s => Ok s)
    (fun _ _ => unreachable)
    (fun _ _ _ => unreachable)
    (fun name _ => "configured-" +:+ name)
    (fun _ _ _ _ => unreachable)
    (fun r => raise TypeError "unsupported type for timedelta seconds component: float").

Definition token_queries_outage : TokenManager.TokenQueries unit :=
  TokenManager.mkTokenQueries unit (fun _ _ => unreachable) (fun _ => unreachable).

Definition token_queries : TokenManager.TokenQueries unit :=
  TokenManager.mkTokenQueries unit
    (fun _ _ x => (Ok tt, x))
    (fun _ x => (Ok ["google"], x)).

(** A manager that has never reached a database and holds in its
    cache a credential that expired a minute ago. *)
Definition manager_with_stale_cache : TokenManager.State unit :=
  TokenManager.mkState false false
    (TokenManager.cache_set empty "u1" "google" (token_expiring_in (-60))) tt.

(** A manager that has never reached a database and has cached for
    the user a shop credential and then an ad credential, the second
    expired a minute ago. *)
Definition manager_with_two_cached : TokenManager.State unit :=
  TokenManager.mkState false false
    (TokenManager.cache_set
       (TokenManager.cache_set empty "u1" "shopify" token_for_ever)
       "u1" "google" (token_expiring_in (-60))) tt.

(** An order placed at [a_moment], and an [isoformat] that knows
    that moment. *)
Definition order_dated : PyDict :=
  [("id", VStr "ord_11"); ("total_price", VStr "49.99");
   ("created_at", VStr "2024-01-15T10:30:00Z")].
Definition isoformat (d : PyTime.datetime) : string :=
  if (PyTime.wall d =? PyTime.wall a_moment) then
    match PyTime.utcoffset d with
    | Some _ => "2024-01-15T10:30:00+00:00"
    | None => "2024-01-15T10:30:00"
    end
  else "0001-01-01T00:00:00".

End Sample.

(** * Properties *)

(** ** Facts about the model of [decimal] *)
Module DecFacts.
Import Dec.

Lemma pow10_pos k : (0 < pow10 k)%N.
Proof. unfold pow10. apply N.neq_0_lt_0, N.pow_nonzero. discriminate. Qed.

Lemma pow10_add a b : 0 <= a -> 0 <= b -> pow10 (a + b) = (pow10 a * pow10 b)%N.
Proof.
  intros Ha Hb. unfold pow10. rewrite Z2N.inj_add by assumption. apply N.pow_add_r.
Qed.

Lemma pow10_1 : pow10 1 = 10%N.
Proof. reflexivity. Qed.

Lemma pow10_0 : pow10 0 = 1%N.
Proof. reflexivity. Qed.

Lemma pow10_mono a b : a <= b -> (pow10 a <= pow10 b)%N.
Proof.
  intros H. unfold pow10. apply N.pow_le_mono_r; [discriminate|]. lia.
Qed.

Lemma ndigits_fuel_pos fuel : forall n, 1 <= ndigits_fuel fuel n.
Proof.
  induction fuel as [|f IH]; intros n; simpl; [lia|].
  destruct (n <? 10)%N; [lia|]. specialize (IH (n / 10)%N). lia.
Qed.

(** With enough fuel the digit count is the least [k >= 1] with
    [n < 10^k]. *)
Lemma ndigits_fuel_spec fuel :
  forall n k, (n < 10 ^ N.of_nat (S fuel))%N -> 1 <= k ->
              (ndigits_fuel fuel n <= k <-> (n < pow10 k)%N).
Proof.
  induction fuel as [|f IH]; intros n k Hn Hk.
  - simpl. change (10 ^ N.of_nat 1)%N with 10%N in Hn.
    split; [intros _|lia].
    apply N.lt_le_trans with (m := pow10 1); [rewrite pow10_1; exact Hn|].
    apply pow10_mono; lia.
  - cbn [ndigits_fuel]. destruct (N.ltb_spec n 10) as [Hlt|Hge].
    + split; [intros _|lia].
      apply N.lt_le_trans with (m := pow10 1); [rewrite pow10_1; exact Hlt|].
      apply pow10_mono; lia.
    + assert (Hdiv : (n / 10 < 10 ^ N.of_nat (S f))%N).
      { apply N.Div0.div_lt_upper_bound.
        replace (10 * 10 ^ N.of_nat (S f))%N with (10 ^ N.of_nat (S (S f)))%N; [exact Hn|].
        rewrite (Nat2N.inj_succ (S f)), N.pow_succ_r'. reflexivity. }
      destruct (Z.eq_dec k 1) as [->|Hk1].
      * pose proof (ndigits_fuel_pos f (n / 10)%N). rewrite pow10_1. lia.
      * specialize (IH (n / 10)%N (k - 1) Hdiv ltac:(lia)).
        replace k with ((k - 1) + 1) at 2 by lia.
        rewrite pow10_add, pow10_1 by lia.
        split; intros H.
        -- assert (H' : (n / 10 < pow10 (k - 1))%N) by (apply IH; lia).
           pose proof (N.Div0.div_mod n 10) as Hdm.
           pose proof (N.mod_lt n 10 ltac:(discriminate)). lia.
        -- assert (H' : (n / 10 < pow10 (k - 1))%N).
           { apply N.Div0.div_lt_upper_bound. lia. }
           apply IH in H'. lia.
Qed.

Lemma ndigits_spec n k : 1 <= k -> (ndigits n <= k <-> (n < pow10 k)%N).
Proof.
  intros Hk. unfold ndigits. apply ndigits_fuel_spec; [|exact Hk].
  rewrite N2Nat.id || rewrite Nat2N.inj_succ, N2Nat.id.
  destruct (N.eq_dec n 0%N) as [->|Hn]; [reflexivity|].
  pose proof (N.log2_spec n ltac:(lia)) as [_ Hlog].
  eapply N.lt_le_trans; [exact Hlog|].
  apply N.pow_le_mono_l. lia.
Qed.

Lemma ndigits_pos n : 1 <= ndigits n.
Proof. apply ndigits_fuel_pos. Qed.

End DecFacts.

Module DecRounding.
Import Dec DecFacts.

Ltac ctx := unfold Etop, Etiny, Emax, Emin, prec in *.





(** Within 28 digits and the exponent range, [_fix] changes nothing. *)
Lemma fix_in_range neg c e :
  (c < pow10 28)%N -> Etiny <= e -> e <= Etop -> fix_ (Fin neg c e) = Ok (Fin neg c e).
Proof.
  intros Hc Hlo Hhi. unfold fix_.
  destruct (N.eqb_spec c 0) as [->|Hnz].
  - f_equal. f_equal. ctx. lia.
  - pose proof (proj2 (ndigits_spec c 28 ltac:(lia)) Hc) as Hnd.
    destruct (Z.ltb_spec Etop (ndigits c + e - prec)) as [H|_]; [ctx; lia|].
    destruct (Z.ltb_spec e (Z.max (ndigits c + e - prec) Etiny)) as [H|_]; [ctx; lia|].
    reflexivity.
Qed.




(** [abs] keeps the magnitude of a value within 28 digits. *)
Lemma abs_in_range neg c e :
  (c < pow10 28)%N -> Etiny <= e -> e <= Etop -> Dec.abs (Fin neg c e) = Ok (Fin false c e).
Proof. intros. unfold Dec.abs. cbn [check_nan]. apply fix_in_range; assumption. Qed.

(** *** Division by a million *)

(** The loop keeps the value and stays at or below the ideal exponent. *)
Lemma strip_zeros_value (fuel : nat) :
  forall (c : N) (e ideal : Z) (c' : N) (e' : Z),
    strip_zeros fuel c e ideal = (c', e') ->
    e <= e' /\ (e <= ideal -> e' <= ideal) /\ (c' * pow10 (e' - e))%N = c.
Proof.
  induction fuel as [|f IH]; intros c e ideal c' e' H; cbn [strip_zeros] in H.
  - injection H as <- <-. rewrite Z.sub_diag, pow10_0. lia.
  - destruct (Z.ltb_spec e ideal) as [Hlt|Hge]; cbn [andb] in H.
    + destruct (N.eqb_spec (c mod 10) 0) as [Hmod|Hmod].
      * apply IH in H. destruct H as (Hle & Hid & Hval).
        split; [lia|]. split; [lia|].
        replace (e' - e) with (1 + (e' - (e + 1))) by lia.
        rewrite pow10_add, pow10_1 by lia.
        pose proof (N.Div0.div_mod c 10) as Hdm. lia.
      * injection H as <- <-. rewrite Z.sub_diag, pow10_0. lia.
    + injection H as <- <-. rewrite Z.sub_diag, pow10_0. lia.
Qed.

(** Zeros that a power of ten brought in are dropped again. *)
Lemma strip_zeros_pow (k : nat) :
  forall (fuel : nat) (c : N) (e ideal : Z),
    (k <= fuel)%nat -> e + Z.of_nat k <= ideal ->
    strip_zeros fuel (c * 10 ^ N.of_nat k)%N e ideal
    = strip_zeros (fuel - k) c (e + Z.of_nat k) ideal.
Proof.
  induction k as [|k IH]; intros fuel c e ideal Hk He.
  - rewrite N.pow_0_r, N.mul_1_r, Nat.sub_0_r, Z.add_0_r. reflexivity.
  - destruct fuel as [|f]; [lia|]. cbn [strip_zeros].
    rewrite Nat2N.inj_succ, N.pow_succ_r'.
    replace (c * (10 * 10 ^ N.of_nat k))%N with (c * 10 ^ N.of_nat k * 10)%N by lia.
    rewrite N.Div0.mod_mul, N.div_mul by discriminate.
    destruct (Z.ltb_spec e ideal) as [_|Hge]; [|lia]. cbn [andb N.eqb].
    rewrite IH by lia. f_equal. lia.
Qed.

(** A non-zero integer of at most 28 digits, divided by a million,
    gives the exact quotient. *)
Lemma div_million_exact neg c :
  (0 < c)%N -> (c < pow10 28)%N ->
  exists c' e',
    Dec.div (Fin neg c 0) (lit "1000000") = Ok (Fin neg c' e')
    /\ -6 <= e' <= 0
    /\ (c' * pow10 (e' + 6))%N = c.
Proof.
  intros Hpos Hc.
  pose proof (ndigits_pos c) as Hnd1.
  pose proof (proj2 (ndigits_spec c 28 ltac:(lia)) Hc) as Hnd28.
  change (lit "1000000") with (Fin false 1000000 0).
  unfold Dec.div. cbn [check_nans].
  change (1000000 =? 0)%N with false. cbv iota.
  destruct (N.eqb_spec c 0) as [?|_]; [lia|].
  change (ndigits 1000000) with 7.
  set (shift := 7 - ndigits c + prec + 1).
  assert (Hshift : 8 <= shift <= 35) by (subst shift; ctx; lia).
  destruct (Z.leb_spec 0 shift) as [_|?]; [|lia].
  assert (Hsplit : pow10 shift = (10 ^ N.of_nat (Z.to_nat (shift - 6)) * 1000000)%N).
  { replace shift with ((shift - 6) + 6) at 1 by lia.
    rewrite pow10_add by lia. rewrite Z_nat_N. reflexivity. }
  assert (Hnum : (c * pow10 shift)%N
                 = (c * 10 ^ N.of_nat (Z.to_nat (shift - 6)) * 1000000)%N)
    by (rewrite Hsplit; lia).
  rewrite Hnum, N.Div0.mod_mul, N.div_mul by discriminate.
  cbn [N.eqb negb].
  replace (0 - 0 - (0 - 0 - shift)) with shift by lia.
  rewrite strip_zeros_pow by lia.
  replace (0 - 0 - shift + Z.of_nat (Z.to_nat (shift - 6))) with (-6) by lia.
  replace (0 - 0) with 0 by lia.
  destruct (strip_zeros (Z.to_nat shift - Z.to_nat (shift - 6)) c (-6) 0) as [c' e'] eqn:Hs.
  apply strip_zeros_value in Hs. destruct Hs as (Hlo & Hhi & Hval).
  specialize (Hhi ltac:(lia)).
  replace (e' - -6) with (e' + 6) in Hval by lia.
  assert (Hc' : (c' <= c)%N).
  { pose proof (pow10_pos (e' + 6)). nia. }
  exists c', e'. rewrite xorb_false_r.
  split; [|split; [lia|exact Hval]].
  apply fix_in_range; [lia| ctx; lia | ctx; lia].
Qed.

End DecRounding.

(** ** Decimals as text *)
Module DecText.
Import Dec DecFacts.

Lemma chars_of_chars l : PyStr.chars (PyStr.of_chars l) = l.
Proof. apply list_ascii_of_string_of_list_ascii. Qed.

(** *** Digits *)

Lemma digit_char k :
  (k < 10)%N ->
  PyStr.is_digit (ascii_of_N (48 + k)) = true
  /\ (PyStr.code (ascii_of_N (48 + k)) - 48)%N = k.
Proof.
  intros Hk. unfold PyStr.is_digit, PyStr.code.
  rewrite N_ascii_embedding by lia.
  split; [|lia]. apply andb_true_intro. split; apply N.leb_le; lia.
Qed.

(** What a digit is not. *)
Lemma digit_plain c :
  PyStr.is_digit c = true ->
  PyStr.is_space c = false
  /\ Ascii.eqb c "_" = false
  /\ Ascii.eqb c "-" = false
  /\ Ascii.eqb c "+" = false
  /\ Ascii.eqb c "." = false
  /\ Ascii.eqb (PyStr.lower_char c) "e" = false.
Proof.
  destruct c as [[] [] [] [] [] [] [] []]; intros H; try discriminate H;
    repeat split; reflexivity.
Qed.

Lemma digits_fuel_all fuel :
  forall n acc,
    Forall (fun c => PyStr.is_digit c = true) acc ->
    Forall (fun c => PyStr.is_digit c = true) (digits_fuel fuel n acc).
Proof.
  induction fuel as [|f IH]; intros n acc Hacc; cbn [digits_fuel]; [exact Hacc|].
  assert (Hd : PyStr.is_digit (ascii_of_N (48 + n mod 10)) = true).
  { apply digit_char. apply N.mod_lt. discriminate. }
  destruct (n <? 10)%N; [constructor; assumption|].
  apply IH. constructor; assumption.
Qed.

Lemma digits_fuel_value fuel :
  forall n acc,
    (n < 10 ^ N.of_nat fuel)%N ->
    digits_value 0%N (digits_fuel fuel n acc) = digits_value n acc.
Proof.
  induction fuel as [|f IH]; intros n acc Hn; cbn [digits_fuel].
  - cbn in Hn. replace n with 0%N by lia. reflexivity.
  - pose proof (digit_char (n mod 10) ltac:(apply N.mod_lt; discriminate)) as (_ & Hv).
    pose proof (N.Div0.div_mod n 10) as Hdm.
    destruct (N.ltb_spec n 10) as [Hlt|Hge].
    + cbn [digits_value]. rewrite Hv. f_equal.
      rewrite N.mod_small by exact Hlt. lia.
    + rewrite IH.
      * cbn [digits_value]. rewrite Hv. f_equal. lia.
      * rewrite Nat2N.inj_succ, N.pow_succ_r' in Hn.
        apply N.Div0.div_lt_upper_bound. exact Hn.
Qed.

Lemma digits_fuel_grows fuel :
  forall n acc, exists pre, digits_fuel fuel n acc = (pre ++ acc)%list.
Proof.
  induction fuel as [|f IH]; intros n acc; cbn [digits_fuel]; [exists []; reflexivity|].
  destruct (n <? 10)%N; [eexists [_]; reflexivity|].
  destruct (IH (n / 10)%N (ascii_of_N (48 + n mod 10) :: acc)) as (pre & ->).
  exists (pre ++ [ascii_of_N (48 + n mod 10)])%list. rewrite <- app_assoc. reflexivity.
Qed.

Lemma fuel_enough n : (n < 10 ^ N.of_nat (S (N.to_nat (N.log2 n))))%N.
Proof.
  rewrite Nat2N.inj_succ, N2Nat.id.
  apply N.lt_le_trans with (2 ^ N.succ (N.log2 n))%N.
  - destruct (N.eq_dec n 0%N) as [->|Hn]; [reflexivity|].
    apply N.log2_spec. lia.
  - apply N.pow_le_mono_l. lia.
Qed.

Lemma digits_all n : Forall (fun c => PyStr.is_digit c = true) (digits n).
Proof. apply digits_fuel_all. constructor. Qed.

Lemma digits_value_digits n : digits_value 0%N (digits n) = n.
Proof. unfold digits. rewrite digits_fuel_value by apply fuel_enough. reflexivity. Qed.

Lemma digits_nonempty n : digits n <> [].
Proof.
  unfold digits. cbn [digits_fuel].
  destruct (n <? 10)%N; [discriminate|].
  destruct (digits_fuel_grows (N.to_nat (N.log2 n)) (n / 10)%N
              [ascii_of_N (48 + n mod 10)]) as (pre & ->).
  destruct pre; discriminate.
Qed.

Lemma digits_value_app l1 : forall acc l2,
    digits_value acc (l1 ++ l2) = digits_value (digits_value acc l1) l2.
Proof. induction l1 as [|c l1 IH]; intros acc l2; cbn; [reflexivity|apply IH]. Qed.

Lemma digits_value_zeros k : digits_value 0%N (repeat "0"%char k) = 0%N.
Proof. induction k as [|k IH]; [reflexivity|exact IH]. Qed.

Lemma zeros_all k : Forall (fun c => PyStr.is_digit c = true) (repeat "0"%char k).
Proof. induction k; constructor; [reflexivity|assumption]. Qed.

(** *** Reading what was written *)

Lemma span_digits_app a : forall b,
    Forall (fun c => PyStr.is_digit c = true) a ->
    match b with [] => True | c :: _ => PyStr.is_digit c = false end ->
    span_digits (a ++ b) = (a, b).
Proof.
  induction a as [|c a IH]; intros b Ha Hb; cbn [app span_digits].
  - destruct b as [|c b]; [reflexivity|]. cbn [span_digits]. rewrite Hb. reflexivity.
  - inversion Ha as [|? ? Hc Ha']; subst. rewrite Hc, (IH b Ha' Hb). reflexivity.
Qed.

(** Characters that [strip] and the removal of underscores leave
    alone. *)
Abbreviation kept c := (PyStr.is_space c = false /\ Ascii.eqb c "_" = false).

Lemma lstrip_kept l : Forall (fun c => kept c) l -> PyStr.lstrip_chars l = l.
Proof.
  destruct l as [|c l]; [reflexivity|]. intros H.
  inversion H as [|? ? [Hs _] _]; subst. cbn [PyStr.lstrip_chars]. rewrite Hs. reflexivity.
Qed.

Lemma cleaned_kept l :
  Forall (fun c => kept c) l ->
  filter (fun c => negb (Ascii.eqb c "_"))
    (PyStr.chars (PyStr.strip (PyStr.of_chars l))) = l.
Proof.
  intros H. unfold PyStr.strip, PyStr.strip_chars. rewrite !chars_of_chars.
  rewrite (lstrip_kept l H), (lstrip_kept (rev l)) by (apply Forall_rev; exact H).
  rewrite rev_involutive.
  induction H as [|c l [_ Hc] _ IH]; [reflexivity|].
  rewrite filter_cons.
  destruct (decide (negb (Ascii.eqb c "_"))) as [_|Hn]; [f_equal; exact IH|].
  exfalso. apply Hn. rewrite Hc. exact I.
Qed.

Lemma digits_kept l :
  Forall (fun c => PyStr.is_digit c = true) l -> Forall (fun c => kept c) l.
Proof.
  intros H. induction H as [|c l Hc _ IH]; constructor; [|exact IH].
  destruct (digit_plain c Hc) as (? & ? & _). split; assumption.
Qed.

Lemma parse_exponent_signed z : parse_exponent (signed_digits z) = Some z.
Proof.
  unfold parse_exponent, signed_digits.
  assert (Hspan : span_digits (digits (Z.abs_N z)) = (digits (Z.abs_N z), [])).
  { rewrite <- (app_nil_r (digits (Z.abs_N z))) at 1.
    apply span_digits_app; [apply digits_all|exact I]. }
  destruct (Z.ltb_spec z 0) as [Hneg|Hpos]; cbn [split_sign Ascii.eqb Bool.eqb];
    rewrite Hspan;
    (destruct (digits (Z.abs_N z)) eqn:Hd; [destruct (digits_nonempty _ Hd)|]);
    rewrite <- Hd, digits_value_digits; f_equal; lia.
Qed.

(** A sign, digits, an optional fraction and an optional exponent are
    read back as they were written. *)
Lemma of_string_rendered (neg : bool) ip (fraction : option (list ascii)) (exp : option Z) :
  ip <> [] ->
  Forall (fun c => PyStr.is_digit c = true) ip ->
  match fraction with Some fd => Forall (fun c => PyStr.is_digit c = true) fd | None => True end ->
  of_string
    (PyStr.of_chars
       ((if neg then ["-"%char] else [])
          ++ ip
          ++ match fraction with Some fd => "."%char :: fd | None => [] end
          ++ match exp with Some z => "E"%char :: signed_digits z | None => [] end))
  = Ok (Fin neg
          (digits_value 0%N (ip ++ match fraction with Some fd => fd | None => [] end))
          (match exp with Some z => z | None => 0 end
           - Z.of_nat (length match fraction with Some fd => fd | None => [] end))).
Proof.
  intros Hne Hip Hfd.
  set (ex := match exp with Some z => "E"%char :: signed_digits z | None => [] end).
  set (fp := match fraction with Some fd => "."%char :: fd | None => [] end).
  set (fd := match fraction with Some fd => fd | None => [] end).
  assert (Hfd' : Forall (fun c => PyStr.is_digit c = true) fd)
    by (subst fd; destruct fraction; [exact Hfd|constructor]).
  assert (Hex_kept : Forall (fun c => kept c) ex).
  { subst ex. destruct exp as [z|]; [|constructor].
    constructor; [split; reflexivity|]. unfold signed_digits.
    constructor; [destruct (z <? 0); split; reflexivity|].
    apply digits_kept, digits_all. }
  assert (Hfp_kept : Forall (fun c => kept c) fp).
  { subst fp. destruct fraction as [fd0|]; [|constructor].
    constructor; [split; reflexivity|]. apply digits_kept. exact Hfd. }
  unfold of_string. rewrite cleaned_kept.
  2:{ apply Forall_app. split; [destruct neg; [constructor; [split; reflexivity|]|]; constructor|].
      apply Forall_app. split; [apply digits_kept; exact Hip|].
      apply Forall_app. split; assumption. }
  assert (Hsign : split_sign ((if neg then ["-"%char] else []) ++ ip ++ fp ++ ex)
                  = (neg, (ip ++ fp ++ ex)%list)).
  { destruct neg; [reflexivity|]. cbn [app].
    destruct ip as [|c ip']; [contradiction|]. inversion Hip as [|? ? Hc _]; subst.
    destruct (digit_plain c Hc) as (_ & _ & Hm & Hp & _).
    cbn [app split_sign]. rewrite Hm, Hp. reflexivity. }
  rewrite Hsign. unfold parse_number.
  assert (Hex_head : match ex with [] => True | c :: _ => PyStr.is_digit c = false end)
    by (subst ex; destruct exp; [reflexivity|exact I]).
  assert (Hrest_head : match (fp ++ ex)%list with
                       | [] => True
                       | c :: _ => PyStr.is_digit c = false
                       end).
  { subst fp. destruct fraction; [reflexivity|exact Hex_head]. }
  rewrite (span_digits_app ip (fp ++ ex) Hip Hrest_head).
  assert (Hfrac : match (fp ++ ex)%list with
                  | c :: r => if Ascii.eqb c "." then span_digits r else ([], (fp ++ ex)%list)
                  | [] => ([], [])
                  end = (fd, ex)).
  { subst fp fd. destruct fraction as [fd0|].
    - cbn [app Ascii.eqb Bool.eqb]. apply span_digits_app; assumption.
    - cbn [app]. subst ex. destruct exp; reflexivity. }
  rewrite Hfrac.
  destruct ip as [|c ip']; [contradiction|].
  subst ex. destruct exp as [z|].
  - cbn [PyStr.lower_char]. change (Ascii.eqb (PyStr.lower_char "E") "e") with true.
    cbv iota. rewrite parse_exponent_signed. reflexivity.
  - do 2 f_equal.
Qed.

(** [Decimal(str(d))] is [d] again, with its sign, its digits and its
    exponent, for every finite [d]. *)
Lemma of_string_to_str neg c e : of_string (to_str (Fin neg c e)) = Ok (Fin neg c e).
Proof.
  pose proof (digits_all c) as Hall.
  pose proof (digits_nonempty c) as Hne.
  pose proof (digits_value_digits c) as Hval.
  unfold to_str.
  set (ds := digits c) in *.
  set (len := Z.of_nat (length ds)).
  assert (Hlen : 1 <= len) by (subst len; destruct ds; [contradiction|cbn [length]; lia]).
  set (leftdigits := e + len).
  set (dotplace := if (e <=? 0) && (-6 <? leftdigits) then leftdigits else 1).
  assert (Hdot : dotplace <= len).
  { subst dotplace leftdigits. destruct (Z.leb_spec e 0); cbn [andb]; [|lia].
    destruct (-6 <? e + len); lia. }
  assert (Hexp : forall ip fraction,
             ip <> [] ->
             Forall (fun c => PyStr.is_digit c = true) ip ->
             match fraction with
             | Some fd => Forall (fun c => PyStr.is_digit c = true) fd
             | None => True
             end ->
             digits_value 0%N (ip ++ match fraction with Some fd => fd | None => [] end) = c ->
             Z.of_nat (length match fraction with Some fd => fd | None => [] end)
             = len - dotplace ->
             of_string
               (PyStr.of_chars
                  ((if neg then ["-"%char] else [])
                     ++ ip
                     ++ match fraction with Some fd => "."%char :: fd | None => [] end
                     ++ (if leftdigits =? dotplace then []
                         else "E"%char :: signed_digits (leftdigits - dotplace))))
             = Ok (Fin neg c e)).
  { intros ip fraction Hip1 Hip2 Hfr Hv Hl.
    destruct (Z.eqb_spec leftdigits dotplace) as [Heq|Hneq].
    - rewrite (of_string_rendered neg ip fraction None Hip1 Hip2 Hfr).
      rewrite Hv, Hl. f_equal. f_equal. subst leftdigits. lia.
    - rewrite (of_string_rendered neg ip fraction (Some (leftdigits - dotplace))
                 Hip1 Hip2 Hfr).
      rewrite Hv, Hl. f_equal. f_equal. subst leftdigits. lia. }
  destruct (Z.leb_spec dotplace 0) as [Hle|Hgt].
  - apply (Hexp ["0"%char] (Some (repeat "0"%char (Z.to_nat (- dotplace)) ++ ds)%list)).
    + discriminate.
    + constructor; [reflexivity|constructor].
    + apply Forall_app. split; [apply zeros_all|exact Hall].
    + cbn [app digits_value]. rewrite digits_value_app, digits_value_zeros. exact Hval.
    + rewrite length_app, repeat_length. fold len. lia.
  - destruct (Z.leb_spec len dotplace) as [Hfull|Hpart].
    + apply (Hexp (ds ++ repeat "0"%char (Z.to_nat (dotplace - len)))%list None).
      * destruct ds; [contradiction|discriminate].
      * apply Forall_app. split; [exact Hall|apply zeros_all].
      * exact I.
      * rewrite app_nil_r. replace (dotplace - len) with 0 by lia.
        cbn [Z.to_nat repeat]. rewrite app_nil_r. exact Hval.
      * cbn [length]. lia.
    + pose proof Hall as Hsplit.
      rewrite <- (firstn_skipn (Z.to_nat dotplace) ds) in Hsplit.
      apply Forall_app in Hsplit. destruct Hsplit as (Hfirst & Hrest).
      apply (Hexp (firstn (Z.to_nat dotplace) ds) (Some (skipn (Z.to_nat dotplace) ds))).
      * destruct ds as [|d0 ds']; [contradiction|].
        destruct (Z.to_nat dotplace) eqn:Hz; [lia|discriminate].
      * exact Hfirst.
      * exact Hrest.
      * rewrite firstn_skipn. exact Hval.
      * rewrite length_skipn. fold len. subst len. lia.
Qed.

End DecText.

(** ** Currency conversion *)
Module CurrencyFacts.
Import Dec DecFacts DecRounding Currency.







End CurrencyFacts.

(** ** Normalizers *)
Module NormalizerFacts.
Import Dec Models Normalizer.

Lemma rbind_ok {A B} (m : result A) (k : A -> result B) (b : B) :
  rbind m k = Ok b -> exists a, m = Ok a /\ k a = Ok b.
Proof. destruct m as [a|e]; simpl; intros H; [eauto|discriminate]. Qed.

(** Take the first step of a computation known to succeed. *)
Ltac step H :=
  let a := fresh "v" in
  let Hm := fresh "Hstep" in
  apply rbind_ok in H; destruct H as (a & Hm & H).

(** What the constructor does to a transaction built without
    [amount_usd]: it fills it in exactly when the currency is a str
    that upper-cases to USD, and fails when the currency is no str. *)
Lemma post_init_ok rt tx0 tx :
  post_init rt tx0 = Ok tx ->
  amount_usd tx0 = None ->
  exists c,
    currency tx0 = VStr c
    /\ amount_usd tx = (if String.eqb (PyStr.upper c) "USD" then Some (amount tx0) else None)
    /\ currency tx = VStr c
    /\ amount tx = amount tx0
    /\ type tx = type tx0
    /\ timestamp tx = timestamp tx0.
Proof.
  unfold post_init. intros H Husd. rewrite Husd in H.
  destruct (currency tx0) as [| | | |c| |] eqn:Hc; try discriminate.
  exists c. destruct (String.eqb (PyStr.upper c) "USD");
    cbn [rbind] in H; injection H as <-; cbn; rewrite ?Hc; repeat split; reflexivity.
Qed.

(** What a successful run of each [normalize] fixes. *)
Lemma shopify_ok rt data tx :
  ShopifyNormalizer.normalize rt data = Ok tx ->
  exists total c,
    of_str_of (ShopifyNormalizer.amount_str data) = Ok total
    /\ ShopifyNormalizer.refund_magnitude (ShopifyNormalizer.is_refund data) total
       = Ok (amount tx)
    /\ type tx = (if ShopifyNormalizer.is_refund data then REFUND else ORDER)
    /\ ShopifyNormalizer.parse_timestamp rt (ShopifyNormalizer.timestamp_str data)
       = Ok (timestamp tx)
    /\ PyVal.get_default data "currency" (VStr "USD") = VStr c
    /\ currency tx = VStr c
    /\ amount_usd tx = (if String.eqb (PyStr.upper c) "USD" then Some (amount tx) else None).
Proof.
  unfold ShopifyNormalizer.normalize. intros H.
  do 3 step H. destruct v1 as [[sku qty] cost]. do 3 step H.
  apply post_init_ok in H; [|reflexivity].
  destruct H as (c & Hc & Husd & Hcur & Ham & Hty & Hts). cbn in Hc, Husd, Ham, Hty, Hts.
  exists v, c. rewrite Ham, Hty, Hts. repeat split; assumption.
Qed.

Lemma meta_ok rt data tx :
  MetaNormalizer.normalize rt data = Ok tx ->
  exists c,
    of_str_of (MetaNormalizer.spend_str data) = Ok (amount tx)
    /\ type tx = AD_SPEND
    /\ PyVal.get_default data "currency" (VStr "USD") = VStr c
    /\ currency tx = VStr c
    /\ amount_usd tx = (if String.eqb (PyStr.upper c) "USD" then Some (amount tx) else None).
Proof.
  unfold MetaNormalizer.normalize. intros H. do 2 step H.
  apply post_init_ok in H; [|reflexivity].
  destruct H as (c & Hc & Husd & Hcur & Ham & Hty & Hts). cbn in Hc, Husd, Ham, Hty, Hts.
  exists c. rewrite Ham, Hty. repeat split; assumption.
Qed.

Lemma google_ok rt data tx :
  GoogleNormalizer.normalize rt data = Ok tx ->
  exists c,
    GoogleNormalizer.amount_of data = Ok (amount tx)
    /\ type tx = AD_SPEND
    /\ PyVal.get_default data "currency_code" (VStr "USD") = VStr c
    /\ currency tx = VStr c
    /\ amount_usd tx = (if String.eqb (PyStr.upper c) "USD" then Some (amount tx) else None).
Proof.
  unfold GoogleNormalizer.normalize. intros H. do 8 step H.
  apply post_init_ok in H; [|reflexivity].
  destruct H as (c & Hc & Husd & Hcur & Ham & Hty & Hts). cbn in Hc, Husd, Ham, Hty, Hts.
  exists c. rewrite Ham, Hty. repeat split; assumption.
Qed.

(** C1, as amended.  For every adapter and raw record on which
    [normalize] returns, the currency of the transaction is the str the
    record holds under the adapter's currency key ("USD" when the key
    is missing), and [amount_usd] is the amount itself when that str
    upper-cases to USD and [None] otherwise.  No adapter calls the
    currency converter; a record in another currency is handed on with
    [amount_usd = None], it does not fail. *)
Theorem amount_usd_only_for_usd self rt data tx :
  normalize self rt data = Ok tx ->
  exists c,
    PyVal.get_default data (currency_key self) (VStr "USD") = VStr c
    /\ currency tx = VStr c
    /\ amount_usd tx = (if String.eqb (PyStr.upper c) "USD" then Some (amount tx) else None).
Proof.
  destruct self; cbn [normalize currency_key]; intros H.
  - apply shopify_ok in H. destruct H as (total & c & _ & _ & _ & _ & H1 & H2 & H3). eauto.
  - apply meta_ok in H. destruct H as (c & _ & _ & H1 & H2 & H3). eauto.
  - apply google_ok in H. destruct H as (c & _ & _ & H1 & H2 & H3). eauto.
Qed.

Lemma amount_usd_only_for_usd_witness :
  exists tx,
    normalize Shopify Sample.runtime Sample.order_plain = Ok tx
    /\ currency tx = VStr "USD" /\ amount_usd tx = Some (amount tx).
Proof.
  destruct (normalize Shopify Sample.runtime Sample.order_plain) as [tx|e] eqn:H;
    [|vm_compute in H; discriminate].
  exists tx. split; [reflexivity|].
  destruct (amount_usd_only_for_usd Shopify Sample.runtime Sample.order_plain tx H)
    as (c & Hc & Hcur & Husd).
  vm_compute in Hc. injection Hc as <-. split; [exact Hcur|exact Husd].
Defined.

(** C1 as stated fails: each adapter returns, without an error, a
    transaction in euros whose [amount_usd] is [None]. *)
Lemma amount_usd_counterexample :
  (exists tx, normalize Shopify Sample.runtime Sample.order_eur = Ok tx
              /\ currency tx = VStr "EUR" /\ amount_usd tx = None)
  /\ (exists tx, normalize Meta Sample.runtime
                   [("id", VStr "c1"); ("spend", VStr "150.50"); ("currency", VStr "EUR")]
                 = Ok tx
                 /\ currency tx = VStr "EUR" /\ amount_usd tx = None)
  /\ (exists tx, normalize Google Sample.runtime
                   [("campaign_id", VStr "c1"); ("cost_micros", VStr "1500000");
                    ("currency_code", VStr "EUR")]
                 = Ok tx
                 /\ currency tx = VStr "EUR" /\ amount_usd tx = None).
Proof.
  repeat split; eexists; (split; [vm_compute; reflexivity|split; reflexivity]).
Qed.

Lemma fix_keeps_sign neg c e d :
  fix_ (Fin neg c e) = Ok d -> exists c' e', d = Fin neg c' e'.
Proof.
  unfold fix_. intros H.
  repeat match type of H with
         | context [if ?b then _ else _] => destruct b
         end;
    try discriminate; injection H as <-; eauto.
Qed.

Lemma refund_magnitude_nonneg total a :
  ShopifyNormalizer.refund_magnitude true total = Ok a ->
  nonneg a = true
  /\ ((lt_zero total = Ok false /\ a = total)
      \/ (lt_zero total = Ok true /\ Dec.abs total = Ok a)).
Proof.
  unfold ShopifyNormalizer.refund_magnitude. intros H. step H.
  destruct v.
  - split; [|right; split; assumption].
    destruct total as [neg c e|neg|sg]; cbn in Hstep, H; try discriminate.
    + apply fix_keeps_sign in H. destruct H as (c' & e' & ->). reflexivity.
    + injection H as <-. reflexivity.
  - injection H as <-. split; [|left; split; [assumption|reflexivity]].
    destruct total as [neg c e|neg|sg]; cbn in Hstep |- *; try discriminate;
      injection Hstep as Hs.
    + destruct neg; cbn in Hs |- *; [|reflexivity].
      destruct (c =? 0)%N; [reflexivity|discriminate].
    + rewrite Hs. reflexivity.
Qed.

Lemma num_eqb_abs s c e :
  (s && negb (c =? 0)%N = false) -> num_eqb (Fin s c e) (Fin false c e) = true.
Proof.
  intros Hs. unfold num_eqb. rewrite Z.min_id, Z.sub_diag.
  change (pow10 0) with 1%N. rewrite N.mul_1_r, N.eqb_refl. cbn [andb].
  destruct s; cbn in Hs |- *; [|reflexivity].
  destruct (c =? 0)%N; [reflexivity|discriminate].
Qed.

(** C9, as amended.  A commerce record is a refund when its
    [financial_status] is "refunded" or its [kind] is "refund", and an
    order otherwise.  When [normalize] returns: for a refund the type
    is REFUND and the amount is non-negative, being the order total
    ([total_price], else [amount], else 0) when that is not negative
    and [abs()] of it otherwise, so that a total of at most 28 digits
    keeps its magnitude exactly; for any other record the type is
    ORDER and the amount is the total as it stands. *)
Theorem shopify_refund_type_and_amount rt data tx :
  ShopifyNormalizer.normalize rt data = Ok tx ->
  exists total,
    of_str_of (ShopifyNormalizer.amount_str data) = Ok total
    /\ if eq_str (PyVal.get_default data "financial_status" (VStr "paid")) "refunded"
          || eq_str (PyVal.get data "kind") "refund"
       then type tx = REFUND
            /\ nonneg (amount tx) = true
            /\ ((lt_zero total = Ok false /\ amount tx = total)
                \/ (lt_zero total = Ok true /\ Dec.abs total = Ok (amount tx)))
            /\ (forall s c e, total = Fin s c e -> (c < pow10 28)%N ->
                             Etiny <= e -> e <= Etop ->
                             num_eqb (amount tx) (Fin false c e) = true)
       else type tx = ORDER /\ amount tx = total.
Proof.
  intros H. apply shopify_ok in H.
  destruct H as (total & c & Htotal & Hmag & Hty & _).
  exists total. split; [exact Htotal|].
  unfold ShopifyNormalizer.is_refund, ShopifyNormalizer.financial_status in Hmag, Hty.
  destruct (eq_str (PyVal.get_default data "financial_status" (VStr "paid")) "refunded"
            || eq_str (PyVal.get data "kind") "refund").
  - destruct (refund_magnitude_nonneg _ _ Hmag) as (Hnn & Hcases).
    repeat split; try assumption.
    intros s n e -> Hn Hlo Hhi.
    destruct Hcases as [[Hlt ->]|[Hlt Habs]].
    + apply num_eqb_abs. cbn in Hlt. congruence.
    + rewrite DecRounding.abs_in_range in Habs by assumption.
      injection Habs as <-. apply num_eqb_abs. reflexivity.
  - cbn in Hmag. injection Hmag as <-. split; [exact Hty|reflexivity].
Qed.

Lemma shopify_refund_type_and_amount_witness :
  exists tx,
    ShopifyNormalizer.normalize Sample.runtime Sample.refund_negative = Ok tx
    /\ type tx = REFUND /\ amount tx = lit "20.00".
Proof.
  destruct (ShopifyNormalizer.normalize Sample.runtime Sample.refund_negative)
    as [tx|e] eqn:H; [|vm_compute in H; discriminate].
  exists tx. split; [reflexivity|].
  destruct (shopify_refund_type_and_amount Sample.runtime Sample.refund_negative tx H)
    as (total & Htotal & Hrest).
  vm_compute in Htotal. injection Htotal as <-.
  change (eq_str (PyVal.get_default Sample.refund_negative "financial_status" (VStr "paid"))
            "refunded"
          || eq_str (PyVal.get Sample.refund_negative "kind") "refund") with true in Hrest.
  cbv iota in Hrest.
  destruct Hrest as (Hty & _ & [[Hlt _]|[_ Habs]] & _).
  - vm_compute in Hlt. discriminate.
  - split; [exact Hty|]. vm_compute in Habs. injection Habs as Habs.
    symmetry. exact Habs.
Defined.

(** C9 as stated fails: a record whose financial status is "paid",
    which indicates no refund, is normalized to a refund because its
    [kind] is "refund". *)
Lemma shopify_refund_counterexample :
  PyVal.get Sample.refund_by_kind "financial_status" = VStr "paid"
  /\ exists tx,
       ShopifyNormalizer.normalize Sample.runtime Sample.refund_by_kind = Ok tx
       /\ type tx = REFUND.
Proof. split; [reflexivity|]. eexists. split; [vm_compute; reflexivity|reflexivity]. Qed.

(** *** The batch *)

Lemma batch_from_ok self rt :
  forall records i txs,
    normalize_batch_from self rt i records = Ok txs ->
    length txs = length records
    /\ forall j record,
         nth_error records j = Some record ->
         exists tx, nth_error txs j = Some tx
                    /\ normalize self (rt (i + j)%nat) record = Ok tx.
Proof.
  induction records as [|r rest IH]; intros i txs H.
  - injection H as <-. split; [reflexivity|]. intros [|j] record Hj; discriminate.
  - cbn [normalize_batch_from] in H. do 2 step H. injection H as <-.
    destruct (IH _ _ Hstep0) as (Hlen & Hnth).
    split; [cbn [length]; rewrite Hlen; reflexivity|].
    intros [|j] record Hj.
    + injection Hj as <-. exists v. rewrite Nat.add_0_r. split; [reflexivity|assumption].
    + destruct (Hnth j record Hj) as (tx & Htx & Hn).
      exists tx. split; [exact Htx|].
      replace (i + S j)%nat with (S i + j)%nat by lia. exact Hn.
Qed.

Lemma batch_from_all_ok self rt :
  forall records i,
    (forall j record, nth_error records j = Some record ->
                      is_ok (normalize self (rt (i + j)%nat) record) = true) ->
    is_ok (normalize_batch_from self rt i records) = true.
Proof.
  induction records as [|r rest IH]; intros i Hall; [reflexivity|].
  cbn [normalize_batch_from].
  pose proof (Hall 0%nat r eq_refl) as H0. rewrite Nat.add_0_r in H0.
  destruct (normalize self (rt i) r) as [tx|e]; [|discriminate]. cbn [rbind].
  assert (Hrest : is_ok (normalize_batch_from self rt (S i) rest) = true).
  { apply IH. intros j record Hj.
    replace (S i + j)%nat with (i + S j)%nat by lia. apply Hall. exact Hj. }
  destruct (normalize_batch_from self rt (S i) rest); [reflexivity|discriminate].
Qed.

Lemma batch_from_first_error self rt :
  forall before i bad after e,
    (forall j record, nth_error before j = Some record ->
                      is_ok (normalize self (rt (i + j)%nat) record) = true) ->
    normalize self (rt (i + length before)%nat) bad = Raise e ->
    normalize_batch_from self rt i (before ++ bad :: after) = Raise e.
Proof.
  induction before as [|r rest IH]; intros i bad after e Hall Hbad.
  - cbn [app normalize_batch_from]. cbn [length] in Hbad. rewrite Nat.add_0_r in Hbad.
    rewrite Hbad. reflexivity.
  - cbn [app normalize_batch_from].
    pose proof (Hall 0%nat r eq_refl) as H0. rewrite Nat.add_0_r in H0.
    destruct (normalize self (rt i) r) as [tx|e']; [|discriminate]. cbn [rbind].
    rewrite (IH (S i) bad after e); [reflexivity| |].
    + intros j record Hj.
      replace (S i + j)%nat with (i + S j)%nat by lia. apply Hall. exact Hj.
    + replace (S i + length rest)%nat with (i + length (r :: rest))%nat
        by (cbn [length]; lia).
      exact Hbad.
Qed.

(** C3, as amended.  [normalize_batch] maps [normalize] over the list
    in order.  It returns a list only when every record normalizes,
    and then holds the transaction of each record at its position; as
    soon as one record is malformed, the error of the first such
    record is raised out of the batch and nothing is returned for the
    records that did normalize.  Keeping the good records of a batch is
    left to the caller. *)
Theorem normalize_batch_all_or_nothing self rt :
  (forall records txs,
      normalize_batch self rt records = Ok txs ->
      length txs = length records
      /\ forall j record,
           nth_error records j = Some record ->
           exists tx, nth_error txs j = Some tx /\ normalize self (rt j) record = Ok tx)
  /\ (forall records,
        (forall j record, nth_error records j = Some record ->
                          is_ok (normalize self (rt j) record) = true) ->
        is_ok (normalize_batch self rt records) = true)
  /\ (forall before bad after e,
        (forall j record, nth_error before j = Some record ->
                          is_ok (normalize self (rt j) record) = true) ->
        normalize self (rt (length before)) bad = Raise e ->
        normalize_batch self rt (before ++ bad :: after) = Raise e).
Proof.
  unfold normalize_batch. split; [|split].
  - intros records txs H. exact (batch_from_ok self rt records 0%nat txs H).
  - intros records H. exact (batch_from_all_ok self rt records 0%nat H).
  - intros before bad after e Hall Hbad.
    exact (batch_from_first_error self rt before 0%nat bad after e Hall Hbad).
Qed.

Lemma normalize_batch_all_or_nothing_witness :
  normalize_batch Shopify (fun _ => Sample.runtime)
    ([Sample.order_plain; Sample.order_eur] ++ Sample.order_malformed
       :: [Sample.refund_negative; Sample.refund_by_kind])
  = Dec.conversion_syntax.
Proof.
  destruct (normalize_batch_all_or_nothing Shopify (fun _ => Sample.runtime))
    as (_ & _ & Hfirst).
  apply Hfirst.
  - intros [|[|[|j]]] record Hj; try discriminate; injection Hj as <-; reflexivity.
  - reflexivity.
Defined.

(** C3 as stated fails: of five records, each of the four others
    normalizes, the third has a malformed total, and the batch yields
    no transaction at all: it raises the error of the third. *)
Lemma normalize_batch_counterexample :
  Forall (fun record => is_ok (normalize Shopify Sample.runtime record) = true)
    [Sample.order_plain; Sample.order_eur; Sample.refund_negative; Sample.refund_by_kind]
  /\ is_ok (normalize Shopify Sample.runtime Sample.order_malformed) = false
  /\ normalize_batch Shopify (fun _ => Sample.runtime)
       [Sample.order_plain; Sample.order_eur; Sample.order_malformed;
        Sample.refund_negative; Sample.refund_by_kind]
     = Dec.conversion_syntax.
Proof.
  split; [repeat constructor|]. split; reflexivity.
Qed.

(** *** The cost of a Google campaign *)

Lemma truthy_get_present data k :
  PyVal.truthy (PyVal.get data k) = true -> PyVal.contains k data = true.
Proof.
  unfold PyVal.get, PyVal.get_default, PyVal.contains.
  destruct (PyVal.lookup k data); [reflexivity|discriminate].
Qed.

(** A [cost_micros] that is present and truthy is divided by a million. *)
Lemma google_micros_scaled data :
  PyVal.truthy (PyVal.get data "cost_micros") = true ->
  GoogleNormalizer.amount_of data
  = (let! micros := of_str_of (PyVal.get data "cost_micros") in
     Dec.div micros (lit "1000000")).
Proof.
  intros H. unfold GoogleNormalizer.amount_of, GoogleNormalizer.cost_micros, PyVal.or_.
  rewrite (truthy_get_present _ _ H), H. cbn [PyVal.truthy]. rewrite H. reflexivity.
Qed.

(** A truthy [cost_micros] that parses to a non-zero integer of at most
    28 digits gives exactly that many millionths: the amount
    [c' * 10^e'] satisfies [c' * 10^(e' + 6) = c]. *)
Lemma google_micros_exact data neg c :
  PyVal.truthy (PyVal.get data "cost_micros") = true ->
  of_str_of (PyVal.get data "cost_micros") = Ok (Fin neg c 0) ->
  (0 < c)%N -> (c < pow10 28)%N ->
  exists c' e',
    GoogleNormalizer.amount_of data = Ok (Fin neg c' e')
    /\ -6 <= e' <= 0
    /\ (c' * pow10 (e' + 6))%N = c.
Proof.
  intros Ht Hparse Hpos Hc.
  rewrite (google_micros_scaled _ Ht), Hparse. cbn [rbind].
  apply DecRounding.div_million_exact; assumption.
Qed.

(** Without the key [cost_micros], the [cost] is taken as it is. *)
Lemma google_cost_unscaled data :
  PyVal.lookup "cost_micros" data = None ->
  GoogleNormalizer.amount_of data
  = of_str_of (PyVal.or_ (PyVal.get data "cost") (VStr "0")).
Proof.
  intros H. unfold GoogleNormalizer.amount_of, GoogleNormalizer.cost_micros,
    PyVal.contains, PyVal.get, PyVal.get_default.
  rewrite H. reflexivity.
Qed.

(** C8 at its failing input.  The record holds [cost_micros = 0], an
    int, and [cost = "2.50"].  The zero is falsy, so the [or] chain picks
    the cost; the key [cost_micros] is present, so the cost is divided
    by a million: the amount is 0.0000025 where the micros say 0. *)
Theorem google_zero_micros_scales_cost :
  PyVal.lookup "cost_micros" Sample.campaign_zero_micros = Some (VInt 0)
  /\ GoogleNormalizer.amount_of Sample.campaign_zero_micros = Ok (lit "0.0000025")
  /\ (exists tx,
        GoogleNormalizer.normalize Sample.runtime Sample.campaign_zero_micros = Ok tx
        /\ amount tx = lit "0.0000025")
  /\ num_eqb (lit "0.0000025") (lit "0") = false.
Proof.
  split; [reflexivity|]. split; [vm_compute; reflexivity|].
  split; [|reflexivity]. eexists. split; [vm_compute; reflexivity|reflexivity].
Qed.

End NormalizerFacts.

(** ** Coroutines that keep a relation between the states *)
Module TaskFacts.

Section Steady.
Context {S : Type} (R : S -> S -> Prop).
Hypothesis R_refl : forall s, R s s.
Hypothesis R_trans : forall a b c, R a b -> R b c -> R a c.

Lemma fails_steady {A} (m : Task S A) : Task.fails R m -> Task.steady R m.
Proof. intros H s. destruct (H s) as ((e & He) & HR). rewrite He. split; [discriminate|assumption]. Qed.

Lemma steady_ret {A} (a : A) : Task.steady R (Task.ret a).
Proof. intros s. cbn. split; [discriminate|apply R_refl]. Qed.

Lemma steady_throw {A} (e : PyExc) : Task.steady R (@Task.throw S A e).
Proof. intros s. cbn. split; [discriminate|apply R_refl]. Qed.

Lemma steady_lift {A} (r : result A) : Task.steady R (@Task.lift S A r).
Proof. intros s. unfold Task.lift. destruct r; cbn; (split; [discriminate|apply R_refl]). Qed.

Lemma steady_gets {A} (f : S -> A) : Task.steady R (Task.gets f).
Proof. intros s. cbn. split; [discriminate|apply R_refl]. Qed.

Lemma steady_modify (f : S -> S) : (forall s, R s (f s)) -> Task.steady R (Task.modify f).
Proof. intros H s. cbn. split; [discriminate|apply H]. Qed.

Lemma steady_bind {A B} (m : Task S A) (k : A -> Task S B) :
  Task.steady R m -> (forall a, Task.steady R (k a)) -> Task.steady R (Task.bind m k).
Proof.
  intros Hm Hk s. unfold Task.bind. specialize (Hm s).
  destruct (m s) as [[a|e|] s1]; cbn in Hm; destruct Hm as (Hh & HR).
  - destruct (Hk a s1) as (Hh' & HR'). split; [assumption|eapply R_trans; eassumption].
  - cbn. split; [discriminate|assumption].
  - contradiction.
Qed.

Lemma steady_try_except {A} (body : Task S A) (handler : PyExc -> Task S A) :
  Task.steady R body -> (forall e, Task.steady R (handler e)) -> Task.steady R (Task.try_except body handler).
Proof.
  intros Hb Hh s. unfold Task.try_except. specialize (Hb s).
  destruct (body s) as [[a|e|] s1]; cbn in Hb; destruct Hb as (Hn & HR).
  - cbn. split; [discriminate|assumption].
  - destruct (Hh e s1) as (Hn' & HR'). split; [assumption|eapply R_trans; eassumption].
  - contradiction.
Qed.

Lemma steady_for_each {A X} (body : X -> A -> Task S A) (xs : list X) :
  (forall x acc, Task.steady R (body x acc)) -> forall acc, Task.steady R (Task.for_each xs body acc).
Proof.
  intros Hb. induction xs as [|x xs IH]; intros acc; cbn [Task.for_each].
  - apply steady_ret.
  - apply steady_bind; [apply Hb|exact IH].
Qed.

Lemma fails_lift_raise {A} (e : PyExc) : Task.fails R (@Task.lift S A (Raise e)).
Proof. intros s. cbn. split; [eauto|apply R_refl]. Qed.

(** Once a step fails, what follows it is not run. *)
Lemma fails_bind_l {A B} (m : Task S A) (k : A -> Task S B) :
  Task.fails R m -> Task.fails R (Task.bind m k).
Proof.
  intros Hm s. unfold Task.bind. destruct (Hm s) as ((e & He) & HR).
  destruct (m s) as [o s1]. cbn in He, HR. subst o. cbn. split; [eauto|assumption].
Qed.

Lemma fails_bind_r {A B} (m : Task S A) (k : A -> Task S B) :
  Task.steady R m -> (forall a, Task.fails R (k a)) -> Task.fails R (Task.bind m k).
Proof.
  intros Hm Hk s. unfold Task.bind. specialize (Hm s).
  destruct (m s) as [[a|e|] s1]; cbn in Hm; destruct Hm as (Hh & HR).
  - destruct (Hk a s1) as (He & HR'). split; [assumption|eapply R_trans; eassumption].
  - cbn. split; [eauto|assumption].
  - contradiction.
Qed.

End Steady.

End TaskFacts.

(** ** The sync service *)
Module DataSyncFacts.
Import DataSync TaskFacts.

Section Service.
Context {Ext : Type} (O : Outside Ext).

Abbreviation M := (Task (State Ext)).
Abbreviation L := (Task (State Ext * SyncResult)).
Abbreviation same_table := (@same_table Ext).
Abbreviation same_count := (@same_count Ext).
Abbreviation quiet := (@quiet Ext).

Lemma same_table_refl s : same_table s s.
Proof. reflexivity. Qed.
Lemma same_table_trans a b c : same_table a b -> same_table b c -> same_table a c.
Proof. unfold same_table. congruence. Qed.
Lemma same_count_refl sr : same_count sr sr.
Proof. split; reflexivity. Qed.
Lemma same_count_trans a b c : same_count a b -> same_count b c -> same_count a c.
Proof. unfold same_count. intros [] []. split; congruence. Qed.

Abbreviation steadyM := (Task.steady same_table).
Abbreviation failsM := (Task.fails same_table).
Abbreviation steadyL := (Task.steady same_count).
Abbreviation failsL := (Task.fails same_count).

Ltac bindM := apply (steady_bind same_table same_table_trans).
Ltac bindL := apply (steady_bind same_count same_count_trans).

Lemma steady_call {A} (f : Ext -> result A * Ext) : steadyM (call f).
Proof.
  intros s. unfold call. destruct (f (ext s)) as [[a|e] x]; cbn;
    (split; [discriminate|reflexivity]).
Qed.

Lemma steady_get_db : steadyM (_get_db O).
Proof.
  unfold _get_db. bindM; [apply steady_gets, same_table_refl|].
  intros [|]; [apply steady_ret, same_table_refl|].
  bindM; [apply steady_call|intros _].
  bindM; [apply steady_modify; reflexivity|intros _].
  bindM; [apply steady_gets, same_table_refl|].
  intros [|]; [apply steady_ret, same_table_refl|apply steady_call].
Qed.

Lemma steady_get_router : steadyM (_get_router O).
Proof.
  unfold _get_router. bindM; [apply steady_gets, same_table_refl|].
  intros [|]; [apply steady_ret, same_table_refl|].
  bindM; [apply steady_call|intros _]. apply steady_modify; reflexivity.
Qed.

Lemma steady_get_user_uuid external_id : steadyM (_get_user_uuid O external_id).
Proof. unfold _get_user_uuid. bindM; [apply steady_get_db|intros _; apply steady_call]. Qed.

Lemma steady_ensure_user_uuid external_id : steadyM (_ensure_user_uuid O external_id).
Proof.
  unfold _ensure_user_uuid. bindM; [apply steady_get_db|intros _].
  bindM; [apply steady_get_user_uuid|].
  intros [u|]; [apply steady_ret, same_table_refl|].
  bindM; [apply steady_call|intros _].
  bindM; [apply steady_get_user_uuid|].
  intros [u|]; [apply steady_ret|apply steady_throw]; apply same_table_refl.
Qed.

(** Reading [transaction.occurred_at] raises: the class has no such
    attribute. *)
Lemma occurred_at_missing tx :
  Models.getattr tx "occurred_at"
  = raise AttributeError "'NormalizedTransaction' object has no attribute 'occurred_at'".
Proof. reflexivity. Qed.

(** [_insert_transaction] raises on every call, before it reaches
    [db.execute]. *)
Lemma insert_transaction_fails user_uuid tx : failsM (_insert_transaction O user_uuid tx).
Proof.
  unfold _insert_transaction.
  apply (fails_bind_r same_table same_table_trans); [apply steady_get_db|intros _].
  apply (fails_bind_r same_table same_table_trans);
    [apply steady_lift, same_table_refl|intros user].
  apply (fails_bind_r same_table same_table_trans);
    [apply steady_lift, same_table_refl|intros amount].
  apply (fails_bind_r same_table same_table_trans);
    [apply steady_lift, same_table_refl|intros amount_usd].
  apply (fails_bind_l same_table). rewrite occurred_at_missing.
  apply fails_lift_raise, same_table_refl.
Qed.

Lemma steady_up {A} (m : M A) : steadyM m -> steadyL (up m).
Proof.
  intros Hm [s r]. unfold up. cbn [fst snd]. specialize (Hm s).
  destruct (m s) as [o s1]. cbn in Hm |- *. destruct Hm as (Hh & HR).
  split; [assumption|]. split; [exact HR|reflexivity].
Qed.

Lemma fails_up {A} (m : M A) : failsM m -> failsL (up m).
Proof.
  intros Hm [s r]. unfold up. cbn [fst snd]. specialize (Hm s).
  destruct (m s) as [o s1]. cbn in Hm |- *. destruct Hm as (Hh & HR).
  split; [assumption|]. split; [exact HR|reflexivity].
Qed.

Lemma steady_update_result (f : SyncResult -> SyncResult) :
  (forall r, transactions_synced (f r) = transactions_synced r) ->
  steadyL (update_result f).
Proof.
  intros Hf. apply steady_modify. intros [s r]. split; [reflexivity|apply Hf].
Qed.

Lemma steady_record_error (label : string) (item : pyval) (e : PyExc) :
  steadyL (let* msg := Task.lift (item_error label item e) in
           update_result (fun r => append_error r msg)).
Proof.
  bindL; [apply steady_lift, same_count_refl|intros msg].
  apply steady_update_result. reflexivity.
Qed.

Lemma steady_for_ {X} (xs : list X) (body : X -> L unit) :
  (forall x, steadyL (body x)) -> steadyL (for_ xs body).
Proof.
  intros Hb. unfold for_.
  apply (steady_for_each same_count same_count_refl same_count_trans).
  intros x _. apply Hb.
Qed.

(** A record that normalizes is passed to [_insert_transaction],
    which raises: the count of transactions never moves. *)
Lemma steady_sync_order user_uuid normalizer order_data :
  steadyL (sync_order O user_uuid normalizer order_data).
Proof.
  unfold sync_order.
  apply (steady_try_except same_count same_count_trans);
    [|intros e; apply steady_record_error].
  bindL; [apply steady_gets, same_count_refl|intros rt].
  bindL; [apply steady_lift, same_count_refl|intros normalized].
  apply fails_steady, (fails_bind_l same_count), fails_up, insert_transaction_fails.
Qed.

Lemma steady_sync_product user_uuid product_data :
  steadyL (sync_product O user_uuid product_data).
Proof.
  unfold sync_product.
  apply (steady_try_except same_count same_count_trans);
    [|intros e; apply steady_record_error].
  bindL; [apply steady_up, steady_call|intros _].
  apply steady_update_result. reflexivity.
Qed.

Lemma steady_sync_campaign name user_uuid normalizer campaign_data :
  steadyL (sync_campaign O name user_uuid normalizer campaign_data).
Proof.
  unfold sync_campaign.
  apply (steady_try_except same_count same_count_trans);
    [|intros e; apply steady_record_error].
  bindL; [apply steady_up, steady_call|intros _].
  bindL; [apply steady_update_result; reflexivity|intros _].
  bindL; [apply steady_gets, same_count_refl|intros rt].
  bindL; [apply steady_lift, same_count_refl|intros normalized].
  apply fails_steady, (fails_bind_l same_count), fails_up, insert_transaction_fails.
Qed.

Lemma steady_sync_account name key label user_id user_uuid date_from date_to
    normalizer account :
  steadyL (sync_account O name key label user_id user_uuid date_from date_to
             normalizer account).
Proof.
  unfold sync_account.
  bindL; [apply steady_lift, same_count_refl|intros fallback].
  bindL; [apply steady_lift, same_count_refl|intros account_id].
  apply (steady_try_except same_count same_count_trans).
  - bindL; [apply steady_up, steady_call|intros campaigns].
    bindL; [apply steady_lift, same_count_refl|intros items].
    apply steady_for_. intros x. apply steady_sync_campaign.
  - intros e. apply steady_update_result. reflexivity.
Qed.

Lemma quiet_ret r : transactions_synced r = 0 -> quiet (Task.ret r).
Proof. intros Hr s. cbn. split; [reflexivity|exact Hr]. Qed.

Lemma quiet_bind {A} (m : M A) (k : A -> M SyncResult) :
  steadyM m -> (forall a, quiet (k a)) -> quiet (Task.bind m k).
Proof.
  intros Hm Hk s. unfold Task.bind. specialize (Hm s).
  destruct (m s) as [[a|e|] s1]; cbn in Hm; destruct Hm as (Hh & HR);
    [|exact HR|contradiction].
  specialize (Hk a s1). unfold same_table in HR.
  destruct (k a s1) as [[r|e|] s2]; [|congruence|assumption].
  destruct Hk as (Ht & Hr). split; congruence.
Qed.

Lemma quiet_try_except (body : M SyncResult) (handler : PyExc -> M SyncResult) :
  quiet body -> (forall e, quiet (handler e)) -> quiet (Task.try_except body handler).
Proof.
  intros Hb Hh s. unfold Task.try_except. specialize (Hb s).
  destruct (body s) as [[r|e|] s1]; [exact Hb| |exact Hb].
  specialize (Hh e s1). destruct (handler e s1) as [[r|e'|] s2];
    [destruct Hh; split|..]; congruence || assumption.
Qed.

Lemma quiet_with_result init (body : L unit) :
  transactions_synced init = 0 -> steadyL body -> quiet (with_result init body).
Proof.
  intros Hinit Hb s. unfold with_result. specialize (Hb (s, init)).
  destruct (body (s, init)) as [[u|e|] [s1 r]]; cbn in Hb;
    destruct Hb as (Hh & Ht & Hc); cbn [fst snd] in Ht, Hc; [split|..]; congruence.
Qed.

Lemma quiet_sync_shopify user_id date_from date_to :
  quiet (_sync_shopify O user_id date_from date_to).
Proof.
  unfold _sync_shopify.
  apply quiet_bind; [apply steady_get_router|intros _].
  apply quiet_bind; [apply steady_lift, same_table_refl|intros normalizer].
  apply quiet_bind; [apply steady_get_db|intros _].
  apply quiet_bind; [apply steady_ensure_user_uuid|intros user_uuid].
  apply quiet_with_result; [reflexivity|].
  bindL.
  - apply (steady_try_except same_count same_count_trans).
    + bindL; [apply steady_up, steady_call|intros orders].
      bindL; [apply steady_lift, same_count_refl|intros items].
      apply steady_for_. intros x. apply steady_sync_order.
    + intros e. apply steady_update_result. reflexivity.
  - intros _. apply (steady_try_except same_count same_count_trans).
    + bindL; [apply steady_up, steady_call|intros products].
      bindL; [apply steady_lift, same_count_refl|intros items].
      apply steady_for_. intros x. apply steady_sync_product.
    + intros e. apply steady_update_result. reflexivity.
Qed.

Lemma quiet_sync_ads name key label failed user_id date_from date_to :
  quiet (_sync_ads O name key label failed user_id date_from date_to).
Proof.
  unfold _sync_ads.
  apply quiet_bind; [apply steady_get_router|intros _].
  apply quiet_bind; [apply steady_lift, same_table_refl|intros normalizer].
  apply quiet_bind; [apply steady_get_db|intros _].
  apply quiet_bind; [apply steady_ensure_user_uuid|intros user_uuid].
  apply quiet_with_result; [reflexivity|].
  apply (steady_try_except same_count same_count_trans).
  - bindL; [apply steady_up, steady_call|intros accounts].
    bindL; [apply steady_lift, same_count_refl|intros items].
    apply steady_for_. intros x. apply steady_sync_account.
  - intros e. apply steady_update_result. reflexivity.
Qed.

Lemma quiet_sync_platform user_id platform date_from date_to :
  quiet (sync_platform O user_id platform date_from date_to).
Proof.
  unfold sync_platform.
  apply quiet_bind.
  { destruct date_to; [apply steady_ret|apply steady_gets]; apply same_table_refl. }
  intros to. apply quiet_bind.
  { destruct date_from; [apply steady_ret|apply steady_lift]; apply same_table_refl. }
  intros from. apply quiet_try_except.
  - destruct (String.eqb (PyStr.lower platform) "shopify"); [apply quiet_sync_shopify|].
    destruct (String.eqb (PyStr.lower platform) "meta"); [apply quiet_sync_ads|].
    destruct (String.eqb (PyStr.lower platform) "google"); [apply quiet_sync_ads|].
    apply quiet_ret. reflexivity.
  - intros e. apply quiet_ret. reflexivity.
Qed.

(** Sending the INSERT a second time for a key changes nothing. *)
Lemma insert_twice (key : string * string * string) (row row' : TxRow) (table : TxStore) :
  insert_on_conflict_do_nothing key row (insert_on_conflict_do_nothing key row' table)
  = insert_on_conflict_do_nothing key row' table.
Proof.
  unfold insert_on_conflict_do_nothing.
  destruct (table !! key) as [old|] eqn:Hk.
  - rewrite Hk. reflexivity.
  - rewrite lookup_insert_eq. reflexivity.
Qed.

(** No run of [sync_platform] adds a row to [transactions], and a
    report it returns counts no transaction: every call of
    [_insert_transaction] raises before the INSERT is sent. *)
Lemma sync_platform_adds_nothing user_id platform date_from date_to s report s' :
  sync_platform O user_id platform date_from date_to s = (Returns report, s') ->
  transactions s' = transactions s /\ transactions_synced report = 0.
Proof.
  intros H.
  pose proof (quiet_sync_platform user_id platform date_from date_to s) as Hq.
  rewrite H in Hq. exact Hq.
Qed.

(** A call of [_insert_transaction] never returns: it raises, and
    the table is as it was. *)
Lemma insert_transaction_raises user_uuid tx s :
  exists e s',
    _insert_transaction O user_uuid tx s = (Raises e, s')
    /\ transactions s' = transactions s.
Proof.
  destruct (insert_transaction_fails user_uuid tx s) as ((e & He) & Hsame).
  destruct (_insert_transaction O user_uuid tx s) as [o s'].
  cbn [fst snd] in He, Hsame. subst o. exists e, s'. split; [reflexivity|exact Hsame].
Qed.

(** With [date_from] left out and [date_to] within the first thirty
    days of the calendar, the default window cannot be computed: the
    OverflowError of [date_to - timedelta(days=30)] is raised before
    the [try] is entered and leaves [sync_platform], whatever the
    collaborators would have done. *)
Lemma default_window_overflows user_id platform date_to s :
  1 <= date_to <= 30 ->
  sync_platform O user_id platform None (Some date_to) s
  = (Raises (mkExc OverflowError "date value out of range"), s).
Proof.
  intros Hd. unfold sync_platform, Task.bind, Task.ret, Task.lift, PyTime.date_sub_days.
  destruct (Z.leb_spec 1 (date_to - 30)) as [H|H]; [lia|]. reflexivity.
Qed.

(** When the window can be computed, the call returns a report. *)
Lemma sync_platform_returns user_id platform date_from date_to s :
  (date_from = None ->
   31 <= match date_to with Some d => d | None => today O (ext s) end
      <= PyTime.MAX_ORDINAL) ->
  exists report s', sync_platform O user_id platform date_from date_to s = (Returns report, s').
Proof.
  intros Hwindow.
  pose proof (quiet_sync_platform user_id platform date_from date_to s) as Hq.
  revert Hq. unfold sync_platform, Task.bind.
  set (to := match date_to with Some d => d | None => today O (ext s) end) in *.
  assert (Hto : (match date_to with
                 | Some d => Task.ret d
                 | None => Task.gets (fun s => today O (ext s))
                 end) s = (Returns to, s)) by (destruct date_to; reflexivity).
  rewrite Hto.
  assert (Hfrom : exists from,
             (match date_from with
              | Some d => Task.ret d
              | None => Task.lift (PyTime.date_sub_days to 30)
              end) s = (Returns from, s)).
  { destruct date_from as [d|]; [exists d; reflexivity|].
    specialize (Hwindow eq_refl). exists (to - 30).
    unfold Task.lift, PyTime.date_sub_days.
    destruct (Z.leb_spec 1 (to - 30)); [|lia].
    destruct (Z.leb_spec (to - 30) PyTime.MAX_ORDINAL); [reflexivity|lia]. }
  destruct Hfrom as (from & Hfrom). rewrite Hfrom.
  unfold Task.try_except.
  match goal with
  | |- context [match ?body s with _ => _ end] => destruct (body s) as [[r|e|] s1]
  end; cbn; intros Hq; eauto. contradiction.
Qed.

(** What happens to an order that normalizes does not depend on
    [validate]: the transaction goes to [_insert_transaction], and
    the error recorded for the order is the one that call raises. *)
Lemma sync_order_inserts_unvalidated user_uuid d tx s r :
  Normalizer.normalize Normalizer.Shopify (runtime O (ext s)) d = Ok tx ->
  exists e s',
    _insert_transaction O user_uuid tx s = (Raises e, s')
    /\ sync_order O user_uuid Normalizer.Shopify (VDict d) (s, r)
       = (Returns tt,
          (s', append_error r
                 ("Order " +:+ PyVal.str (PyVal.get_default d "id" (VStr "unknown"))
                    +:+ ": " +:+ exc_str e))).
Proof.
  intros Hn.
  destruct (insert_transaction_fails user_uuid tx s) as ((e & He) & _).
  destruct (_insert_transaction O user_uuid tx s) as [o s'] eqn:Hins.
  cbn [fst] in He. subst o. exists e, s'. split; [reflexivity|].
  unfold sync_order, Task.try_except, Task.bind, Task.gets, Task.lift, up,
    Normalizer.normalize_value.
  cbn [fst snd]. rewrite Hn.
  change (fst (s, r)) with s. change (snd (s, r)) with r.
  rewrite Hins. reflexivity.
Qed.

Lemma bind_returns {S A B} (m : Task S A) (k : A -> Task S B) s b s' :
  Task.bind m k s = (Returns b, s') ->
  exists a s1, m s = (Returns a, s1) /\ k a s1 = (Returns b, s').
Proof.
  unfold Task.bind. destruct (m s) as [[a|e|] s1]; intros H;
    [eauto|discriminate|discriminate].
Qed.

Lemma empty_handed_error platform msg : empty_handed (append_error (new_result platform) msg).
Proof. repeat split. discriminate. Qed.

Lemma empty_handed_more r msg : empty_handed r -> empty_handed (append_error r msg).
Proof.
  intros (Ht & Hp & Hc & He). repeat split; try assumption.
  cbn. destruct (errors r); [contradiction|discriminate].
Qed.

(** A fetch that raises leaves one message and no count. *)
Lemma failed_fetch {A} (f : Ext -> result A * Ext) (k : A -> L unit) (prefix : string) s r :
  (exists e, fst (f (ext s)) = Raise e) ->
  exists s1 msg,
    Task.try_except
      (Task.bind (up (call f)) k)
      (fun e => update_result (fun r => append_error r (prefix +:+ exc_str e)))
      (s, r)
    = (Returns tt, (s1, append_error r msg)).
Proof.
  intros (e & He). unfold Task.try_except, Task.bind, up, call. cbn [fst snd].
  change (fst (s, r)) with s. change (snd (s, r)) with r.
  destruct (f (ext s)) as [o x]. cbn [fst] in He. subst o.
  eexists _, _. reflexivity.
Qed.

Lemma with_result_returns init (body : L unit) s r s' :
  with_result init body s = (Returns r, s') -> body (s, init) = (Returns tt, (s', r)).
Proof.
  unfold with_result. destruct (body (s, init)) as [[[]|e|] [s1 r1]]; intros H;
    [injection H as -> ->; reflexivity|discriminate|discriminate].
Qed.

Lemma shopify_nothing_fetched user_id date_from date_to s report s' :
  (forall a b c d n x, exists e, fst (fetch_orders O a b c d n x) = Raise e) ->
  (forall a b n x, exists e, fst (fetch_products O a b n x) = Raise e) ->
  _sync_shopify O user_id date_from date_to s = (Returns report, s') ->
  empty_handed report.
Proof.
  intros Horders Hproducts. unfold _sync_shopify. intros H.
  apply bind_returns in H. destruct H as (? & s1 & _ & H).
  apply bind_returns in H. destruct H as (normalizer & s2 & _ & H).
  apply bind_returns in H. destruct H as (? & s3 & _ & H).
  apply bind_returns in H. destruct H as (user_uuid & s4 & _ & H).
  apply with_result_returns in H.
  apply bind_returns in H. destruct H as (? & sr & H1 & H2).
  match type of H1 with
  | Task.try_except (Task.bind (up (call ?f)) ?k) ?h (s4, ?r) = _ =>
      destruct (failed_fetch f k "Failed to fetch orders: " s4 r (Horders _ _ _ _ _ _))
        as (s5 & m1 & Hstep1)
  end.
  rewrite Hstep1 in H1. injection H1 as _ <-.
  match type of H2 with
  | Task.try_except (Task.bind (up (call ?f)) ?k) ?h (s5, ?r) = _ =>
      destruct (failed_fetch f k "Failed to fetch products: " s5 r (Hproducts _ _ _ _))
        as (s6 & m2 & Hstep2)
  end.
  rewrite Hstep2 in H2. injection H2 as _ <-.
  apply empty_handed_more, empty_handed_error.
Qed.

Lemma ads_nothing_fetched name key label failed user_id date_from date_to s report s' :
  (forall a b x, exists e, fst (fetch_ad_accounts O a b x) = Raise e) ->
  _sync_ads O name key label failed user_id date_from date_to s = (Returns report, s') ->
  empty_handed report.
Proof.
  intros Haccounts. unfold _sync_ads. intros H.
  apply bind_returns in H. destruct H as (? & s1 & _ & H).
  apply bind_returns in H. destruct H as (normalizer & s2 & _ & H).
  apply bind_returns in H. destruct H as (? & s3 & _ & H).
  apply bind_returns in H. destruct H as (user_uuid & s4 & _ & H).
  apply with_result_returns in H.
  match type of H with
  | Task.try_except (Task.bind (up (call ?f)) ?k) ?h (s4, ?r) = _ =>
      destruct (failed_fetch f k failed s4 r (Haccounts _ _ _)) as (s5 & m1 & Hstep1)
  end.
  rewrite Hstep1 in H. injection H as _ <-. apply empty_handed_error.
Qed.

(** When every fetch of the platform raises, or the platform is not
    known, or the set-up of the sync raises, the report counts
    nothing and holds at least one error. *)
Lemma sync_platform_nothing_fetched user_id platform date_from date_to s report s' :
  (forall a b c d n x, exists e, fst (fetch_orders O a b c d n x) = Raise e) ->
  (forall a b n x, exists e, fst (fetch_products O a b n x) = Raise e) ->
  (forall a b x, exists e, fst (fetch_ad_accounts O a b x) = Raise e) ->
  sync_platform O user_id platform date_from date_to s = (Returns report, s') ->
  empty_handed report.
Proof.
  intros Horders Hproducts Haccounts. unfold sync_platform. intros H.
  apply bind_returns in H. destruct H as (to & s1 & _ & H).
  apply bind_returns in H. destruct H as (from & s2 & _ & H).
  unfold Task.try_except in H.
  match type of H with
  | context [match ?body s2 with _ => _ end] => destruct (body s2) as [[r|e|] s3] eqn:Hbody
  end.
  - injection H as -> ->. revert Hbody.
    destruct (String.eqb (PyStr.lower platform) "shopify");
      [apply shopify_nothing_fetched; assumption|].
    destruct (String.eqb (PyStr.lower platform) "meta");
      [apply ads_nothing_fetched; assumption|].
    destruct (String.eqb (PyStr.lower platform) "google");
      [apply ads_nothing_fetched; assumption|].
    intros Hret. injection Hret as <- _. apply empty_handed_error.
  - cbn in H. injection H as <- _. apply empty_handed_error.
  - discriminate.
Qed.

End Service.

(** C2 at its failing input.  A shop whose source holds two orders,
    both of which normalize, is synced twice over the same window.
    The first run stores neither order: each call of
    [_insert_transaction] raises AttributeError on
    [transaction.occurred_at] before the INSERT is sent, so the report
    of the first run counts no transaction and holds an error for each
    order, and the table is as empty as it was.  The second run does
    the same again.  So it is in every world: a call of
    [_insert_transaction] never returns, and no run of
    [sync_platform], the first included, adds a row or counts one. *)
Theorem sync_platform_stores_no_transaction :
  (exists s1,
      sync_platform
        (Sample.sync_world (Ok (VList [VDict Sample.order_plain; VDict Sample.order_eur])))
        "u1" "shopify" None None Sample.new_service
      = (Returns
           (mkResult "shopify" 0 0 0
              [ "Order ord_2: 'NormalizedTransaction' object has no attribute 'occurred_at'";
                "Order ord_1: 'NormalizedTransaction' object has no attribute 'occurred_at'" ]),
         s1)
      /\ transactions s1 = empty
      /\ sync_platform
           (Sample.sync_world (Ok (VList [VDict Sample.order_plain; VDict Sample.order_eur])))
           "u1" "shopify" None None s1
         = (Returns
              (mkResult "shopify" 0 0 0
                 [ "Order ord_2: 'NormalizedTransaction' object has no attribute 'occurred_at'";
                   "Order ord_1: 'NormalizedTransaction' object has no attribute 'occurred_at'" ]),
            s1))
  /\ (forall Ext (O : Outside Ext) user_uuid tx (s : State Ext),
        exists e s',
          _insert_transaction O user_uuid tx s = (Raises e, s')
          /\ transactions s' = transactions s)
  /\ (forall Ext (O : Outside Ext) user_id platform date_from date_to (s : State Ext)
             report s',
        sync_platform O user_id platform date_from date_to s = (Returns report, s') ->
        transactions s' = transactions s /\ transactions_synced report = 0).
Proof.
  split; [|split].
  - exists (mkState true true empty tt). vm_compute. repeat split; reflexivity.
  - intros Ext O user_uuid tx s. apply insert_transaction_raises.
  - intros Ext O user_id platform date_from date_to s report s'.
    apply sync_platform_adds_nothing.
Qed.

Lemma sync_platform_stores_no_transaction_witness :
  exists report s',
    sync_platform (Sample.sync_world (Ok (VList [VDict Sample.refund_negative])))
      "u1" "shopify" None None Sample.new_service = (Returns report, s')
    /\ transactions s' = transactions Sample.new_service
    /\ transactions_synced report = 0.
Proof.
  destruct (sync_platform (Sample.sync_world (Ok (VList [VDict Sample.refund_negative])))
              "u1" "shopify" None None Sample.new_service) as [[report|e|] s'] eqn:H;
    [|vm_compute in H; discriminate..].
  exists report, s'. split; [reflexivity|].
  destruct sync_platform_stores_no_transaction as (_ & _ & Hruns).
  apply (Hruns _ _ _ _ _ _ _ _ _ H).
Defined.

(** C5 at its failing input.  With [date_from] left out and [date_to]
    the first day of the calendar, in a world where every collaborator
    answers, [sync_platform] returns no report: the OverflowError of
    [date_to - timedelta(days=30)], raised before the [try] is entered,
    leaves the call.  The same holds in every world and for every
    [date_to] within the first thirty days of the calendar. *)
Theorem sync_platform_default_window_overflow :
  sync_platform (Sample.sync_world (Ok (VList [VDict Sample.order_plain])))
    "u1" "shopify" None (Some 1) Sample.new_service
  = (Raises (mkExc OverflowError "date value out of range"), Sample.new_service)
  /\ forall Ext (O : Outside Ext) user_id platform date_to (s : State Ext),
       1 <= date_to <= 30 ->
       sync_platform O user_id platform None (Some date_to) s
       = (Raises (mkExc OverflowError "date value out of range"), s).
Proof.
  split.
  - apply default_window_overflows. lia.
  - intros Ext O user_id platform date_to s Hd. apply default_window_overflows. exact Hd.
Qed.

Lemma sync_platform_default_window_overflow_witness :
  sync_platform Sample.offline_world "u1" "meta" None (Some 30) Sample.new_service
  = (Raises (mkExc OverflowError "date value out of range"), Sample.new_service).
Proof.
  destruct sync_platform_default_window_overflow as (_ & H).
  apply H. lia.
Defined.

End DataSyncFacts.

(** ** Records with missing fields *)
Module MissingFields.
Import Dec Models Normalizer NormalizerFacts.

Lemma lookup_none_get data k : PyVal.lookup k data = None -> PyVal.get data k = VNone.
Proof. intros H. unfold PyVal.get, PyVal.get_default. rewrite H. reflexivity. Qed.

(** C10, as amended.  [ShopifyNormalizer.normalize] rejects no record
    for a field it lacks: the record without any field normalizes.
    When it returns: for a record with neither [total_price] nor
    [amount] the amount is [Decimal("0")] (a record that lacks
    [total_price] and holds [amount] takes that amount); for a record
    without [currency] the currency is "USD" and [amount_usd] is the
    amount; for a record with neither [created_at] nor [processed_at]
    the timestamp is the clock reading of the call, so that two calls
    at different readings differ.  In the sync path an order that
    normalizes goes to [_insert_transaction] as it is: [validate] is
    not called, and the error recorded for the order is the one the
    insert raises. *)
Theorem shopify_missing_fields_default :
  (forall rt, exists tx, ShopifyNormalizer.normalize rt [] = Ok tx)
  /\ (forall rt data tx,
        ShopifyNormalizer.normalize rt data = Ok tx ->
        (PyVal.lookup "total_price" data = None -> PyVal.lookup "amount" data = None ->
         amount tx = lit "0")
        /\ (PyVal.lookup "currency" data = None ->
            currency tx = VStr "USD" /\ amount_usd tx = Some (amount tx))
        /\ (PyVal.lookup "created_at" data = None ->
            PyVal.lookup "processed_at" data = None ->
            timestamp tx = TsDatetime (datetime_now rt)
            /\ forall rt' tx',
                 ShopifyNormalizer.normalize rt' data = Ok tx' ->
                 datetime_now rt' <> datetime_now rt ->
                 timestamp tx' <> timestamp tx))
  /\ (forall Ext (O : DataSync.Outside Ext) user_uuid d tx s r,
        normalize Shopify (DataSync.runtime O (DataSync.ext s)) d = Ok tx ->
        exists e s',
          DataSync._insert_transaction O user_uuid tx s = (Raises e, s')
          /\ DataSync.sync_order O user_uuid Shopify (VDict d) (s, r)
             = (Returns tt,
                (s', DataSync.append_error r
                       ("Order " +:+ PyVal.str (PyVal.get_default d "id" (VStr "unknown"))
                          +:+ ": " +:+ exc_str e)))).
Proof.
  split; [|split].
  - intros rt. eexists. reflexivity.
  - intros rt data tx H.
    assert (Hts : forall rt0 tx0,
               ShopifyNormalizer.normalize rt0 data = Ok tx0 ->
               PyVal.lookup "created_at" data = None ->
               PyVal.lookup "processed_at" data = None ->
               timestamp tx0 = TsDatetime (datetime_now rt0)).
    { intros rt0 tx0 H0 Hc Hp. apply shopify_ok in H0.
      destruct H0 as (total & c & _ & _ & _ & Hstamp & _).
      unfold ShopifyNormalizer.timestamp_str in Hstamp.
      rewrite (lookup_none_get _ _ Hc), (lookup_none_get _ _ Hp) in Hstamp.
      cbn in Hstamp. injection Hstamp as <-. reflexivity. }
    pose proof (shopify_ok rt data tx H)
      as (total & c & Htotal & Hmag & _ & _ & Hcur & Hcur' & Husd).
    split; [|split].
    + intros Hp Ha. unfold ShopifyNormalizer.amount_str in Htotal.
      rewrite (lookup_none_get _ _ Hp), (lookup_none_get _ _ Ha) in Htotal.
      vm_compute in Htotal. injection Htotal as <-.
      destruct (ShopifyNormalizer.is_refund data); vm_compute in Hmag;
        injection Hmag as Hmag; symmetry; exact Hmag.
    + intros Hc. unfold PyVal.get_default in Hcur. rewrite Hc in Hcur.
      injection Hcur as <-. split; [exact Hcur'|exact Husd].
    + intros Hc Hp. split; [apply Hts; assumption|].
      intros rt' tx' H' Hnow. rewrite (Hts rt tx H Hc Hp), (Hts rt' tx' H' Hc Hp).
      congruence.
  - intros Ext O user_uuid d tx s r H.
    apply DataSyncFacts.sync_order_inserts_unvalidated. exact H.
Qed.

Lemma shopify_missing_fields_default_witness :
  exists tx,
    ShopifyNormalizer.normalize Sample.runtime [("id", VStr "ord_8")] = Ok tx
    /\ amount tx = lit "0"
    /\ currency tx = VStr "USD"
    /\ amount_usd tx = Some (amount tx)
    /\ timestamp tx = TsDatetime Sample.a_moment.
Proof.
  destruct (ShopifyNormalizer.normalize Sample.runtime [("id", VStr "ord_8")])
    as [tx|e] eqn:H; [|vm_compute in H; discriminate].
  exists tx. split; [reflexivity|].
  destruct shopify_missing_fields_default as (_ & Hdefaults & _).
  destruct (Hdefaults Sample.runtime [("id", VStr "ord_8")] tx H) as (Ha & Hc & Ht).
  split; [apply Ha; reflexivity|].
  destruct (Hc eq_refl) as (Hcur & Husd).
  split; [exact Hcur|]. split; [exact Husd|].
  destruct (Ht eq_refl eq_refl) as (Hstamp & _). exact Hstamp.
Defined.

(** C10 as stated fails: a record that lacks [total_price] and holds
    [amount] is normalized to that amount, not to zero. *)
Lemma shopify_missing_total_counterexample :
  PyVal.lookup "total_price" Sample.order_amount_only = None
  /\ exists tx,
       ShopifyNormalizer.normalize Sample.runtime Sample.order_amount_only = Ok tx
       /\ amount tx = lit "12.50"
       /\ num_eqb (amount tx) (lit "0") = false.
Proof.
  split; [reflexivity|]. eexists. split; [vm_compute; reflexivity|].
  split; reflexivity.
Qed.

End MissingFields.

(** ** The token manager *)
Module TokenManagerFacts.
Import TokenManager PyTime.

Lemma buffer_300 : timedelta_seconds 300 = Ok (300 * us_per_second).
Proof. reflexivity. Qed.

Lemma is_expired_by_instant t tok e :
  expires_at tok = Some e ->
  in_range (wall e - 300 * us_per_second) = true ->
  is_expired (utc t) tok 300 = Ok (instant e - 300 * us_per_second <=? t).
Proof.
  intros He Hrange. unfold is_expired. rewrite He, buffer_300. cbn [rbind].
  unfold sub_us, add_us, instant.
  destruct (utcoffset e) as [o|] eqn:Ho; cbn [wall utcoffset replace_tz_utc];
    rewrite ?Ho;
    replace (wall e + - (300 * us_per_second)) with (wall e - 300 * us_per_second) by lia;
    rewrite Hrange; cbn [rbind ge utc wall utcoffset]; do 2 f_equal; lia.
Qed.

(** C6.  A credential without [expires_at] never reports expired,
    whatever the buffer.  With the default buffer of 300 seconds, a
    credential that expires 60 seconds after the reading of the clock
    reports expired, and one that expires 3600 seconds after it does
    not.  The expiry may be naive, read as UTC, or carry an offset; the
    expiry less the buffer has to be a datetime, that is, to fall in
    the years 1 to 9999. *)
Theorem is_expired_buffer :
  (forall now tok buffer, expires_at tok = None -> is_expired now tok buffer = Ok false)
  /\ (forall t tok e,
        expires_at tok = Some e ->
        instant e = t + 60 * us_per_second ->
        in_range (wall e - 300 * us_per_second) = true ->
        is_expired (utc t) tok 300 = Ok true)
  /\ (forall t tok e,
        expires_at tok = Some e ->
        instant e = t + 3600 * us_per_second ->
        in_range (wall e - 300 * us_per_second) = true ->
        is_expired (utc t) tok 300 = Ok false).
Proof.
  split; [|split].
  - intros now tok buffer He. unfold is_expired. rewrite He. reflexivity.
  - intros t tok e He Hi Hr. rewrite (is_expired_by_instant t tok e He Hr), Hi.
    f_equal. apply Z.leb_le. unfold us_per_second. lia.
  - intros t tok e He Hi Hr. rewrite (is_expired_by_instant t tok e He Hr), Hi.
    f_equal. apply Z.leb_gt. unfold us_per_second. lia.
Qed.

Lemma is_expired_buffer_witness :
  is_expired (utc Sample.utc_reading) (Sample.token_expiring_in 60) 300 = Ok true
  /\ is_expired (utc Sample.utc_reading) (Sample.token_expiring_in 3600) 300 = Ok false
  /\ is_expired (utc Sample.utc_reading) Sample.token_for_ever 300 = Ok false.
Proof.
  destruct is_expired_buffer as (Hnone & Hsoon & Hlate).
  split; [|split].
  - eapply Hsoon; reflexivity.
  - eapply Hlate; reflexivity.
  - apply Hnone. reflexivity.
Defined.

Section Manager.
Context {Ext : Type} (O : Outside Ext).

Abbreviation M := (Task (State Ext)).

Lemma bind_step {A B} (m : M A) (k : A -> M B) s a s1 :
  m s = (Returns a, s1) -> Task.bind m k s = k a s1.
Proof. intros H. unfold Task.bind. rewrite H. reflexivity. Qed.

Lemma get_db_ok :
  (forall x, exists x', get_database O x = (Ok tt, x')) ->
  (forall x, db_is_connected O x = true) ->
  forall s, exists s', _get_db O s = (Returns true, s').
Proof.
  intros Hdatabase Hconnected s.
  unfold _get_db, Task.bind, Task.gets, Task.try_except, call, set_db, Task.modify,
    Task.ret.
  destruct (_db s); [eauto|].
  destruct (Hdatabase (ext s)) as (x' & Hx). rewrite Hx. cbn.
  rewrite Hconnected. eauto.
Qed.

Lemma get_user_uuid_ok user_id uid :
  (forall x, exists x', get_database O x = (Ok tt, x')) ->
  (forall x, db_is_connected O x = true) ->
  (forall x, exists x', db_fetchval_user O user_id x = (Ok (Some uid), x')) ->
  forall s, exists s', _get_user_uuid O user_id s = (Returns (Some uid), s').
Proof.
  intros Hdatabase Hconnected Huser s. unfold _get_user_uuid.
  destruct (get_db_ok Hdatabase Hconnected s) as (s1 & H1).
  rewrite (bind_step _ _ _ _ _ H1). cbn [negb].
  unfold Task.try_except, call.
  destruct (Huser (ext s1)) as (x' & Hx). rewrite Hx. eauto.
Qed.

Lemma expired_now_ok tok :
  (forall x, is_expired (utc (now_utc O x)) tok 300 = Ok true) ->
  forall s, expired_now O tok s = (Returns true, s).
Proof.
  intros H s. unfold expired_now, now, Task.bind, Task.gets, Task.lift.
  rewrite H. reflexivity.
Qed.

(** A refresh that raises, or yields no credential, leaves the
    inner [try] with nothing. *)
Lemma failed_refresh_gives_none user_id platform tok s :
  ((exists e s1, _refresh_token O platform tok s = (Raises e, s1))
   \/ (exists s1, _refresh_token O platform tok s = (Returns None, s1))) ->
  exists s',
    Task.try_except
      (let* refreshed := _refresh_token O platform tok in
       match refreshed with
       | Some refreshed =>
           let* _ := store_token O user_id platform refreshed in
           Task.ret (Some refreshed)
       | None => Task.ret None
       end)
      (fun e => Task.ret None) s
    = (Returns None, s').
Proof.
  intros [(e & s1 & H)|(s1 & H)]; unfold Task.try_except, Task.bind; rewrite H;
    cbn; eauto.
Qed.

(** C7.  Take a manager whose lock is free and whose cache holds no
    credential for (user, platform) that reports fresh.  Let the
    database be reachable, the user known, and the stored row hold a
    credential that reports expired and has a refresh token.  If the
    refresh raises or yields no credential, [get_token] with
    [auto_refresh] returns the stored credential: it does not
    raise. *)
Theorem get_token_returns_stale_after_failed_refresh user_id platform uid u row s :
  _lock s = false ->
  (forall cached,
      cache_get (_cache s) user_id platform = Some cached ->
      forall x, is_expired (utc (now_utc O x)) cached 300 = Ok true) ->
  (forall x, exists x', get_database O x = (Ok tt, x')) ->
  (forall x, db_is_connected O x = true) ->
  (forall x, exists x', db_fetchval_user O user_id x = (Ok (Some uid), x')) ->
  uuid_UUID O uid = Ok u ->
  (forall x, exists x', db_fetchrow_token O u platform x = (Ok (Some row), x')) ->
  (forall x, is_expired (utc (now_utc O x)) (token_of_row row) 300 = Ok true) ->
  PyVal.truthy (refresh_token_encrypted row) = true ->
  (forall s0,
      (exists e s1, _refresh_token O platform (token_of_row row) s0 = (Raises e, s1))
      \/ (exists s1, _refresh_token O platform (token_of_row row) s0 = (Returns None, s1))) ->
  exists s', get_token O user_id platform true s = (Returns (Some (token_of_row row)), s').
Proof.
  intros Hlock Hcache Hdatabase Hconnected Huser Huuid Hrow Hexpired Hrefreshable Hfails.
  unfold get_token, with_lock. rewrite Hlock.
  set (s1 := mkState (_db s) true (_cache s) (ext s)).
  (* the cache gives nothing usable *)
  unfold Task.bind at 1. unfold Task.gets at 1.
  change (_cache s1) with (_cache s).
  assert (Hhit : (match cache_get (_cache s) user_id platform with
                  | Some token_data =>
                      let* expired := expired_now O token_data in
                      Task.ret (if expired then None else Some token_data)
                  | None => Task.ret None
                  end) s1 = (Returns None, s1)).
  { destruct (cache_get (_cache s) user_id platform) as [cached|] eqn:Hc; [|reflexivity].
    rewrite (bind_step _ _ _ _ _ (expired_now_ok cached (Hcache cached eq_refl) s1)).
    reflexivity. }
  rewrite (bind_step _ _ _ _ _ Hhit).
  (* the database is asked *)
  destruct (get_db_ok Hdatabase Hconnected s1) as (s2 & H2).
  rewrite (bind_step _ _ _ _ _ H2). cbn [negb].
  unfold Task.try_except at 1.
  destruct (get_user_uuid_ok user_id uid Hdatabase Hconnected Huser s2) as (s3 & H3).
  rewrite (bind_step _ _ _ _ _ H3).
  unfold Task.bind at 1, Task.lift at 1. rewrite Huuid.
  unfold Task.bind at 1, call at 1.
  destruct (Hrow (ext s3)) as (x4 & H4). rewrite H4.
  set (s4 := mkState (_db s3) (_lock s3) (_cache s3) x4).
  unfold Task.bind at 1, set_cache at 1, Task.modify at 1.
  match goal with
  | |- context [Task.bind (expired_now O (token_of_row row)) ?k ?st] =>
      rewrite (bind_step _ k st _ _ (expired_now_ok (token_of_row row) Hexpired st))
  end.
  change (refresh_token (token_of_row row)) with (refresh_token_encrypted row).
  rewrite Hrefreshable. cbn [andb].
  match goal with
  | |- context [Task.bind (Task.try_except ?body ?h) ?k ?st] =>
      destruct (failed_refresh_gives_none user_id platform (token_of_row row) st (Hfails st))
        as (s5 & H5);
      rewrite (bind_step _ k st _ _ H5)
  end.
  cbn. eauto.
Qed.

End Manager.

Lemma get_token_returns_stale_after_failed_refresh_witness :
  exists s',
    get_token Sample.token_world "u1" "google" true Sample.new_manager
    = (Returns (Some (token_of_row Sample.stale_row)), s').
Proof.
  apply (get_token_returns_stale_after_failed_refresh Sample.token_world
           "u1" "google" Sample.a_user_uuid Sample.a_user_uuid Sample.stale_row).
  - reflexivity.
  - intros cached Hc. discriminate.
  - intros []. exists tt. reflexivity.
  - reflexivity.
  - intros []. exists tt. reflexivity.
  - reflexivity.
  - intros []. exists tt. reflexivity.
  - intros []. reflexivity.
  - reflexivity.
  - intros [db lock cache []]. left.
    exists (mkExc (OtherException "ConnectError") "All connection attempts failed").
    exists (mkState db lock cache tt). reflexivity.
Defined.

End TokenManagerFacts.

(** ** The rate table *)
Module CurrencyLaws.
Import Dec DecFacts DecRounding Currency.

Lemma rates_get_set_same k v r : rates_get k (rates_set k v r) = Some v.
Proof.
  induction r as [|[k' v'] r IH]; cbn [rates_set rates_get].
  - rewrite String.eqb_refl. reflexivity.
  - destruct (String.eqb k k') eqn:Hk; cbn [rates_get]; rewrite Hk; [reflexivity|exact IH].
Qed.

Lemma rates_get_set_other k k' v r :
  k' <> k -> rates_get k' (rates_set k v r) = rates_get k' r.
Proof.
  intros Hne. induction r as [|[k0 v0] r IH]; cbn [rates_set rates_get].
  - apply String.eqb_neq in Hne. rewrite Hne. reflexivity.
  - destruct (String.eqb k k0) eqn:Hk; cbn [rates_get].
    + apply String.eqb_eq in Hk. subst k0.
      apply String.eqb_neq in Hne. rewrite Hne. reflexivity.
    + rewrite IH. reflexivity.
Qed.

Lemma keys_rates_set k v r :
  keys (rates_set k v r)
  = match rates_get k r with Some _ => keys r | None => (keys r ++ [k])%list end.
Proof.
  unfold keys. induction r as [|[k' v'] r IH]; cbn [rates_set rates_get map app fst];
    [reflexivity|].
  destruct (String.eqb k k') eqn:Hk; cbn [map fst]; [reflexivity|].
  rewrite IH. destruct (rates_get k r); reflexivity.
Qed.

Lemma rates_get_in k r : rates_get k r <> None <-> In k (keys r).
Proof.
  unfold keys. induction r as [|[k' v'] r IH]; cbn [rates_get map fst In].
  - split; [congruence|contradiction].
  - destruct (String.eqb_spec k k') as [->|Hne].
    + split; [auto|discriminate].
    + rewrite IH. split; [auto|]. intros [Heq|Hin]; [congruence|exact Hin].
Qed.

Lemma set_rate_ok self currency rate self' :
  set_rate self currency rate = Ok self' ->
  le_zero rate = Ok false
  /\ self' = mkConverter (rates_set (PyStr.upper currency) rate (_rates self)).
Proof.
  unfold set_rate. destruct (le_zero rate) as [[|]|e]; cbn [rbind]; intros H;
    try discriminate.
  injection H as <-. split; reflexivity.
Qed.

(** A rate that [set_rate] has stored is the rate [get_rate] returns
    for every spelling of the code, upper or lower case; the rates of
    the other codes stay as they were; the code is listed once, at the
    place it had or else at the end; and a conversion of US dollars
    does not read the table, so that a rate stored for USD changes no
    conversion. *)
Theorem set_rate_then_get_rate self currency rate self' :
  set_rate self currency rate = Ok self' ->
  (forall c, PyStr.upper c = PyStr.upper currency -> get_rate self' c = Some rate)
  /\ (forall c, PyStr.upper c <> PyStr.upper currency -> get_rate self' c = get_rate self c)
  /\ list_supported_currencies self'
     = (if is_supported self currency then list_supported_currencies self
        else (list_supported_currencies self ++ [PyStr.upper currency])%list)
  /\ (forall amount c places,
        PyStr.upper c = "USD" ->
        convert_to_usd self' amount c places = convert_to_usd self amount c places
        /\ convert_from_usd self' amount c places = convert_from_usd self amount c places).
Proof.
  intros H. apply set_rate_ok in H. destruct H as (_ & ->).
  unfold get_rate, list_supported_currencies, is_supported. cbn [_rates].
  split; [|split; [|split]].
  - intros c ->. apply rates_get_set_same.
  - intros c Hc. apply rates_get_set_other. exact Hc.
  - rewrite keys_rates_set. destruct (rates_get (PyStr.upper currency) (_rates self));
      reflexivity.
  - intros amount c places Hc. unfold convert_to_usd, convert_from_usd.
    rewrite Hc. cbn. split; reflexivity.
Qed.

Lemma set_rate_then_get_rate_witness :
  exists self',
    set_rate (init None) "chf" (lit "1.13") = Ok self'
    /\ get_rate self' "CHF" = Some (lit "1.13")
    /\ get_rate self' "eur" = Some (lit "1.08")
    /\ list_supported_currencies self'
       = ["USD"; "EUR"; "GBP"; "CAD"; "AUD"; "JPY"; "INR"; "CNY"; "BRL"; "MXN"; "CHF"].
Proof.
  destruct (set_rate (init None) "chf" (lit "1.13")) as [self'|e] eqn:H;
    [|vm_compute in H; discriminate].
  exists self'. split; [reflexivity|].
  destruct (set_rate_then_get_rate _ _ _ _ H) as (Hsame & Hother & Hkeys & _).
  split; [apply Hsame; reflexivity|].
  split; [rewrite Hother; [reflexivity|vm_compute; discriminate]|].
  rewrite Hkeys. reflexivity.
Defined.

(** *** What the operations on Decimals may raise *)

Abbreviation invalid_exc := (mkExc InvalidOperation "[<class 'decimal.InvalidOperation'>]").
Abbreviation overflow_exc := (mkExc DecimalOverflow "[<class 'decimal.Overflow'>]").

Lemma fix_raises d e : fix_ d = Raise e -> e = overflow_exc.
Proof.
  unfold fix_. intros H.
  destruct d as [neg c ex| |]; [|discriminate..].
  repeat match type of H with
         | context [if ?b then _ else _] => destruct b
         | context [let '(_, _) := ?p in _] => destruct p
         end;
    try discriminate; injection H as <-; reflexivity.
Qed.

Lemma quantize_raises d q e :
  quantize_half_up d q = Raise e -> e = invalid_exc \/ e = overflow_exc.
Proof.
  unfold quantize_half_up. intros H.
  destruct d as [neg c ex|neg|[|]]; cbn [check_nan] in H;
    try (injection H as <-; left; reflexivity); try discriminate.
  repeat match type of H with
         | context [if ?b then _ else _] => destruct b
         end;
    try (injection H as <-; left; reflexivity);
    apply fix_raises in H; subst e; right; reflexivity.
Qed.

Lemma mul_raises a b e : mul a b = Raise e -> e = invalid_exc \/ e = overflow_exc.
Proof.
  unfold mul. intros H.
  destruct a as [s1 c1 e1|s1|[|]], b as [s2 c2 e2|s2|[|]]; cbn [check_nans] in H;
    try (injection H as <-; left; reflexivity); try discriminate.
  - apply fix_raises in H. subst e. right. reflexivity.
  - destruct (c1 =? 0)%N; [injection H as <-; left; reflexivity|discriminate].
  - destruct (c2 =? 0)%N; [injection H as <-; left; reflexivity|discriminate].
Qed.

Lemma div_raises a b e :
  div a b = Raise e ->
  exc_class e = InvalidOperation \/ exc_class e = DecimalOverflow
  \/ exc_class e = DivisionByZero.
Proof.
  unfold div. intros H.
  destruct a as [s1 c1 e1|s1|[|]], b as [s2 c2 e2|s2|[|]]; cbn [check_nans] in H;
    try (injection H as <-; left; reflexivity); try discriminate.
  destruct (c2 =? 0)%N.
  - destruct (c1 =? 0)%N; injection H as <-; [left|right; right]; reflexivity.
  - destruct (c1 =? 0)%N.
    + apply fix_raises in H. subst e. right. left. reflexivity.
    + repeat match type of H with
             | context [let '(_, _) := ?p in _] => destruct p
             end.
      apply fix_raises in H. subst e. right. left. reflexivity.
Qed.

(** Division by a rate above zero signals neither a division by zero
    nor an undefined division. *)
Lemma div_positive_raises a b e :
  le_zero b = Ok false -> div a b = Raise e -> e = invalid_exc \/ e = overflow_exc.
Proof.
  unfold div. intros Hb H.
  destruct a as [s1 c1 e1|s1|[|]], b as [s2 c2 e2|s2|[|]]; cbn [check_nans] in H;
    try discriminate;
    try (injection H as <-; left; reflexivity).
  cbn [le_zero] in Hb. injection Hb as Hb. apply orb_false_elim in Hb.
  destruct Hb as (_ & Hc2). rewrite Hc2 in H.
  destruct (c1 =? 0)%N.
  - apply fix_raises in H. subst e. right. reflexivity.
  - repeat match type of H with
           | context [let '(_, _) := ?p in _] => destruct p
           end.
    apply fix_raises in H. subst e. right. reflexivity.
Qed.

Lemma positive_rates_set k v r :
  le_zero v = Ok false ->
  Forall (fun kv => le_zero (snd kv) = Ok false) r ->
  Forall (fun kv => le_zero (snd kv) = Ok false) (rates_set k v r).
Proof.
  intros Hv. induction r as [|[k' v'] r IH]; intros Hr; cbn [rates_set].
  - constructor; [exact Hv|constructor].
  - inversion Hr as [|? ? Hhd Htl]; subst.
    destruct (String.eqb k k'); constructor; auto.
Qed.

Lemma positive_rates_get k r rate :
  Forall (fun kv => le_zero (snd kv) = Ok false) r ->
  rates_get k r = Some rate -> le_zero rate = Ok false.
Proof.
  induction r as [|[k' v'] r IH]; intros Hr; cbn [rates_get]; [discriminate|].
  inversion Hr as [|? ? Hhd Htl]; subst.
  destruct (String.eqb k k'); [intros H; injection H as <-; exact Hhd|auto].
Qed.

Lemma set_rate_keeps_positive self currency rate self' :
  positive_rates self -> set_rate self currency rate = Ok self' -> positive_rates self'.
Proof.
  intros Hpos H. apply set_rate_ok in H. destruct H as (Hrate & ->).
  unfold positive_rates. cbn [_rates]. apply positive_rates_set; assumption.
Qed.

Lemma set_rates_keep_positive calls :
  forall self self', positive_rates self -> set_rates self calls = Ok self' ->
                     positive_rates self'.
Proof.
  induction calls as [|[c r] calls IH]; intros self self' Hpos H; cbn [set_rates] in H.
  - injection H as <-. exact Hpos.
  - destruct (set_rate self c r) as [self1|e] eqn:H1; [|discriminate].
    cbn [rbind] in H. apply (IH self1); [|exact H].
    apply (set_rate_keeps_positive self c r); assumption.
Qed.

Lemma default_rates_positive : positive_rates (init None).
Proof. unfold positive_rates. cbn. repeat constructor. Qed.

Lemma convert_from_usd_positive self amount c places e :
  positive_rates self ->
  convert_from_usd self amount c places = Raise e ->
  exc_class e <> DivisionByZero
  /\ exc_str e <> "[<class 'decimal.DivisionUndefined'>]".
Proof.
  intros Hpos. unfold convert_from_usd.
  destruct (String.eqb (PyStr.upper c) "USD").
  - intros H. apply quantize_raises in H. destruct H; subst e; split; discriminate.
  - destruct (rates_get (PyStr.upper c) (_rates self)) as [rate|] eqn:Hrate.
    + pose proof (positive_rates_get _ _ _ Hpos Hrate) as Hr.
      destruct (div amount rate) as [q|e'] eqn:Hdiv; cbn [rbind]; intros H.
      * apply quantize_raises in H. destruct H; subst e; split; discriminate.
      * injection H as <-. apply (div_positive_raises _ _ _ Hr) in Hdiv.
        destruct Hdiv; subst e'; split; discriminate.
    + intros H. injection H as <-. split; [discriminate|].
      cbn [exc_str]. intros Habs.
      apply (f_equal (fun s => String.get 0 s)) in Habs. discriminate.
Qed.

(** The rates of the default table are above zero, and [set_rate]
    keeps a table that way: it stores a rate only when the rate is
    above zero, and refuses zero and negative rates with a ValueError.
    So after any run of [set_rate] calls on a default converter,
    [convert_from_usd], which divides by the rate, raises neither
    decimal.DivisionByZero nor decimal.DivisionUndefined.  The
    constructor checks nothing: a table given to it with a rate of zero
    makes the division fail. *)
Theorem set_rate_guards_division :
  positive_rates (init None)
  /\ (forall self currency rate self',
        positive_rates self -> set_rate self currency rate = Ok self' ->
        positive_rates self')
  /\ (forall self currency neg coef e,
        neg = true \/ coef = 0%N ->
        set_rate self currency (Fin neg coef e)
        = raise ValueError "Exchange rate must be positive")
  /\ (forall calls self amount c places e,
        set_rates (init None) calls = Ok self ->
        convert_from_usd self amount c places = Raise e ->
        exc_class e <> DivisionByZero
        /\ exc_str e <> "[<class 'decimal.DivisionUndefined'>]")
  /\ convert_from_usd (init (Some [("XAU", lit "0")])) (lit "1.00") "XAU" 2
     = raise DivisionByZero "[<class 'decimal.DivisionByZero'>]".
Proof.
  split; [exact default_rates_positive|].
  split; [exact set_rate_keeps_positive|].
  split.
  { intros self currency neg coef e Hbad. unfold set_rate. cbn [le_zero rbind].
    destruct Hbad as [->| ->]; [reflexivity|].
    rewrite orb_true_r. reflexivity. }
  split; [|reflexivity].
  intros calls self amount c places e Hcalls.
  apply convert_from_usd_positive.
  apply (set_rates_keep_positive calls (init None)); [exact default_rates_positive|exact Hcalls].
Qed.

Lemma set_rate_guards_division_witness :
  (exists self,
      set_rates (init None) [("chf", lit "1.13"); ("eur", lit "1.09")] = Ok self
      /\ positive_rates self)
  /\ set_rate (init None) "chf" (lit "-1.13") = raise ValueError "Exchange rate must be positive"
  /\ set_rate (init None) "chf" (lit "0.00") = raise ValueError "Exchange rate must be positive".
Proof.
  destruct set_rate_guards_division as (Hdef & Hkeep & Hbad & _).
  split; [|split].
  - destruct (set_rate (init None) "chf" (lit "1.13")) as [s1|e] eqn:H1;
      [|vm_compute in H1; discriminate].
    destruct (set_rate s1 "eur" (lit "1.09")) as [s2|e] eqn:H2;
      [|apply set_rate_ok in H1; destruct H1 as (_ & ->); vm_compute in H2; discriminate].
    exists s2. split.
    + cbn [set_rates]. rewrite H1. cbn [rbind]. rewrite H2. reflexivity.
    + apply (Hkeep s1 "eur" (lit "1.09")); [|exact H2].
      apply (Hkeep (init None) "chf" (lit "1.13")); [exact Hdef|exact H1].
  - apply (Hbad (init None) "chf" true 113%N (-2)). left. reflexivity.
  - apply (Hbad (init None) "chf" false 0%N (-2)). right. reflexivity.
Defined.

(** *** Codes the table does not serve *)

Lemma is_supported_get self c :
  is_supported self c = false -> rates_get (PyStr.upper c) (_rates self) = None.
Proof. unfold is_supported. destruct (rates_get _ _); [discriminate|reflexivity]. Qed.

(** Each conversion raises a ValueError exactly when the code, in
    upper case, is neither USD nor a key of the table; whatever else
    goes wrong with a served code is a signal of the decimal module. *)
Theorem conversion_value_error_iff self amount c places :
  ((exists msg, convert_to_usd self amount c places = raise ValueError msg)
   <-> String.eqb (PyStr.upper c) "USD" = false /\ is_supported self c = false)
  /\ ((exists msg, convert_from_usd self amount c places = raise ValueError msg)
      <-> String.eqb (PyStr.upper c) "USD" = false /\ is_supported self c = false).
Proof.
  unfold convert_to_usd, convert_from_usd, is_supported.
  destruct (String.eqb (PyStr.upper c) "USD").
  - split; (split; [intros (msg & H)|intros (? & _); discriminate]);
      apply quantize_raises in H; destruct H; discriminate.
  - destruct (rates_get (PyStr.upper c) (_rates self)) as [rate|].
    + split; (split; [intros (msg & H)|intros (_ & ?); discriminate]).
      * destruct (mul amount rate) as [p|e] eqn:Hm; cbn [rbind] in H.
        -- apply quantize_raises in H. destruct H; discriminate.
        -- injection H as ->. apply mul_raises in Hm. destruct Hm; discriminate.
      * destruct (div amount rate) as [q|e] eqn:Hd; cbn [rbind] in H.
        -- apply quantize_raises in H. destruct H; discriminate.
        -- injection H as ->. apply div_raises in Hd. cbn in Hd.
           destruct Hd as [|[|]]; discriminate.
    + split; (split; [intros _; split; reflexivity|intros _; eexists; reflexivity]).
Qed.

Lemma conversion_value_error_iff_witness :
  (exists msg, convert_to_usd (init None) (lit "5") "chf" 2 = raise ValueError msg)
  /\ (exists msg, convert_from_usd (init None) (lit "5") "chf" 2 = raise ValueError msg).
Proof.
  destruct (conversion_value_error_iff (init None) (lit "5") "chf" 2) as (Hto & Hfrom).
  split; [apply Hto|apply Hfrom]; split; reflexivity.
Defined.

(** Codes are looked up in upper case and stored as given.  A key the
    constructor was given in another case, whose upper-case form is not
    a key too, is listed among the supported currencies and yet found
    by no call: [is_supported] is false for it, [get_rate] is [None],
    and unless it spells USD both conversions refuse it, the message of
    [convert_to_usd] listing it as supported. *)
Theorem key_not_upper_case_is_never_found self k :
  In k (list_supported_currencies self) ->
  ~ In (PyStr.upper k) (list_supported_currencies self) ->
  is_supported self k = false
  /\ get_rate self k = None
  /\ (PyStr.upper k <> "USD" ->
      forall amount places,
        convert_to_usd self amount k places
        = raise ValueError
            ("Unsupported currency: " +:+ k +:+ ". Supported currencies: "
               +:+ PyVal.repr (VList (map VStr (list_supported_currencies self))))
        /\ convert_from_usd self amount k places
           = raise ValueError ("Unsupported currency: " +:+ k)).
Proof.
  intros _ Hup. unfold list_supported_currencies in *.
  assert (Hnone : rates_get (PyStr.upper k) (_rates self) = None).
  { destruct (rates_get (PyStr.upper k) (_rates self)) eqn:Hg; [|reflexivity].
    exfalso. apply Hup, rates_get_in. congruence. }
  unfold is_supported, get_rate, convert_to_usd, convert_from_usd. rewrite Hnone.
  split; [reflexivity|]. split; [reflexivity|].
  intros Husd amount places. apply String.eqb_neq in Husd. rewrite Husd.
  split; reflexivity.
Qed.

Lemma key_not_upper_case_is_never_found_witness :
  let self := init (Some [("eur", lit "1.08")]) in
  list_supported_currencies self = ["eur"]
  /\ is_supported self "eur" = false
  /\ convert_to_usd self (lit "10.00") "eur" 2
     = raise ValueError "Unsupported currency: eur. Supported currencies: ['eur']".
Proof.
  intros self.
  destruct (key_not_upper_case_is_never_found self "eur") as (Hsup & _ & Hconv).
  - left. reflexivity.
  - vm_compute. intros [H|[]]. discriminate.
  - split; [reflexivity|]. split; [exact Hsup|].
    destruct (Hconv ltac:(vm_compute; discriminate) (lit "10.00") 2) as (Hto & _).
    rewrite Hto. reflexivity.
Defined.

(** *** Amounts that are already rounded *)

(** What [quantize] has returned, [quantize] returns unchanged. *)
Lemma quantize_stable x q y :
  q <= 0 ->
  quantize_half_up x q = Ok y ->
  quantize_half_up y q = Ok y
  /\ forall s c e, y = Fin s c e -> e = q /\ (c < pow10 28)%N.
Proof.
  intros Hq H.
  assert (Hdone : forall neg coeff,
             Etiny <= q <= Emax ->
             (coeff = 0%N \/ (Emax <? q + ndigits coeff - 1) = false) ->
             (prec <? ndigits coeff) = false ->
             fix_ (Fin neg coeff q) = Ok y ->
             quantize_half_up y q = Ok y
             /\ forall s c e, y = Fin s c e -> e = q /\ (c < pow10 28)%N).
  { intros neg coeff (Hlo & Hhi) Hadj Hprec Hfix.
    apply Z.ltb_ge in Hprec.
    assert (Hcoeff : (coeff < pow10 28)%N) by (apply ndigits_spec; [lia|exact Hprec]).
    rewrite fix_in_range in Hfix by (try assumption; ctx; lia).
    injection Hfix as <-.
    split; [|intros s c e Hy; injection Hy as <- <- <-; split; [reflexivity|exact Hcoeff]].
    unfold quantize_half_up. cbn [check_nan].
    destruct (Z.leb_spec Etiny q) as [_|?]; [|lia].
    destruct (Z.leb_spec q Emax) as [_|?]; [|lia]. cbn [andb negb].
    destruct (N.eqb_spec coeff 0) as [->|Hnz];
      [apply fix_in_range; [reflexivity|lia|ctx; lia]|].
    destruct Hadj as [?|Hadj]; [contradiction|]. rewrite Hadj.
    replace (q + ndigits coeff - 1 - q + 1) with (ndigits coeff) by lia.
    destruct (Z.ltb_spec prec (ndigits coeff)) as [?|_]; [lia|].
    unfold rescale_half_up. rewrite Z.leb_refl, Z.sub_diag.
    change (pow10 0) with 1%N. rewrite N.mul_1_r, Hadj.
    destruct (Z.ltb_spec prec (ndigits coeff)) as [?|_]; [lia|].
    apply fix_in_range; [exact Hcoeff|lia|ctx; lia]. }
  unfold quantize_half_up in H.
  destruct x as [neg c e|neg|[|]]; cbn [check_nan] in H; try discriminate H.
  - destruct ((Etiny <=? q) && (q <=? Emax)) eqn:Hbounds; cbn [negb] in H;
      [|discriminate H].
    assert (Hrange : Etiny <= q <= Emax).
    { apply andb_prop in Hbounds. destruct Hbounds as (Hlo & Hhi).
      apply Z.leb_le in Hlo, Hhi. split; assumption. }
    destruct (c =? 0)%N.
    + apply (Hdone neg 0%N Hrange); [left; reflexivity|reflexivity|exact H].
    + destruct (Emax <? e + ndigits c - 1); [discriminate H|].
      destruct (prec <? e + ndigits c - 1 - q + 1); [discriminate H|].
      destruct (Emax <? q + ndigits (rescale_half_up c e q) - 1) eqn:Hadj;
        [discriminate H|].
      destruct (prec <? ndigits (rescale_half_up c e q)) eqn:Hprec; [discriminate H|].
      apply (Hdone neg (rescale_half_up c e q) Hrange); [right; exact Hadj|exact Hprec|exact H].
  - injection H as <-. split; [reflexivity|discriminate].
Qed.

Lemma convert_to_usd_is_quantize self amount c places y :
  convert_to_usd self amount c places = Ok y ->
  exists x, quantize_half_up x (quantum_exp places) = Ok y.
Proof.
  unfold convert_to_usd. destruct (String.eqb (PyStr.upper c) "USD"); [eauto|].
  destruct (rates_get (PyStr.upper c) (_rates self)) as [rate|]; [|discriminate].
  destruct (mul amount rate) as [p|e]; cbn [rbind]; [eauto|discriminate].
Qed.

(** What [convert_to_usd] returns is rounded for good.  A number it
    returns has exactly [round_places] places and at most 28 digits,
    and given back as an amount in US dollars, to either conversion
    and in any spelling of USD, it is returned as it is: converting
    twice does not round twice. *)
Theorem convert_to_usd_result_is_stable self amount c places y :
  convert_to_usd self amount c places = Ok y ->
  (forall s coef e, y = Fin s coef e -> e = - Z.max 0 places /\ (coef < pow10 28)%N)
  /\ (forall self' usd,
        PyStr.upper usd = "USD" ->
        convert_to_usd self' y usd places = Ok y
        /\ convert_from_usd self' y usd places = Ok y).
Proof.
  intros H. apply convert_to_usd_is_quantize in H. destruct H as (x & H).
  apply quantize_stable in H; [|unfold quantum_exp; lia].
  destruct H as (Hstable & Hshape).
  split; [exact Hshape|].
  intros self' usd Husd. unfold convert_to_usd, convert_from_usd. rewrite Husd.
  cbn [String.eqb Ascii.eqb Bool.eqb]. split; exact Hstable.
Qed.

Lemma convert_to_usd_result_is_stable_witness :
  convert_to_usd (init None) (lit "19.999") "gbp" 2 = Ok (lit "25.40")
  /\ convert_to_usd (init None) (lit "25.40") "usd" 2 = Ok (lit "25.40").
Proof.
  assert (H : convert_to_usd (init None) (lit "19.999") "gbp" 2 = Ok (lit "25.40"))
    by reflexivity.
  split; [exact H|].
  destruct (convert_to_usd_result_is_stable _ _ _ _ _ H) as (_ & Hstable).
  apply (Hstable (init None) "usd"). reflexivity.
Defined.

End CurrencyLaws.

(** ** What the normalizers hand on *)
Module NormalizerLaws.
Import Dec Models Normalizer NormalizerFacts.

(** The constructor changes the id, the platform and [amount_usd], and
    nothing else. *)
Lemma post_init_inv rt tx0 tx :
  post_init rt tx0 = Ok tx ->
  exists usd,
    tx = mkTransaction
           (if PyStr.is_empty (id tx0) then uuid4 rt 1%nat else id tx0)
           (PyStr.strip (PyStr.lower (platform tx0)))
           (platform_id tx0) (type tx0) (amount tx0) (currency tx0) (timestamp tx0) usd
           (sku_id tx0) (quantity tx0) (cost_per_unit tx0) (campaign_id tx0)
           (customer_id tx0) (metadata tx0).
Proof.
  unfold post_init. intros H. step H. injection H as <-. eauto.
Qed.

(** A timestamp that a normalizer has set is never blank. *)
Lemma parse_timestamp_not_blank rt v t :
  ShopifyNormalizer.parse_timestamp rt v = Ok t ->
  match t with TsValue v => blank_val v | TsDatetime _ => false end = false.
Proof.
  unfold ShopifyNormalizer.parse_timestamp.
  destruct v; cbn [PyVal.truthy]; intros H;
    try (step H; injection H as <-; reflexivity);
    try (injection H as <-; reflexivity);
    injection H as <-;
    match goal with
    | |- context [if ?b then _ else _] => destruct b eqn:Hb; try reflexivity
    end.
Qed.

Lemma parse_ad_date_not_blank rt v t :
  parse_ad_date rt v = Ok t ->
  match t with TsValue v => blank_val v | TsDatetime _ => false end = false.
Proof.
  unfold parse_ad_date.
  destruct v; cbn [PyVal.truthy]; intros H;
    try (injection H as <-; reflexivity);
    try (injection H as <-;
         match goal with
         | |- context [if ?b then _ else _] => destruct b eqn:Hb; reflexivity
         end).
  destruct (PyStr.contains_char "T" s); step H; injection H as <-; reflexivity.
Qed.

(** What every transaction a normalizer returns has in common. *)
Lemma normalize_common self rt data tx :
  normalize self rt data = Ok tx ->
  id tx = (if PyStr.is_empty (uuid4 rt 0%nat) then uuid4 rt 1%nat else uuid4 rt 0%nat)
  /\ platform tx = platform_of self
  /\ match timestamp tx with TsValue v => blank_val v | TsDatetime _ => false end = false
  /\ type tx = match self with
               | Shopify => if ShopifyNormalizer.is_refund data then REFUND else ORDER
               | _ => AD_SPEND
               end.
Proof.
  destruct self; cbn [normalize platform_of]; intros H.
  - unfold ShopifyNormalizer.normalize in H.
    do 3 step H. destruct v1 as [[sku qty] cost]. do 3 step H.
    apply post_init_inv in H. destruct H as (usd & ->). cbn.
    repeat split; try reflexivity.
    apply (parse_timestamp_not_blank _ _ _ Hstep2).
  - unfold MetaNormalizer.normalize in H. do 2 step H.
    apply post_init_inv in H. destruct H as (usd & ->). cbn.
    repeat split; try reflexivity.
    apply (parse_ad_date_not_blank _ _ _ Hstep0).
  - unfold GoogleNormalizer.normalize in H. do 8 step H.
    apply post_init_inv in H. destruct H as (usd & ->). cbn.
    repeat split; try reflexivity.
    apply (parse_ad_date_not_blank _ _ _ Hstep1).
Qed.

Lemma normalize_amount_usd self rt data tx :
  normalize self rt data = Ok tx ->
  exists c,
    currency tx = VStr c
    /\ amount_usd tx = (if String.eqb (PyStr.upper c) "USD" then Some (amount tx) else None).
Proof.
  destruct self; cbn [normalize]; intros H.
  - apply shopify_ok in H. destruct H as (total & c & _ & _ & _ & _ & _ & H2 & H3). eauto.
  - apply meta_ok in H. destruct H as (c & _ & _ & _ & H2 & H3). eauto.
  - apply google_ok in H. destruct H as (c & _ & _ & _ & H2 & H3). eauto.
Qed.

(** How the methods of the model class sort what the adapters return.
    A commerce record is revenue or a refund, one or the other, and
    never an expense; an ad record of either ad platform is a marketing
    expense, hence an expense, and neither revenue nor a refund. *)
Theorem normalized_kind self rt data tx :
  normalize self rt data = Ok tx ->
  match self with
  | Shopify =>
      is_refund tx = ShopifyNormalizer.is_refund data
      /\ is_revenue tx = negb (ShopifyNormalizer.is_refund data)
      /\ is_expense tx = false
      /\ is_marketing_expense tx = false
  | _ =>
      is_marketing_expense tx = true
      /\ is_expense tx = true
      /\ is_revenue tx = false
      /\ is_refund tx = false
  end.
Proof.
  intros H. apply normalize_common in H. destruct H as (_ & _ & _ & Hty).
  unfold is_refund, is_revenue, is_expense, is_marketing_expense.
  destruct self; rewrite Hty; [|repeat split; reflexivity..].
  destruct (ShopifyNormalizer.is_refund data); repeat split; reflexivity.
Qed.

Lemma normalized_kind_witness :
  exists tx,
    normalize Shopify Sample.runtime Sample.refund_by_kind = Ok tx
    /\ is_refund tx = true /\ is_revenue tx = false /\ is_expense tx = false.
Proof.
  destruct (normalize Shopify Sample.runtime Sample.refund_by_kind) as [tx|e] eqn:H;
    [|vm_compute in H; discriminate].
  exists tx. split; [reflexivity|].
  destruct (normalized_kind Shopify Sample.runtime Sample.refund_by_kind tx H)
    as (Hr & Hv & He & _).
  rewrite Hr, Hv, He. repeat split; reflexivity.
Defined.

(** [get_effective_amount_usd] of a transaction an adapter returns is
    the amount of the record in the currency of the record: where
    [amount_usd] is set it is that amount, and where it is not the
    method falls back on it.  No conversion takes place. *)
Theorem effective_amount_is_raw_amount self rt data tx :
  normalize self rt data = Ok tx -> get_effective_amount_usd tx = amount tx.
Proof.
  intros H. apply normalize_amount_usd in H. destruct H as (c & _ & Husd).
  unfold get_effective_amount_usd. rewrite Husd.
  destruct (String.eqb (PyStr.upper c) "USD"); reflexivity.
Qed.

Lemma effective_amount_is_raw_amount_witness :
  exists tx,
    normalize Shopify Sample.runtime Sample.order_eur = Ok tx
    /\ currency tx = VStr "EUR"
    /\ get_effective_amount_usd tx = lit "10.00".
Proof.
  destruct (normalize Shopify Sample.runtime Sample.order_eur) as [tx|e] eqn:H;
    [|vm_compute in H; discriminate].
  exists tx. split; [reflexivity|].
  rewrite (effective_amount_is_raw_amount Shopify Sample.runtime Sample.order_eur tx H).
  vm_compute in H. injection H as <-. split; reflexivity.
Defined.

Lemma validate_normalized self rt data tx :
  normalize self rt data = Ok tx ->
  blank_str (uuid4 rt 0%nat) = false ->
  validate tx
  = if blank_val (currency tx) then missing "currency"
    else
      let! negative :=
        if negb (TransactionType_eqb (type tx) REFUND) then lt_zero (amount tx)
        else Ok false in
      if negative then
        raise ValueError ("Amount must be non-negative for type TransactionType."
                            +:+ PyStr.upper (TransactionType_value (type tx)))
      else Ok true.
Proof.
  intros H Hid.
  destruct (normalize_common self rt data tx H) as (Hidtx & Hplat & Hts & _).
  assert (Hne : PyStr.is_empty (uuid4 rt 0%nat) = false).
  { destruct (uuid4 rt 0%nat); [discriminate Hid|reflexivity]. }
  rewrite Hne in Hidtx.
  unfold validate. rewrite Hidtx, Hid, Hplat, Hts.
  destruct self; reflexivity.
Qed.

(** [validate] on what an adapter returns.  With a random id that is
    not blank, the checks of the id, the platform and the timestamp
    cannot fail.  What is left: a currency that is blank is reported
    missing; with a currency, a refund passes whatever its amount, and
    any other transaction passes when its amount is not below zero and
    is refused with a ValueError when it is. *)
Theorem validate_after_normalize self rt data tx :
  normalize self rt data = Ok tx ->
  blank_str (uuid4 rt 0%nat) = false ->
  (blank_val (currency tx) = true ->
   validate tx = raise ValueError "Required field 'currency' is missing or empty")
  /\ (blank_val (currency tx) = false ->
      (type tx = REFUND -> validate tx = Ok true)
      /\ (type tx <> REFUND -> lt_zero (amount tx) = Ok false -> validate tx = Ok true)
      /\ (type tx <> REFUND -> lt_zero (amount tx) = Ok true ->
          exists msg, validate tx = raise ValueError msg)).
Proof.
  intros H Hid. rewrite (validate_normalized self rt data tx H Hid).
  split; [intros ->; reflexivity|]. intros ->.
  split; [intros ->; reflexivity|].
  assert (Hty : type tx <> REFUND -> negb (TransactionType_eqb (type tx) REFUND) = true)
    by (destruct (type tx); intros Hne; try reflexivity; contradiction).
  split; intros Hne Hlt; rewrite (Hty Hne), Hlt; cbn [rbind]; eauto.
Qed.

Lemma validate_after_normalize_witness :
  (exists tx,
      normalize Shopify Sample.runtime Sample.refund_negative = Ok tx
      /\ validate tx = Ok true)
  /\ (exists tx msg,
        normalize Shopify Sample.runtime Sample.order_negative = Ok tx
        /\ validate tx = raise ValueError msg).
Proof.
  split.
  - destruct (normalize Shopify Sample.runtime Sample.refund_negative) as [tx|e] eqn:H;
      [|vm_compute in H; discriminate].
    exists tx. split; [reflexivity|].
    destruct (validate_after_normalize Shopify Sample.runtime _ tx H eq_refl) as (_ & Hv).
    vm_compute in H. injection H as <-.
    destruct (Hv eq_refl) as (Hrefund & _). apply Hrefund. reflexivity.
  - destruct (normalize Shopify Sample.runtime Sample.order_negative) as [tx|e] eqn:H;
      [|vm_compute in H; discriminate].
    destruct (validate_after_normalize Shopify Sample.runtime _ tx H eq_refl) as (_ & Hv).
    vm_compute in H. injection H as <-.
    destruct (Hv eq_refl) as (_ & _ & Hneg).
    destruct (Hneg ltac:(discriminate) eq_refl) as (msg & Hmsg).
    eexists _, msg. split; [reflexivity|exact Hmsg].
Defined.

(** *** The registry *)

(** [get_normalizer] finds an adapter by the name in lower case and
    without surrounding blanks: the adapter it returns is the one of
    that platform, there is one exactly for shopify, meta and google,
    and any other name is refused with a ValueError that quotes the
    name as given.  A transaction made by [normalize_transaction]
    carries that name as its platform. *)
Theorem get_normalizer_by_name platform :
  let name := PyStr.strip (PyStr.lower platform) in
  (forall n, get_normalizer platform = Ok n -> platform_of n = name)
  /\ (In name ["shopify"; "meta"; "google"] -> exists n, get_normalizer platform = Ok n)
  /\ (~ In name ["shopify"; "meta"; "google"] ->
      get_normalizer platform
      = raise ValueError
          ("Unsupported platform: " +:+ platform
             +:+ ". Supported platforms: ['shopify', 'meta', 'google']"))
  /\ (forall rt data tx,
        normalize_transaction platform rt data = Ok tx -> Models.platform tx = name).
Proof.
  intros name.
  assert (Hfound : forall n, get_normalizer platform = Ok n -> platform_of n = name).
  { intros n. unfold get_normalizer. fold name. cbn [find _NORMALIZERS fst snd].
    destruct (String.eqb_spec name "shopify") as [->|_];
      [intros H; injection H as <-; reflexivity|].
    destruct (String.eqb_spec name "meta") as [->|_];
      [intros H; injection H as <-; reflexivity|].
    destruct (String.eqb_spec name "google") as [->|_];
      [intros H; injection H as <-; reflexivity|].
    discriminate. }
  split; [exact Hfound|]. split; [|split].
  - unfold get_normalizer. fold name. cbn [find _NORMALIZERS fst snd].
    intros [<-|[<-|[<-|[]]]]; cbn; eauto.
  - unfold get_normalizer. fold name. cbn [find _NORMALIZERS fst snd In]. intros Hnot.
    destruct (String.eqb_spec name "shopify") as [Heq|_]; [exfalso; auto|].
    destruct (String.eqb_spec name "meta") as [Heq|_]; [exfalso; auto|].
    destruct (String.eqb_spec name "google") as [Heq|_]; [exfalso; auto 6|].
    reflexivity.
  - intros rt data tx. unfold normalize_transaction. intros H. step H.
    apply normalize_common in H. destruct H as (_ & -> & _).
    apply Hfound. exact Hstep.
Qed.

Lemma get_normalizer_by_name_witness :
  (exists n, get_normalizer "  Shopify " = Ok n /\ platform_of n = "shopify")
  /\ get_normalizer "stripe"
     = raise ValueError
         "Unsupported platform: stripe. Supported platforms: ['shopify', 'meta', 'google']".
Proof.
  destruct (get_normalizer_by_name "  Shopify ") as (Hname & Hsome & _).
  destruct (get_normalizer_by_name "stripe") as (_ & _ & Hnone & _).
  split.
  - destruct (Hsome ltac:(left; reflexivity)) as (n & Hn).
    exists n. split; [exact Hn|]. rewrite (Hname n Hn). reflexivity.
  - rewrite Hnone; [reflexivity|].
    vm_compute. intros [H|[H|[H|[]]]]; discriminate.
Defined.

(** *** Commerce records *)

(** The steps of a run of the commerce adapter that returns. *)
Lemma shopify_inv rt data tx :
  ShopifyNormalizer.normalize rt data = Ok tx ->
  exists sku qty cost custkey count,
    (if PyVal.truthy (PyVal.get_default data "line_items" (VList [])) then
       let! first_item := PyVal.item0 (PyVal.get_default data "line_items" (VList [])) in
       match first_item with
       | VDict item =>
           let! cost_per_unit :=
             match PyVal.lookup "cost_per_item" item with
             | Some v => let! d := of_str_of v in Ok (Some d)
             | None => Ok None
             end in
           Ok (PyVal.or_ (PyVal.get item "sku") (PyVal.get item "product_id"),
               PyVal.get item "quantity", cost_per_unit)
       | v => PyVal.no_attribute v "get"
       end
     else Ok (VNone, VNone, None)) = Ok (sku, qty, cost)
    /\ PyVal.dyn_get (PyVal.get_default data "customer" (VDict [])) "id" = Ok custkey
    /\ PyVal.len (PyVal.get_default data "line_items" (VList [])) = Ok count
    /\ sku_id tx = sku /\ quantity tx = qty /\ cost_per_unit tx = cost
    /\ customer_id tx = str_if_truthy custkey
    /\ platform_id tx = PyVal.str (PyVal.get_default data "id" (VStr EmptyString))
    /\ campaign_id tx = None
    /\ metadata tx = [ ("financial_status", ShopifyNormalizer.financial_status data);
                       ("order_number", PyVal.get data "order_number");
                       ("line_items_count", VInt count) ].
Proof.
  unfold ShopifyNormalizer.normalize. intros H.
  do 3 step H. destruct v1 as [[sku qty] cost]. do 3 step H.
  apply post_init_inv in H. destruct H as (usd & ->). cbn.
  exists sku, qty, cost, v2, v3. repeat split; assumption.
Qed.

(** The commerce adapter calls [get] on the customer and takes the
    length and the first entry of the line items without looking at
    what they are.  It returns only for a record whose customer, where
    the key is present, is a dict, and whose line items, where the key
    is present, are a list that is empty or begins with a dict (or an
    empty str or dict).  A record with a null customer, or with null
    line items, is not normalized: the call raises. *)
Theorem shopify_customer_and_line_items_shape rt data :
  (forall tx,
      ShopifyNormalizer.normalize rt data = Ok tx ->
      (exists d, PyVal.get_default data "customer" (VDict []) = VDict d)
      /\ match PyVal.get_default data "line_items" (VList []) with
         | VList [] | VList (VDict _ :: _) | VStr EmptyString | VDict [] => True
         | _ => False
         end)
  /\ (PyVal.lookup "customer" data = Some VNone ->
      exists e, ShopifyNormalizer.normalize rt data = Raise e)
  /\ (PyVal.lookup "line_items" data = Some VNone ->
      exists e, ShopifyNormalizer.normalize rt data = Raise e).
Proof.
  assert (Hshape : forall tx,
             ShopifyNormalizer.normalize rt data = Ok tx ->
             (exists d, PyVal.get_default data "customer" (VDict []) = VDict d)
             /\ match PyVal.get_default data "line_items" (VList []) with
                | VList [] | VList (VDict _ :: _) | VStr EmptyString | VDict [] => True
                | _ => False
                end).
  { intros tx H. apply shopify_inv in H.
    destruct H as (sku & qty & cost & custkey & count & Hitems & Hcust & Hlen & _).
    split.
    - destruct (PyVal.get_default data "customer" (VDict [])); try discriminate. eauto.
    - destruct (PyVal.get_default data "line_items" (VList []))
        as [|b|z|r|s|l|d]; try discriminate Hlen.
      + destruct s; [exact I|discriminate Hitems].
      + destruct l as [|x l]; [exact I|].
        destruct x; try discriminate Hitems. exact I.
      + destruct d as [|kv d]; [exact I|discriminate Hitems]. }
  split; [exact Hshape|].
  split; intros Hnull;
    (destruct (ShopifyNormalizer.normalize rt data) as [tx|e] eqn:H; [|eauto]);
    exfalso; destruct (Hshape tx eq_refl) as ((d & Hd) & Hl);
    unfold PyVal.get_default in Hd, Hl; rewrite Hnull in *;
    [discriminate Hd|exact Hl].
Qed.

Lemma shopify_customer_and_line_items_shape_witness :
  ShopifyNormalizer.normalize Sample.runtime
    [("id", VStr "ord_9"); ("total_price", VStr "10.00"); ("customer", VNone)]
  = raise AttributeError "'NoneType' object has no attribute 'get'"
  /\ ShopifyNormalizer.normalize Sample.runtime
       [("id", VStr "ord_9"); ("total_price", VStr "10.00"); ("line_items", VNone)]
     = raise TypeError "object of type 'NoneType' has no len()".
Proof.
  split.
  - destruct (shopify_customer_and_line_items_shape Sample.runtime
                [("id", VStr "ord_9"); ("total_price", VStr "10.00"); ("customer", VNone)])
      as (_ & Hc & _).
    destruct (Hc eq_refl) as (e & He). rewrite He.
    vm_compute in He. injection He as <-. reflexivity.
  - destruct (shopify_customer_and_line_items_shape Sample.runtime
                [("id", VStr "ord_9"); ("total_price", VStr "10.00"); ("line_items", VNone)])
      as (_ & _ & Hl).
    destruct (Hl eq_refl) as (e & He). rewrite He.
    vm_compute in He. injection He as <-. reflexivity.
Defined.

(** Of the line items of an order the adapter reads the first only:
    the SKU (the product id where there is none), the quantity and the
    unit cost of the transaction are those of the first item, and the
    items after it count in [line_items_count] and in nothing else. *)
Theorem shopify_first_line_item_only rt data tx item rest :
  ShopifyNormalizer.normalize rt data = Ok tx ->
  PyVal.lookup "line_items" data = Some (VList (VDict item :: rest)) ->
  sku_id tx = PyVal.or_ (PyVal.get item "sku") (PyVal.get item "product_id")
  /\ quantity tx = PyVal.get item "quantity"
  /\ match PyVal.lookup "cost_per_item" item with
     | Some v => exists d, of_str_of v = Ok d /\ cost_per_unit tx = Some d
     | None => cost_per_unit tx = None
     end
  /\ PyVal.lookup "line_items_count" (metadata tx)
     = Some (VInt (1 + Z.of_nat (length rest))).
Proof.
  intros H Hitems. apply shopify_inv in H.
  destruct H as (sku & qty & cost & custkey & count & Hfirst & _ & Hlen
                 & -> & -> & -> & _ & _ & _ & ->).
  unfold PyVal.get_default in Hfirst, Hlen. rewrite Hitems in Hfirst, Hlen.
  cbn [PyVal.truthy PyVal.item0 rbind PyVal.len] in Hfirst, Hlen.
  injection Hlen as <-.
  destruct (PyVal.lookup "cost_per_item" item) as [v|].
  - destruct (of_str_of v) as [d|e]; [|discriminate Hfirst].
    cbn [rbind] in Hfirst. injection Hfirst as <- <- <-.
    repeat split; try reflexivity; [eauto|].
    cbn [PyVal.lookup String.eqb Ascii.eqb Bool.eqb length]. f_equal. f_equal. lia.
  - cbn [rbind] in Hfirst. injection Hfirst as <- <- <-.
    repeat split; try reflexivity.
    cbn [PyVal.lookup String.eqb Ascii.eqb Bool.eqb length]. f_equal. f_equal. lia.
Qed.

Lemma shopify_first_line_item_only_witness :
  let order :=
    [("id", VStr "ord_10"); ("total_price", VStr "30.00");
     ("line_items",
      VList [VDict [("sku", VStr "SKU-001"); ("quantity", VInt 2)];
             VDict [("sku", VStr "SKU-002"); ("quantity", VInt 1)]])] in
  exists tx,
    ShopifyNormalizer.normalize Sample.runtime order = Ok tx
    /\ sku_id tx = VStr "SKU-001"
    /\ quantity tx = VInt 2
    /\ PyVal.lookup "line_items_count" (metadata tx) = Some (VInt 2).
Proof.
  intros order.
  destruct (ShopifyNormalizer.normalize Sample.runtime order) as [tx|e] eqn:H;
    [|vm_compute in H; discriminate].
  exists tx. split; [reflexivity|].
  destruct (shopify_first_line_item_only Sample.runtime order tx
              [("sku", VStr "SKU-001"); ("quantity", VInt 2)]
              [VDict [("sku", VStr "SKU-002"); ("quantity", VInt 1)]] H eq_refl)
    as (Hsku & Hqty & _ & Hcount).
  repeat split; assumption.
Defined.

(** *** Ad records *)

Lemma absent_key_get data k : PyVal.lookup k data = None -> PyVal.get data k = VNone.
Proof. intros H. unfold PyVal.get, PyVal.get_default. rewrite H. reflexivity. Qed.

Lemma lookup_none_default data k v :
  PyVal.lookup k data = None -> PyVal.get_default data k v = v.
Proof. intros H. unfold PyVal.get_default. rewrite H. reflexivity. Qed.

(** The steps of a run of each ad adapter that returns. *)
Lemma meta_inv rt data tx :
  MetaNormalizer.normalize rt data = Ok tx ->
  of_str_of (MetaNormalizer.spend_str data) = Ok (amount tx)
  /\ parse_ad_date rt
       (PyVal.or_ (PyVal.or_ (PyVal.get data "date_start") (PyVal.get data "date"))
                  (PyVal.get data "created_time")) = Ok (timestamp tx)
  /\ campaign_id tx
     = str_if_truthy (PyVal.or_ (PyVal.get data "campaign_id") (PyVal.get data "id"))
  /\ platform_id tx = PyVal.str (PyVal.get_default data "id" (VStr EmptyString)).
Proof.
  unfold MetaNormalizer.normalize. intros H. do 2 step H.
  apply post_init_inv in H. destruct H as (usd & ->). cbn.
  repeat split; assumption.
Qed.

Lemma google_inv rt data tx :
  GoogleNormalizer.normalize rt data = Ok tx ->
  exists date_str campaign,
    GoogleNormalizer.amount_of data = Ok (amount tx)
    /\ GoogleNormalizer.get_or_nested data "date" "segments" "date" = Ok date_str
    /\ parse_ad_date rt date_str = Ok (timestamp tx)
    /\ GoogleNormalizer.get_or_nested data "campaign_id" "campaign" "id" = Ok campaign
    /\ campaign_id tx = str_if_truthy campaign
    /\ platform_id tx
       = PyVal.str (PyVal.get_default data "id" (PyVal.or_ campaign (VStr EmptyString))).
Proof.
  unfold GoogleNormalizer.normalize. intros H. do 8 step H.
  apply post_init_inv in H. destruct H as (usd & ->). cbn.
  exists v0, v2. repeat split; assumption.
Qed.

(** The two ad adapters reject no record for a field it lacks: the
    record without any field normalizes.  When an adapter returns: a
    record without a spend (for Google, without a cost in micros or in
    units) has the amount [Decimal("0")]; a record without a currency
    is in USD, with [amount_usd] the amount; a record without a date
    is stamped with what [datetime.now()] returns at the call, which
    is called without a time zone and so reads the local clock of the
    host; a record without ids has no campaign id and the empty
    platform id.  The adapters
    differ on a record that has a campaign id and no id of its own:
    for Meta its platform id is empty, for Google it is the campaign
    id. *)
Theorem ad_records_missing_fields_default :
  (forall rt, exists tx, MetaNormalizer.normalize rt [] = Ok tx)
  /\ (forall rt, exists tx, GoogleNormalizer.normalize rt [] = Ok tx)
  /\ (forall rt data tx,
        MetaNormalizer.normalize rt data = Ok tx ->
        (PyVal.lookup "spend" data = None -> PyVal.lookup "amount" data = None ->
         amount tx = lit "0")
        /\ (PyVal.lookup "currency" data = None ->
            currency tx = VStr "USD" /\ amount_usd tx = Some (amount tx))
        /\ (PyVal.lookup "date_start" data = None -> PyVal.lookup "date" data = None ->
            PyVal.lookup "created_time" data = None ->
            timestamp tx = TsDatetime (datetime_now rt))
        /\ (PyVal.lookup "id" data = None ->
            platform_id tx = EmptyString
            /\ (PyVal.lookup "campaign_id" data = None -> campaign_id tx = None)
            /\ (forall c, PyVal.lookup "campaign_id" data = Some (VStr c) ->
                          c <> EmptyString -> campaign_id tx = Some c)))
  /\ (forall rt data tx,
        GoogleNormalizer.normalize rt data = Ok tx ->
        (PyVal.lookup "cost_micros" data = None -> PyVal.lookup "cost" data = None ->
         amount tx = lit "0")
        /\ (PyVal.lookup "currency_code" data = None ->
            currency tx = VStr "USD" /\ amount_usd tx = Some (amount tx))
        /\ (PyVal.lookup "date" data = None -> PyVal.lookup "segments" data = None ->
            timestamp tx = TsDatetime (datetime_now rt))
        /\ (PyVal.lookup "id" data = None ->
            (PyVal.lookup "campaign_id" data = None ->
             PyVal.lookup "campaign" data = None ->
             platform_id tx = EmptyString /\ campaign_id tx = None)
            /\ (forall c, PyVal.lookup "campaign_id" data = Some (VStr c) ->
                          c <> EmptyString ->
                          platform_id tx = c /\ campaign_id tx = Some c))).
Proof.
  split; [intros rt; eexists; reflexivity|].
  split; [intros rt; eexists; reflexivity|].
  split.
  - intros rt data tx H.
    pose proof (meta_ok rt data tx H) as (c & _ & _ & Hcur & Hcur' & Husd).
    apply meta_inv in H. destruct H as (Hamount & Hts & Hcamp & Hpid).
    split; [|split; [|split]].
    + intros Hs Ha. unfold MetaNormalizer.spend_str in Hamount.
      rewrite (absent_key_get _ _ Hs), (absent_key_get _ _ Ha) in Hamount.
      change (of_str_of (PyVal.or_ (PyVal.or_ VNone VNone) (VStr "0")))
        with (Ok (lit "0")) in Hamount.
      injection Hamount as Hamount. symmetry. exact Hamount.
    + intros Hc. rewrite (lookup_none_default _ _ _ Hc) in Hcur.
      injection Hcur as <-. split; [exact Hcur'|exact Husd].
    + intros H1 H2 H3.
      rewrite (absent_key_get _ _ H1), (absent_key_get _ _ H2),
        (absent_key_get _ _ H3) in Hts.
      cbn in Hts. injection Hts as <-. reflexivity.
    + intros Hid. rewrite (lookup_none_default _ _ _ Hid) in Hpid.
      rewrite (absent_key_get _ _ Hid) in Hcamp.
      split; [exact Hpid|]. split.
      * intros Hc. rewrite (absent_key_get _ _ Hc) in Hcamp. exact Hcamp.
      * intros name Hc Hne. unfold PyVal.get, PyVal.get_default in Hcamp.
        rewrite Hc in Hcamp. rewrite Hcamp.
        destruct name; [contradiction|reflexivity].
  - intros rt data tx H.
    pose proof (google_ok rt data tx H) as (c & _ & _ & Hcur & Hcur' & Husd).
    apply google_inv in H.
    destruct H as (date_str & campaign & Hamount & Hdate & Hts & Hcamp & Hcid & Hpid).
    split; [|split; [|split]].
    + intros Hm Hc. unfold GoogleNormalizer.amount_of, GoogleNormalizer.cost_micros,
        PyVal.contains in Hamount.
      rewrite (absent_key_get _ _ Hm), (absent_key_get _ _ Hc), Hm in Hamount.
      change (of_str_of (PyVal.or_ (PyVal.or_ VNone VNone) (VStr "0")))
        with (Ok (lit "0")) in Hamount.
      injection Hamount as Hamount. symmetry. exact Hamount.
    + intros Hc. rewrite (lookup_none_default _ _ _ Hc) in Hcur.
      injection Hcur as <-. split; [exact Hcur'|exact Husd].
    + intros Hd Hs. unfold GoogleNormalizer.get_or_nested in Hdate.
      rewrite (absent_key_get _ _ Hd), (lookup_none_default _ _ _ Hs) in Hdate.
      cbn in Hdate. injection Hdate as <-.
      cbn in Hts. injection Hts as <-. reflexivity.
    + intros Hid. rewrite (lookup_none_default _ _ _ Hid) in Hpid.
      unfold GoogleNormalizer.get_or_nested in Hcamp. split.
      * intros Hc Hn.
        rewrite (absent_key_get _ _ Hc), (lookup_none_default _ _ _ Hn) in Hcamp.
        cbn in Hcamp. injection Hcamp as <-. split; [exact Hpid|exact Hcid].
      * intros name Hc Hne. unfold PyVal.get, PyVal.get_default in Hcamp.
        rewrite Hc in Hcamp.
        destruct name; [contradiction|].
        cbn in Hcamp. injection Hcamp as <-. split; [exact Hpid|exact Hcid].
Qed.

Lemma ad_records_missing_fields_default_witness :
  (exists tx,
      MetaNormalizer.normalize Sample.runtime [("campaign_id", VStr "c7")] = Ok tx
      /\ amount tx = lit "0" /\ currency tx = VStr "USD"
      /\ timestamp tx = TsDatetime Sample.a_moment
      /\ platform_id tx = EmptyString /\ campaign_id tx = Some "c7")
  /\ (exists tx,
        GoogleNormalizer.normalize Sample.runtime [("campaign_id", VStr "c7")] = Ok tx
        /\ amount tx = lit "0" /\ currency tx = VStr "USD"
        /\ timestamp tx = TsDatetime Sample.a_moment
        /\ platform_id tx = "c7" /\ campaign_id tx = Some "c7").
Proof.
  destruct ad_records_missing_fields_default as (_ & _ & Hmeta & Hgoogle).
  split.
  - destruct (MetaNormalizer.normalize Sample.runtime [("campaign_id", VStr "c7")])
      as [tx|e] eqn:H; [|vm_compute in H; discriminate].
    exists tx. split; [reflexivity|].
    destruct (Hmeta _ _ _ H) as (Ha & Hc & Ht & Hi).
    destruct (Hc eq_refl) as (Hcur & _).
    destruct (Hi eq_refl) as (Hpid & _ & Hcamp).
    repeat split;
      [apply Ha; reflexivity|exact Hcur|apply Ht; reflexivity|exact Hpid|].
    apply Hcamp; [reflexivity|discriminate].
  - destruct (GoogleNormalizer.normalize Sample.runtime [("campaign_id", VStr "c7")])
      as [tx|e] eqn:H; [|vm_compute in H; discriminate].
    exists tx. split; [reflexivity|].
    destruct (Hgoogle _ _ _ H) as (Ha & Hc & Ht & Hi).
    destruct (Hc eq_refl) as (Hcur & _).
    destruct (Hi eq_refl) as (_ & Hcamp).
    destruct (Hcamp "c7" eq_refl ltac:(discriminate)) as (Hpid & Hcid).
    repeat split;
      [apply Ha; reflexivity|exact Hcur|apply Ht; reflexivity|exact Hpid|exact Hcid].
Defined.

End NormalizerLaws.

(** ** The token manager: cache, lock and database *)
Module TokenManagerLaws.
Import TokenManager PyTime TokenManagerFacts.

(** *** The cache *)

Lemma tokens_get_set_same d p tok : tokens_get p (tokens_set p tok d) = Some tok.
Proof.
  induction d as [|[k v] d IH]; cbn.
  - rewrite String.eqb_refl. reflexivity.
  - destruct (String.eqb p k) eqn:Hk; cbn; rewrite Hk; [reflexivity|exact IH].
Qed.

Lemma tokens_get_set_other d p tok p' :
  p' <> p -> tokens_get p' (tokens_set p tok d) = tokens_get p' d.
Proof.
  intros Hne. apply String.eqb_neq in Hne.
  induction d as [|[k v] d IH]; cbn.
  - rewrite Hne. reflexivity.
  - destruct (String.eqb_spec p k) as [->|Hk]; cbn.
    + rewrite Hne. reflexivity.
    + destruct (String.eqb p' k); [reflexivity|exact IH].
Qed.

Lemma tokens_get_del_same d p : tokens_get p (tokens_del p d) = None.
Proof.
  induction d as [|[k v] d IH]; cbn; [reflexivity|].
  destruct (String.eqb p k) eqn:Hk; [exact IH|]. cbn. rewrite Hk. exact IH.
Qed.

Lemma tokens_get_del_other d p p' :
  p' <> p -> tokens_get p' (tokens_del p d) = tokens_get p' d.
Proof.
  intros Hne. apply String.eqb_neq in Hne.
  induction d as [|[k v] d IH]; cbn; [reflexivity|].
  destruct (String.eqb_spec p k) as [->|Hk]; cbn.
  - rewrite Hne. exact IH.
  - destruct (String.eqb p' k); [reflexivity|exact IH].
Qed.

Lemma tokens_get_in d p : In p (map fst d) <-> tokens_get p d <> None.
Proof.
  induction d as [|[k v] d IH]; cbn; [split; [contradiction|congruence]|].
  destruct (String.eqb_spec p k) as [->|Hk].
  - split; [discriminate|]. intros _. left. reflexivity.
  - rewrite <- IH. split; [intros [H|H]; [congruence|exact H]|]. intros H. right. exact H.
Qed.

(** The keys of a dict after [d[k] = v]. *)
Lemma tokens_keys_set d p tok :
  map fst (tokens_set p tok d)
  = match tokens_get p d with
    | Some _ => map fst d
    | None => (map fst d ++ [p])%list
    end.
Proof.
  induction d as [|[k v] d IH]; cbn; [reflexivity|].
  destruct (String.eqb p k); cbn; [reflexivity|].
  rewrite IH. destruct (tokens_get p d); reflexivity.
Qed.

Lemma cache_get_set_same cache u p tok : cache_get (cache_set cache u p tok) u p = Some tok.
Proof.
  unfold cache_get, cache_set. rewrite lookup_insert_eq. apply tokens_get_set_same.
Qed.

Lemma cache_get_set_other cache u p tok u' p' :
  (u', p') <> (u, p) ->
  cache_get (cache_set cache u p tok) u' p' = cache_get cache u' p'.
Proof.
  intros Hne. unfold cache_get, cache_set.
  destruct (decide (u' = u)) as [->|Hu].
  - rewrite lookup_insert_eq.
    assert (Hp : p' <> p) by congruence.
    rewrite tokens_get_set_other by exact Hp.
    destruct (cache !! u); reflexivity.
  - rewrite lookup_insert_ne by congruence. reflexivity.
Qed.

Lemma cache_get_del_same cache u p : cache_get (cache_del cache u p) u p = None.
Proof.
  unfold cache_get, cache_del.
  destruct (cache !! u) as [per_user|] eqn:Hu; [|rewrite Hu; reflexivity].
  destruct (tokens_get p per_user) as [tok|] eqn:Hp; [|rewrite Hu; exact Hp].
  destruct (tokens_del p per_user) as [|entry rest] eqn:Hd.
  - rewrite lookup_delete_eq. reflexivity.
  - rewrite lookup_insert_eq, <- Hd. apply tokens_get_del_same.
Qed.

Lemma cache_get_del_other cache u p u' p' :
  (u', p') <> (u, p) ->
  cache_get (cache_del cache u p) u' p' = cache_get cache u' p'.
Proof.
  intros Hne. unfold cache_get, cache_del.
  destruct (cache !! u) as [per_user|] eqn:Hu; [|reflexivity].
  destruct (tokens_get p per_user) as [tok|] eqn:Hp; [|reflexivity].
  destruct (decide (u' = u)) as [->|Hne'].
  - assert (Hpp : p' <> p) by congruence. rewrite Hu.
    rewrite <- (tokens_get_del_other per_user p p' Hpp).
    destruct (tokens_del p per_user) as [|entry rest].
    + rewrite lookup_delete_eq. reflexivity.
    + rewrite lookup_insert_eq. reflexivity.
  - destruct (tokens_del p per_user) as [|entry rest].
    + rewrite lookup_delete_ne by congruence. reflexivity.
    + rewrite lookup_insert_ne by congruence. reflexivity.
Qed.

Lemma cached_platforms_spec cache u p :
  In p (cached_platforms cache u) <-> cache_get cache u p <> None.
Proof.
  unfold cached_platforms, cache_get.
  destruct (cache !! u) as [per_user|]; [|split; [contradiction|congruence]].
  apply tokens_get_in.
Qed.

(** The platforms of a user after a credential is cached: as before
    when the platform was there, with the platform at the end when it
    was not. *)
Lemma cached_platforms_set cache u p tok :
  cached_platforms (cache_set cache u p tok) u
  = match cache_get cache u p with
    | Some _ => cached_platforms cache u
    | None => (cached_platforms cache u ++ [p])%list
    end.
Proof.
  unfold cached_platforms, cache_get, cache_set. rewrite lookup_insert_eq.
  destruct (cache !! u) as [per_user|]; cbn [default]; [apply tokens_keys_set|reflexivity].
Qed.

(** *** Expiry *)

(** [is_expired] compares the clock with the expiry less the buffer,
    both as instants, whatever the buffer: the credential reports
    expired from that instant on, the instant included, and a
    credential that reports expired does so at every later reading of
    the clock.  When the expiry less the buffer falls before the year
    1 or after the year 9999 the call raises OverflowError. *)
Theorem is_expired_threshold t tok e buffer :
  expires_at tok = Some e ->
  Z.abs (buffer / 86400) <= 999999999 ->
  (in_range (wall e - buffer * us_per_second) = true ->
   is_expired (utc t) tok buffer = Ok (instant e - buffer * us_per_second <=? t)
   /\ forall t', t <= t' ->
                 is_expired (utc t) tok buffer = Ok true ->
                 is_expired (utc t') tok buffer = Ok true)
  /\ (in_range (wall e - buffer * us_per_second) = false ->
      is_expired (utc t) tok buffer = raise OverflowError "date value out of range").
Proof.
  intros He Hbuf.
  assert (Hdelta : timedelta_seconds buffer = Ok (buffer * us_per_second)).
  { unfold timedelta_seconds. destruct (Z.ltb_spec 999999999 (Z.abs (buffer / 86400)));
      [lia|reflexivity]. }
  assert (Hthreshold : forall t0,
             in_range (wall e - buffer * us_per_second) = true ->
             is_expired (utc t0) tok buffer
             = Ok (instant e - buffer * us_per_second <=? t0)).
  { intros t0 Hrange. unfold is_expired. rewrite He, Hdelta. cbn [rbind].
    unfold sub_us, add_us, instant.
    destruct (utcoffset e) as [o|] eqn:Ho; cbn [wall utcoffset replace_tz_utc];
      rewrite ?Ho;
      replace (wall e + - (buffer * us_per_second))
        with (wall e - buffer * us_per_second) by lia;
      rewrite Hrange; cbn [rbind ge utc wall utcoffset]; do 2 f_equal; lia. }
  split.
  - intros Hrange. split; [apply Hthreshold, Hrange|].
    intros t' Hle. rewrite !Hthreshold by exact Hrange.
    intros H. injection H as H. apply Z.leb_le in H. f_equal. apply Z.leb_le. lia.
  - intros Hrange. unfold is_expired. rewrite He, Hdelta. cbn [rbind].
    unfold sub_us, add_us.
    destruct (utcoffset e) as [o|] eqn:Ho; cbn [wall utcoffset replace_tz_utc];
      replace (wall e + - (buffer * us_per_second))
        with (wall e - buffer * us_per_second) by lia;
      rewrite Hrange; reflexivity.
Qed.

Lemma is_expired_threshold_witness :
  is_expired (utc Sample.utc_reading) (Sample.token_expiring_in 300) 300 = Ok true
  /\ is_expired (utc Sample.utc_reading) (Sample.token_expiring_in 301) 300 = Ok false
  /\ is_expired (utc Sample.utc_reading)
       (mkTokenData (VStr "t") VNone (Some (mkDatetime 0 None)) VNone VNone VNone) 300
     = raise OverflowError "date value out of range".
Proof.
  split; [|split].
  - destruct (is_expired_threshold Sample.utc_reading (Sample.token_expiring_in 300)
                (mkDatetime (Sample.utc_reading + 300 * us_per_second) (Some 0)) 300
                eq_refl ltac:(vm_compute; discriminate)) as (H & _).
    destruct (H eq_refl) as (-> & _). reflexivity.
  - destruct (is_expired_threshold Sample.utc_reading (Sample.token_expiring_in 301)
                (mkDatetime (Sample.utc_reading + 301 * us_per_second) (Some 0)) 300
                eq_refl ltac:(vm_compute; discriminate)) as (H & _).
    destruct (H eq_refl) as (-> & _). reflexivity.
  - destruct (is_expired_threshold Sample.utc_reading
                (mkTokenData (VStr "t") VNone (Some (mkDatetime 0 None)) VNone VNone VNone)
                (mkDatetime 0 None) 300
                eq_refl ltac:(vm_compute; discriminate)) as (_ & H).
    apply H. reflexivity.
Defined.

(** *** Calls that cannot fail *)

Section Manager.
Context {Ext : Type} (O : Outside Ext) (Q : TokenQueries Ext).

Abbreviation M := (Task (State Ext)).

(** A state with the lock and the cache of another. *)
Abbreviation kept := (fun s s' : State Ext => _lock s' = _lock s /\ _cache s' = _cache s).

Lemma call_kept {A} (f : Ext -> result A * Ext) s :
  kept s (snd (call f s)).
Proof. unfold call. destruct (f (ext s)) as [[a|e] x]; split; reflexivity. Qed.

(** [_get_db] catches what the database raises: it returns. *)
Lemma get_db_returns s :
  exists db s', _get_db O s = (Returns db, s') /\ kept s s'.
Proof.
  unfold _get_db, Task.bind, Task.gets, Task.try_except, call, set_db, Task.modify,
    Task.ret.
  destruct (_db s); [eauto|].
  destruct (get_database O (ext s)) as [[[]|e] x]; cbn; [|eauto].
  destruct (db_is_connected O x); cbn; [eauto|].
  destruct (db_connect O x) as [[[]|e] x']; cbn; eauto.
Qed.

(** So does [_get_user_uuid]. *)
Lemma get_user_uuid_returns user_id s :
  exists r s', _get_user_uuid O user_id s = (Returns r, s') /\ kept s s'.
Proof.
  unfold _get_user_uuid.
  destruct (get_db_returns s) as (db & s1 & H1 & Hl & Hc).
  rewrite (bind_step _ _ _ _ _ H1).
  destruct db; cbn [negb]; [|exists None, s1; split; [reflexivity|split; assumption]].
  unfold Task.try_except, call, Task.ret.
  destruct (db_fetchval_user O user_id (ext s1)) as [[r|e] x]; cbn;
    eexists _, _; (split; [reflexivity|split; assumption]).
Qed.

(** No database object is handed out by [_get_db] when none is held
    and either [get_database] raises or it returns an object that is
    not connected and whose [connect] raises. *)
Abbreviation no_database :=
  (fun x : Ext =>
     (exists e x', get_database O x = (Raise e, x'))
     \/ (exists x1 e x2,
           get_database O x = (Ok tt, x1)
           /\ db_is_connected O x1 = false
           /\ db_connect O x1 = (Raise e, x2))).

(** Then [_get_db] returns [None]; the object, if one was made, stays
    in [self._db]. *)
Lemma get_db_unreachable s :
  _db s = false ->
  no_database (ext s) ->
  exists s',
    _get_db O s = (Returns false, s')
    /\ kept s s'
    /\ ((exists x1, get_database O (ext s) = (Ok tt, x1)) -> _db s' = true).
Proof.
  intros Hdb Hdown.
  unfold _get_db, Task.bind, Task.gets, Task.try_except, call, set_db, Task.modify,
    Task.ret.
  rewrite Hdb.
  destruct Hdown as [(e & x' & Hx)|(x1 & e & x2 & Hx & Hoff & Hconnect)]; rewrite Hx; cbn.
  - eexists. split; [reflexivity|]. cbn. split; [split; reflexivity|].
    intros (x1 & H1). discriminate.
  - rewrite Hoff. cbn. rewrite Hconnect. cbn.
    eexists. split; [reflexivity|]. cbn. split; [split; reflexivity|].
    intros _. reflexivity.
Qed.

(** With the object held, [_get_db] hands it out without a look at
    the connection. *)
Lemma get_db_held s : _db s = true -> _get_db O s = (Returns true, s).
Proof.
  intros Hdb. unfold _get_db, Task.bind, Task.gets, Task.ret. rewrite Hdb. reflexivity.
Qed.

(** A user lookup that raises is a user not found. *)
Lemma get_user_uuid_lost user_id s :
  _db s = true ->
  (exists e x', db_fetchval_user O user_id (ext s) = (Raise e, x')) ->
  exists s',
    _get_user_uuid O user_id s = (Returns None, s') /\ kept s s' /\ _db s' = true.
Proof.
  intros Hdb (e & x' & Hx). unfold _get_user_uuid.
  rewrite (bind_step _ _ _ _ _ (get_db_held s Hdb)). cbn [negb].
  unfold Task.try_except, call, Task.ret. rewrite Hx.
  eexists. split; [reflexivity|]. cbn. repeat split. exact Hdb.
Qed.

(** What [store_token] does under the lock. *)
Lemma store_body_returns user_id platform tok s :
  exists s',
    (let* db := _get_db O in
     if negb db then Task.ret tt
     else
       Task.try_except
         (let* user_uuid := _get_user_uuid O user_id in
          match user_uuid with
          | None => Task.ret tt
          | Some user_uuid =>
              let* u := Task.lift (uuid_UUID O user_uuid) in
              call (db_execute_upsert_token O u platform tok)
          end)
         (fun e => Task.ret tt)) s
    = (Returns tt, s')
    /\ kept s s'.
Proof.
  destruct (get_db_returns s) as (db & s1 & H1 & Hl1 & Hc1).
  rewrite (bind_step _ _ _ _ _ H1).
  destruct db; cbn [negb]; [|exists s1; split; [reflexivity|split; assumption]].
  unfold Task.try_except.
  destruct (get_user_uuid_returns user_id s1) as (r & s2 & H2 & Hl2 & Hc2).
  rewrite (bind_step _ _ _ _ _ H2).
  assert (Hk : kept s s2) by (split; congruence).
  destruct r as [uid|]; [|exists s2; split; [reflexivity|exact Hk]].
  unfold Task.bind, Task.lift.
  destruct (uuid_UUID O uid) as [u|e]; [|exists s2; split; [reflexivity|exact Hk]].
  pose proof (call_kept (db_execute_upsert_token O u platform tok) s2) as (Hl3 & Hc3).
  destruct (call (db_execute_upsert_token O u platform tok) s2) as [[[]|e|] s3] eqn:H3;
    cbn [snd] in Hl3, Hc3.
  - exists s3. split; [reflexivity|split; congruence].
  - exists s3. split; [reflexivity|split; congruence].
  - exfalso. revert H3. unfold call.
    destruct (db_execute_upsert_token O u platform tok (ext s2)) as [[a|e] x];
      discriminate.
Qed.

Lemma unlocked_eta (s : State Ext) :
  _lock s = false -> mkState (_db s) false (_cache s) (ext s) = s.
Proof. destruct s as [db lock cache x]. cbn. intros ->. reflexivity. Qed.

(** [store_token] raises nothing: whatever the database does, the
    call returns with the lock free again and the credential in the
    cache, where it replaces the one of the same user and platform
    and leaves the others alone.  A [get_token] that follows is
    answered from the cache, without a word to the database, as long
    as the credential does not report expired. *)
Theorem store_token_then_get_token user_id platform tok auto_refresh s :
  _lock s = false ->
  exists s1,
    store_token O user_id platform tok s = (Returns tt, s1)
    /\ _lock s1 = false
    /\ cache_get (_cache s1) user_id platform = Some tok
    /\ (forall u p, (u, p) <> (user_id, platform) ->
                    cache_get (_cache s1) u p = cache_get (_cache s) u p)
    /\ (is_expired (utc (now_utc O (ext s1))) tok 300 = Ok false ->
        get_token O user_id platform auto_refresh s1 = (Returns (Some tok), s1)).
Proof.
  intros Hlock. unfold store_token, with_lock. rewrite Hlock.
  unfold Task.bind at 1, set_cache at 1, Task.modify at 1.
  match goal with
  | |- context [Task.bind (_get_db O) ?k ?st] =>
      destruct (store_body_returns user_id platform tok st) as (s2 & H2 & Hl2 & Hc2)
  end.
  rewrite H2. cbn [_lock _cache] in Hl2, Hc2.
  eexists. split; [reflexivity|]. cbn [_lock _cache ext].
  split; [reflexivity|]. rewrite Hc2.
  split; [apply cache_get_set_same|].
  split; [intros u p Hne; apply cache_get_set_other; exact Hne|].
  intros Hfresh. unfold get_token, with_lock. cbn [_lock _db _cache ext].
  unfold Task.bind at 1, Task.gets at 1. cbn [_cache].
  rewrite cache_get_set_same.
  unfold expired_now, now, Task.bind, Task.gets, Task.lift. cbn [ext].
  rewrite Hfresh. reflexivity.
Qed.

(** *** The lock *)

Abbreviation same_lock := (fun s s' : State Ext => _lock s' = _lock s).

Lemma same_lock_trans (a b c : State Ext) : same_lock a b -> same_lock b c -> same_lock a c.
Proof. intros H1 H2. cbn in *. congruence. Qed.

Lemma steady_manager_call {A} (f : Ext -> result A * Ext) : Task.steady same_lock (call f).
Proof.
  intros s. unfold call. destruct (f (ext s)) as [[a|e] x]; split;
    try discriminate; reflexivity.
Qed.

(** A refresh completes and leaves the lock as it found it. *)
Lemma steady_refresh_token platform tok :
  Task.steady same_lock (_refresh_token O platform tok).
Proof.
  pose proof (fun s : State Ext => eq_refl (_lock s)) as Hrefl.
  unfold _refresh_token.
  destruct (String.eqb platform "shopify"); [apply TaskFacts.steady_ret, Hrefl|].
  apply (TaskFacts.steady_bind _ same_lock_trans); [apply TaskFacts.steady_gets, Hrefl|].
  intros client_id.
  apply (TaskFacts.steady_bind _ same_lock_trans); [apply TaskFacts.steady_gets, Hrefl|].
  intros client_secret.
  destruct (PyStr.is_empty client_id || PyStr.is_empty client_secret);
    [apply TaskFacts.steady_ret, Hrefl|].
  destruct (String.eqb platform "meta" || String.eqb platform "google");
    [|apply TaskFacts.steady_ret, Hrefl].
  apply (TaskFacts.steady_bind _ same_lock_trans); [apply steady_manager_call|].
  intros [status_code json].
  destruct (negb (status_code =? 200)); [apply TaskFacts.steady_ret, Hrefl|].
  repeat (apply (TaskFacts.steady_bind _ same_lock_trans);
          [first [apply TaskFacts.steady_lift, Hrefl
                 |apply TaskFacts.steady_gets, Hrefl]
          |intros ?]).
  apply TaskFacts.steady_ret, Hrefl.
Qed.

(** A coroutine that asks for the lock while the lock is held waits
    for ever. *)
Lemma store_token_waits user_id platform tok s :
  _lock s = true -> store_token O user_id platform tok s = (Hangs, s).
Proof. intros H. unfold store_token, with_lock. rewrite H. reflexivity. Qed.

(** Take a manager as in C7: the lock free, nothing fresh in the
    cache, the database reachable, the user known, the stored
    credential expired and with a refresh token.  If the refresh
    succeeds, [get_token] never returns: holding the lock, it calls
    [store_token], which waits for the lock. *)
Theorem get_token_waits_for_its_own_lock user_id platform uid u row s :
  _lock s = false ->
  (forall cached,
      cache_get (_cache s) user_id platform = Some cached ->
      forall x, is_expired (utc (now_utc O x)) cached 300 = Ok true) ->
  (forall x, exists x', get_database O x = (Ok tt, x')) ->
  (forall x, db_is_connected O x = true) ->
  (forall x, exists x', db_fetchval_user O user_id x = (Ok (Some uid), x')) ->
  uuid_UUID O uid = Ok u ->
  (forall x, exists x', db_fetchrow_token O u platform x = (Ok (Some row), x')) ->
  (forall x, is_expired (utc (now_utc O x)) (token_of_row row) 300 = Ok true) ->
  PyVal.truthy (refresh_token_encrypted row) = true ->
  (forall s0, exists refreshed s1,
      _refresh_token O platform (token_of_row row) s0 = (Returns (Some refreshed), s1)) ->
  exists s', get_token O user_id platform true s = (Hangs, s').
Proof.
  intros Hlock Hcache Hdatabase Hconnected Huser Huuid Hrow Hexpired Hrefreshable Hgrants.
  unfold get_token, with_lock. rewrite Hlock.
  set (s1 := mkState (_db s) true (_cache s) (ext s)).
  unfold Task.bind at 1. unfold Task.gets at 1.
  change (_cache s1) with (_cache s).
  assert (Hhit : (match cache_get (_cache s) user_id platform with
                  | Some token_data =>
                      let* expired := expired_now O token_data in
                      Task.ret (if expired then None else Some token_data)
                  | None => Task.ret None
                  end) s1 = (Returns None, s1)).
  { destruct (cache_get (_cache s) user_id platform) as [cached|] eqn:Hc; [|reflexivity].
    rewrite (bind_step _ _ _ _ _ (expired_now_ok O cached (Hcache cached eq_refl) s1)).
    reflexivity. }
  rewrite (bind_step _ _ _ _ _ Hhit).
  destruct (get_db_ok O Hdatabase Hconnected s1) as (s2 & H2).
  assert (Hl2 : _lock s2 = true).
  { destruct (get_db_returns s1) as (db & s2' & H2' & Hl & _).
    rewrite H2 in H2'. injection H2' as _ <-. exact Hl. }
  rewrite (bind_step _ _ _ _ _ H2). cbn [negb].
  unfold Task.try_except at 1.
  destruct (get_user_uuid_ok O user_id uid Hdatabase Hconnected Huser s2) as (s3 & H3).
  assert (Hl3 : _lock s3 = true).
  { destruct (get_user_uuid_returns user_id s2) as (r & s3' & H3' & Hl & _).
    rewrite H3 in H3'. injection H3' as _ <-. congruence. }
  rewrite (bind_step _ _ _ _ _ H3).
  unfold Task.bind at 1, Task.lift at 1. rewrite Huuid.
  unfold Task.bind at 1, call at 1.
  destruct (Hrow (ext s3)) as (x4 & H4). rewrite H4.
  unfold Task.bind at 1, set_cache at 1, Task.modify at 1.
  match goal with
  | |- context [Task.bind (expired_now O (token_of_row row)) ?k ?st] =>
      rewrite (bind_step _ k st _ _ (expired_now_ok O (token_of_row row) Hexpired st))
  end.
  change (refresh_token (token_of_row row)) with (refresh_token_encrypted row).
  rewrite Hrefreshable. cbn [andb].
  match goal with
  | |- context [Task.bind (Task.try_except ?body ?h) ?k ?st] =>
      destruct (Hgrants st) as (refreshed & s5 & H5);
      pose proof (proj2 (steady_refresh_token platform (token_of_row row) st)) as Hl5;
      rewrite H5 in Hl5; cbn [snd _lock] in Hl5; rewrite Hl3 in Hl5;
      assert (Hwait : Task.bind (Task.try_except body h) k st = (Hangs, s5))
  end.
  { unfold Task.bind, Task.try_except. rewrite H5.
    rewrite (store_token_waits user_id platform refreshed s5 Hl5). reflexivity. }
  rewrite Hwait. eauto.
Qed.

(** *** The database out of reach *)

(** [get_token] when the database is out of reach.  On a call where
    [_get_db] hands out no database object (none is held, and
    [get_database] or [connect] raises), the answer comes from the
    cache: the credential the cache holds, whether or not it reports
    expired, with no refresh attempted, and [None] when the cache
    holds none.  The fallback is taken on that call only: when it
    was [connect] that raised, the object stays in [self._db], and
    from then on a call takes the database path.  There a user
    lookup that raises counts as a user not found: with no
    credential in the cache, or one that reports expired, the call
    returns [None], and the expired credential is not handed out.
    Either way the lock is free after the call and the cache as it
    was. *)
Theorem get_token_database_down user_id platform auto_refresh s :
  _lock s = false ->
  (forall cached,
      cache_get (_cache s) user_id platform = Some cached ->
      exists b, is_expired (utc (now_utc O (ext s))) cached 300 = Ok b) ->
  (_db s = false ->
   no_database (ext s) ->
   exists s',
     get_token O user_id platform auto_refresh s
     = (Returns (cache_get (_cache s) user_id platform), s')
     /\ _lock s' = false
     /\ _cache s' = _cache s
     /\ ((forall cached,
             cache_get (_cache s) user_id platform = Some cached ->
             is_expired (utc (now_utc O (ext s))) cached 300 = Ok true) ->
         (exists x1, get_database O (ext s) = (Ok tt, x1)) ->
         _db s' = true))
  /\ (_db s = true ->
      (exists e x', db_fetchval_user O user_id (ext s) = (Raise e, x')) ->
      (forall cached,
          cache_get (_cache s) user_id platform = Some cached ->
          is_expired (utc (now_utc O (ext s))) cached 300 = Ok true) ->
      exists s',
        get_token O user_id platform auto_refresh s = (Returns None, s')
        /\ _lock s' = false
        /\ _cache s' = _cache s
        /\ _db s' = true).
Proof.
  intros Hlock Hcheck.
  set (s1 := mkState (_db s) true (_cache s) (ext s)).
  split.
  - intros Hdb Hdown.
    unfold get_token, with_lock. rewrite Hlock. fold s1.
    unfold Task.bind at 1. unfold Task.gets at 1.
    change (_cache s1) with (_cache s).
    destruct (get_db_unreachable s1 Hdb Hdown) as (s2 & H2 & (Hl2 & Hc2) & Hheld).
    change (_cache s1) with (_cache s) in Hc2.
    assert (Hmiss : forall k,
               (let* db := _get_db O in
                if negb db
                then Task.gets (fun s => cache_get (_cache s) user_id platform)
                else k) s1
               = (Returns (cache_get (_cache s) user_id platform), s2)).
    { intros k. rewrite (bind_step _ _ _ _ _ H2). cbn [negb]. unfold Task.gets.
      rewrite Hc2. reflexivity. }
    destruct (cache_get (_cache s) user_id platform) as [cached|] eqn:Hc.
    + destruct (Hcheck cached eq_refl) as (b & Hb).
      assert (Hhit : (let* expired := expired_now O cached in
                      Task.ret (if expired then None else Some cached)) s1
                     = (Returns (if b then None else Some cached), s1)).
      { unfold expired_now, now, Task.bind, Task.gets, Task.lift.
        change (ext s1) with (ext s). rewrite Hb. reflexivity. }
      rewrite (bind_step _ _ _ _ _ Hhit).
      destruct b.
      * rewrite Hmiss. eexists. split; [reflexivity|]. split; [reflexivity|].
        split; [exact Hc2|]. intros _ Hmade. apply Hheld. exact Hmade.
      * unfold Task.ret. eexists. split; [reflexivity|]. split; [reflexivity|].
        split; [reflexivity|]. intros Hstale _.
        rewrite (Hstale cached eq_refl) in Hb. discriminate.
    + unfold Task.bind at 1. unfold Task.ret at 1. rewrite Hmiss.
      eexists. split; [reflexivity|]. split; [reflexivity|].
      split; [exact Hc2|]. intros _ Hmade. apply Hheld. exact Hmade.
  - intros Hdb Hlost Hstale.
    unfold get_token, with_lock. rewrite Hlock. fold s1.
    unfold Task.bind at 1. unfold Task.gets at 1.
    change (_cache s1) with (_cache s).
    assert (Hhit : (match cache_get (_cache s) user_id platform with
                    | Some token_data =>
                        let* expired := expired_now O token_data in
                        Task.ret (if expired then None else Some token_data)
                    | None => Task.ret None
                    end) s1 = (Returns None, s1)).
    { destruct (cache_get (_cache s) user_id platform) as [cached|] eqn:Hc;
        [|reflexivity].
      unfold expired_now, now, Task.bind, Task.gets, Task.lift.
      change (ext s1) with (ext s). rewrite (Hstale cached eq_refl). reflexivity. }
    rewrite (bind_step _ _ _ _ _ Hhit).
    rewrite (bind_step _ _ _ _ _ (get_db_held s1 Hdb)). cbn [negb].
    unfold Task.try_except at 1.
    destruct (get_user_uuid_lost user_id s1 Hdb Hlost) as (s3 & H3 & (Hl3 & Hc3) & Hdb3).
    rewrite (bind_step _ _ _ _ _ H3). unfold Task.ret.
    eexists. split; [reflexivity|]. cbn [_lock _cache _db].
    split; [reflexivity|]. split; [exact Hc3|exact Hdb3].
Qed.

(** What [delete_token] does under the lock, once the credential is
    out of the cache. *)
Lemma delete_body_returns user_id platform s :
  exists b s',
    (let* db := _get_db O in
     if negb db then Task.ret true
     else
       Task.try_except
         (let* user_uuid := _get_user_uuid O user_id in
          match user_uuid with
          | None => Task.ret false
          | Some user_uuid =>
              let* u := Task.lift (uuid_UUID O user_uuid) in
              let* _ := call (db_execute_delete_token Q u platform) in
              Task.ret true
          end)
         (fun e => Task.ret false)) s = (Returns b, s')
    /\ kept s s'
    /\ (_db s = false -> no_database (ext s) ->
        b = true /\ ((exists x1, get_database O (ext s) = (Ok tt, x1)) -> _db s' = true))
    /\ (_db s = true ->
        (exists e x', db_fetchval_user O user_id (ext s) = (Raise e, x')) ->
        b = false).
Proof.
  destruct (get_db_returns s) as (db & s2 & H2 & Hk2).
  rewrite (bind_step _ _ _ _ _ H2).
  destruct db; cbn [negb].
  - assert (Hup : _db s = false -> no_database (ext s) -> False).
    { intros Hdb Hdown. destruct (get_db_unreachable s Hdb Hdown) as (s2' & H2' & _).
      rewrite H2 in H2'. discriminate. }
    unfold Task.try_except.
    destruct (get_user_uuid_returns user_id s2) as (r & s3 & H3 & Hl3 & Hc3).
    rewrite (bind_step _ _ _ _ _ H3).
    assert (Hk3 : kept s s3) by (destruct Hk2; split; congruence).
    assert (Hnone : _db s = true ->
                    (exists e x', db_fetchval_user O user_id (ext s) = (Raise e, x')) ->
                    r = None).
    { intros Hdb Hlost. rewrite (get_db_held s Hdb) in H2. injection H2 as <-.
      destruct (get_user_uuid_lost user_id s Hdb Hlost) as (s3' & H3' & _).
      rewrite H3 in H3'. injection H3' as -> _. reflexivity. }
    destruct r as [uid|].
    + assert (Hfound : _db s = true ->
                       (exists e x', db_fetchval_user O user_id (ext s) = (Raise e, x')) ->
                       False)
        by (intros Hdb Hlost; discriminate (Hnone Hdb Hlost)).
      unfold Task.bind, Task.lift.
      destruct (uuid_UUID O uid) as [u|e].
      * unfold call.
        destruct (db_execute_delete_token Q u platform (ext s3)) as [[[]|e] x]; cbn;
          eexists _, _; (split; [reflexivity|]); (split; [exact Hk3|]);
          (split; [intros Hdb Hdown; destruct (Hup Hdb Hdown)
                  |intros Hdb Hlost; destruct (Hfound Hdb Hlost)]).
      * exists false, s3. split; [reflexivity|]. split; [exact Hk3|].
        split; [intros Hdb Hdown; destruct (Hup Hdb Hdown)|reflexivity].
    + exists false, s3. split; [reflexivity|]. split; [exact Hk3|].
      split; [intros Hdb Hdown; destruct (Hup Hdb Hdown)|reflexivity].
  - exists true, s2. split; [reflexivity|]. split; [exact Hk2|]. split.
    + intros Hdb Hdown. split; [reflexivity|].
      destruct (get_db_unreachable s Hdb Hdown) as (s2' & H2' & _ & Hheld).
      rewrite H2 in H2'. injection H2' as <-. exact Hheld.
    + intros Hdb _. rewrite (get_db_held s Hdb) in H2. discriminate.
Qed.

(** [delete_token] raises nothing.  Whether the calls to the
    database return or raise, the call returns with the lock free
    and without the credential in the cache, the other credentials
    being left alone.  On a call where [_get_db] hands out no
    database object it answers [True], though nothing was deleted
    from the table; when it was [connect] that raised, the object
    stays in [self._db], and a later call whose user lookup raises
    answers [False]. *)
Theorem delete_token_forgets user_id platform s :
  _lock s = false ->
  exists b s',
    delete_token O Q user_id platform s = (Returns b, s')
    /\ _lock s' = false
    /\ cache_get (_cache s') user_id platform = None
    /\ (forall u p, (u, p) <> (user_id, platform) ->
                    cache_get (_cache s') u p = cache_get (_cache s) u p)
    /\ (_db s = false ->
        no_database (ext s) ->
        b = true
        /\ ((exists x1, get_database O (ext s) = (Ok tt, x1)) -> _db s' = true))
    /\ (_db s = true ->
        (exists e x', db_fetchval_user O user_id (ext s) = (Raise e, x')) ->
        b = false).
Proof.
  intros Hlock. unfold delete_token, with_lock. rewrite Hlock.
  unfold Task.bind at 1, set_cache at 1, Task.modify at 1.
  cbn [_db _lock _cache ext].
  match goal with
  | |- context [Task.bind (_get_db O) ?k ?st] =>
      destruct (delete_body_returns user_id platform st)
        as (b & s2 & H2 & (Hl2 & Hc2) & Hdown & Hlost)
  end.
  rewrite H2. exists b. eexists. split; [reflexivity|].
  cbn [_lock _cache _db ext] in *. split; [reflexivity|].
  rewrite Hc2.
  split; [apply cache_get_del_same|].
  split; [intros u p Hne; apply cache_get_del_other; exact Hne|].
  split; assumption.
Qed.

(** [list_platforms] raises nothing: whether the calls to the
    database return or raise, the call returns with the lock free
    and the cache untouched.  On a call where [_get_db] hands out no
    database object, the answer is the platforms of the credentials
    the cache holds for the user, in the order in which they were
    first cached: caching a credential leaves the list as it is when
    the platform is there and puts the platform at the end when it
    is not.  When it was [connect] that raised, the object stays in
    [self._db], and a later call whose user lookup raises answers
    the empty list, whatever the cache holds. *)
Theorem list_platforms_falls_back_on_cache user_id s :
  _lock s = false ->
  (exists platforms s',
      list_platforms O Q user_id s = (Returns platforms, s')
      /\ _lock s' = false
      /\ _cache s' = _cache s
      /\ (_db s = false ->
          no_database (ext s) ->
          platforms = cached_platforms (_cache s) user_id
          /\ (forall p, In p platforms <-> cache_get (_cache s) user_id p <> None)
          /\ ((exists x1, get_database O (ext s) = (Ok tt, x1)) -> _db s' = true))
      /\ (_db s = true ->
          (exists e x', db_fetchval_user O user_id (ext s) = (Raise e, x')) ->
          platforms = []))
  /\ (forall platform tok,
        cached_platforms (cache_set (_cache s) user_id platform tok) user_id
        = match cache_get (_cache s) user_id platform with
          | Some _ => cached_platforms (_cache s) user_id
          | None => (cached_platforms (_cache s) user_id ++ [platform])%list
          end).
Proof.
  intros Hlock. split; [|intros platform tok; apply cached_platforms_set].
  unfold list_platforms, with_lock. rewrite Hlock.
  set (s1 := mkState (_db s) true (_cache s) (ext s)).
  destruct (get_db_returns s1) as (db & s2 & H2 & Hl2 & Hc2).
  change (_cache s1) with (_cache s) in Hc2.
  rewrite (bind_step _ _ _ _ _ H2).
  destruct db; cbn [negb].
  - assert (Hup : _db s = false -> no_database (ext s) -> False).
    { intros Hdb Hdown. destruct (get_db_unreachable s1 Hdb Hdown) as (s2' & H2' & _).
      rewrite H2 in H2'. discriminate. }
    unfold Task.try_except.
    destruct (get_user_uuid_returns user_id s2) as (r & s3 & H3 & Hl3 & Hc3).
    rewrite (bind_step _ _ _ _ _ H3).
    assert (Hnone : _db s = true ->
                    (exists e x', db_fetchval_user O user_id (ext s) = (Raise e, x')) ->
                    r = None).
    { intros Hdb Hlost. rewrite (get_db_held s1 Hdb) in H2. injection H2 as <-.
      destruct (get_user_uuid_lost user_id s1 Hdb Hlost) as (s3' & H3' & _).
      rewrite H3 in H3'. injection H3' as -> _. reflexivity. }
    destruct r as [uid|].
    + assert (Hfound : _db s = true ->
                       (exists e x', db_fetchval_user O user_id (ext s) = (Raise e, x')) ->
                       False)
        by (intros Hdb Hlost; discriminate (Hnone Hdb Hlost)).
      unfold Task.bind, Task.lift.
      destruct (uuid_UUID O uid) as [u|e].
      * pose proof (call_kept (db_fetch_platforms Q u) s3) as (Hl4 & Hc4).
        unfold call in *.
        destruct (db_fetch_platforms Q u (ext s3)) as [[l|e] x];
          cbn [snd] in Hl4, Hc4; cbn;
          eexists _, _; (split; [reflexivity|]); cbn;
          (split; [reflexivity|]); (split; [congruence|]);
          (split; [intros Hdb Hdown; destruct (Hup Hdb Hdown)
                  |intros Hdb Hlost; destruct (Hfound Hdb Hlost)]).
      * cbn. eexists _, _. split; [reflexivity|]. cbn.
        split; [reflexivity|]. split; [congruence|].
        split; [intros Hdb Hdown; destruct (Hup Hdb Hdown)
               |intros Hdb Hlost; destruct (Hfound Hdb Hlost)].
    + cbn. eexists _, _. split; [reflexivity|]. cbn.
      split; [reflexivity|]. split; [congruence|].
      split; [intros Hdb Hdown; destruct (Hup Hdb Hdown)|reflexivity].
  - unfold Task.gets. eexists _, _. split; [reflexivity|]. cbn.
    split; [reflexivity|]. split; [exact Hc2|]. split.
    + intros Hdb Hdown. rewrite Hc2.
      split; [reflexivity|]. split; [intros p; apply cached_platforms_spec|].
      destruct (get_db_unreachable s1 Hdb Hdown) as (s2' & H2' & _ & Hheld).
      rewrite H2 in H2'. injection H2' as <-. exact Hheld.
    + intros Hdb _. rewrite (get_db_held s1 Hdb) in H2. discriminate.
Qed.

(** *** Refreshing and reading through *)

(** What a refresh yields.  Nothing, and without a request, for
    shopify, for a platform other than meta and google, and for a
    platform whose client id or secret is not set.  Nothing for an
    answer other than 200.  For an answer 200 with a JSON object, a
    credential with the access token of the answer (empty when it
    has none), the refresh token of the answer or else the one used,
    the user id, scopes and metadata of the old credential, and an
    expiry [expires_in] seconds after the reading of the clock, an
    hour when the answer does not say. *)
Theorem refresh_token_outcome platform tok s :
  let client_id := environ_get O (PyStr.upper platform +:+ "_CLIENT_ID") (ext s) in
  let client_secret := environ_get O (PyStr.upper platform +:+ "_CLIENT_SECRET") (ext s) in
  (platform = "shopify"
   \/ (platform <> "meta" /\ platform <> "google")
   \/ client_id = EmptyString \/ client_secret = EmptyString ->
   _refresh_token O platform tok s = (Returns None, s))
  /\ (forall status_code json x',
        platform = "meta" \/ platform = "google" ->
        client_id <> EmptyString -> client_secret <> EmptyString ->
        http_refresh O platform client_id client_secret (refresh_token tok) (ext s)
        = (Ok (status_code, json), x') ->
        (status_code <> 200 ->
         _refresh_token O platform tok s
         = (Returns None, mkState (_db s) (_lock s) (_cache s) x'))
        /\ (forall d,
              status_code = 200 -> json = Ok (VDict d) ->
              PyVal.lookup "expires_in" d = None ->
              in_range (now_utc O x' + 3600 * us_per_second) = true ->
              _refresh_token O platform tok s
              = (Returns
                   (Some (mkTokenData
                            (PyVal.get_default d "access_token" (VStr EmptyString))
                            (PyVal.get_default d "refresh_token" (refresh_token tok))
                            (Some (mkDatetime (now_utc O x' + 3600 * us_per_second)
                                     (Some 0)))
                            (platform_user_id tok) (scopes tok) (metadata tok))),
                 mkState (_db s) (_lock s) (_cache s) x'))).
Proof.
  intros client_id client_secret.
  assert (Hnonempty : forall str, str <> EmptyString -> PyStr.is_empty str = false)
    by (intros [|c str] H; [contradiction|reflexivity]).
  split.
  - intros Hcase. unfold _refresh_token.
    destruct (String.eqb_spec platform "shopify") as [_|Hs]; [reflexivity|].
    unfold Task.bind, Task.gets. fold client_id client_secret.
    destruct Hcase as [->|[(Hm & Hg)|[->| ->]]];
      [contradiction| |reflexivity|rewrite orb_true_r; reflexivity].
    destruct (PyStr.is_empty client_id || PyStr.is_empty client_secret); [reflexivity|].
    apply String.eqb_neq in Hm, Hg. rewrite Hm, Hg. reflexivity.
  - intros status_code json x' Hplatform Hid Hsecret Hhttp.
    assert (Hshop : String.eqb platform "shopify" = false)
      by (destruct Hplatform as [-> | ->]; reflexivity).
    assert (Hads : String.eqb platform "meta" || String.eqb platform "google" = true)
      by (destruct Hplatform as [-> | ->]; reflexivity).
    split; [intros Hstatus|intros d -> -> Hexpires Hrange];
      unfold _refresh_token; rewrite Hshop;
      unfold Task.bind at 1, Task.gets at 1; unfold Task.bind at 1, Task.gets at 1;
      fold client_id client_secret;
      rewrite (Hnonempty _ Hid), (Hnonempty _ Hsecret), Hads; cbn [orb];
      unfold Task.bind at 1, call at 1; rewrite Hhttp.
    + apply Z.eqb_neq in Hstatus. rewrite Hstatus. reflexivity.
    + cbn [Z.eqb Pos.eqb negb].
      unfold Task.bind, Task.lift, now, Task.gets, Task.ret.
      cbn [PyVal.dyn_get_default ext].
      assert (Hdefault : PyVal.get_default d "expires_in" (VInt 3600) = VInt 3600)
        by (unfold PyVal.get_default; rewrite Hexpires; reflexivity).
      rewrite Hdefault.
      cbn [timedelta_of_value]. unfold timedelta_seconds.
      change (999999999 <? Z.abs (3600 / 86400)) with false. cbv iota.
      unfold add_us, utc. cbn [wall utcoffset]. rewrite Hrange. reflexivity.
Qed.

(** [get_token] reads through the cache.  With the lock free,
    nothing in the cache for the user and platform, the database
    reachable, the user known and a stored credential that does not
    report expired, the call returns the stored credential and
    leaves it in the cache; the same call made again is answered
    from the cache, leaving everything as it is. *)
Theorem get_token_reads_through user_id platform auto_refresh uid u row s :
  _lock s = false ->
  cache_get (_cache s) user_id platform = None ->
  (forall x, exists x', get_database O x = (Ok tt, x')) ->
  (forall x, db_is_connected O x = true) ->
  (forall x, exists x', db_fetchval_user O user_id x = (Ok (Some uid), x')) ->
  uuid_UUID O uid = Ok u ->
  (forall x, exists x', db_fetchrow_token O u platform x = (Ok (Some row), x')) ->
  (forall x, is_expired (utc (now_utc O x)) (token_of_row row) 300 = Ok false) ->
  exists s',
    get_token O user_id platform auto_refresh s = (Returns (Some (token_of_row row)), s')
    /\ _lock s' = false
    /\ cache_get (_cache s') user_id platform = Some (token_of_row row)
    /\ get_token O user_id platform auto_refresh s'
       = (Returns (Some (token_of_row row)), s').
Proof.
  intros Hlock Hcache Hdatabase Hconnected Huser Huuid Hrow Hfresh.
  assert (Hnow : forall st, expired_now O (token_of_row row) st = (Returns false, st)).
  { intros st. unfold expired_now, now, Task.bind, Task.gets, Task.lift.
    rewrite Hfresh. reflexivity. }
  assert (Hsecond : forall s',
             _lock s' = false ->
             cache_get (_cache s') user_id platform = Some (token_of_row row) ->
             get_token O user_id platform auto_refresh s'
             = (Returns (Some (token_of_row row)), s')).
  { intros s' Hl Hc. unfold get_token, with_lock. rewrite Hl.
    unfold Task.bind at 1, Task.gets at 1. cbn [_cache]. rewrite Hc.
    assert (Hhit : forall st,
               (let* expired := expired_now O (token_of_row row) in
                Task.ret (if expired then None else Some (token_of_row row))) st
               = (Returns (Some (token_of_row row)), st))
      by (intros st; rewrite (bind_step _ _ _ _ _ (Hnow st)); reflexivity).
    rewrite (bind_step _ _ _ _ _ (Hhit _)). cbn.
    rewrite (unlocked_eta s' Hl). reflexivity. }
  unfold get_token at 1, with_lock. rewrite Hlock.
  set (s1 := mkState (_db s) true (_cache s) (ext s)).
  unfold Task.bind at 1. unfold Task.gets at 1.
  change (_cache s1) with (_cache s). rewrite Hcache.
  unfold Task.bind at 1, Task.ret at 1.
  destruct (get_db_ok O Hdatabase Hconnected s1) as (s2 & H2).
  destruct (get_db_returns s1) as (db & s2' & H2' & _ & Hc2).
  rewrite H2 in H2'. injection H2' as _ <-.
  rewrite (bind_step _ _ _ _ _ H2). cbn [negb].
  unfold Task.try_except at 1.
  destruct (get_user_uuid_ok O user_id uid Hdatabase Hconnected Huser s2) as (s3 & H3).
  destruct (get_user_uuid_returns user_id s2) as (r & s3' & H3' & _ & Hc3).
  rewrite H3 in H3'. injection H3' as _ <-.
  rewrite (bind_step _ _ _ _ _ H3).
  unfold Task.bind at 1, Task.lift at 1. rewrite Huuid.
  unfold Task.bind at 1, call at 1.
  destruct (Hrow (ext s3)) as (x4 & H4). rewrite H4.
  unfold Task.bind at 1, set_cache at 1, Task.modify at 1.
  assert (Hexp : forall st,
             (if auto_refresh then expired_now O (token_of_row row) else Task.ret false) st
             = (Returns false, st))
    by (intros st; destruct auto_refresh; [apply Hnow|reflexivity]).
  rewrite (bind_step _ _ _ _ _ (Hexp _)).
  rewrite andb_false_r. cbn [andb].
  unfold Task.ret at 1.
  eexists. split; [reflexivity|]. cbn [_lock _cache].
  split; [reflexivity|]. split; [apply cache_get_set_same|].
  apply Hsecond; [reflexivity|]. cbn [_cache]. apply cache_get_set_same.
Qed.

End Manager.

Lemma store_token_then_get_token_witness :
  exists s1,
    store_token Sample.token_world_offline "u1" "google" (Sample.token_expiring_in 3600)
      Sample.new_manager = (Returns tt, s1)
    /\ get_token Sample.token_world_offline "u1" "google" true s1
       = (Returns (Some (Sample.token_expiring_in 3600)), s1).
Proof.
  destruct (store_token_then_get_token Sample.token_world_offline "u1" "google"
              (Sample.token_expiring_in 3600) true Sample.new_manager eq_refl)
    as (s1 & Hstore & _ & _ & _ & Hget).
  exists s1. split; [exact Hstore|]. apply Hget. reflexivity.
Defined.

Lemma get_token_waits_for_its_own_lock_witness :
  exists s', get_token Sample.granting_world "u1" "google" true Sample.new_manager = (Hangs, s').
Proof.
  apply (get_token_waits_for_its_own_lock Sample.granting_world
           "u1" "google" Sample.a_user_uuid Sample.a_user_uuid Sample.stale_row).
  - reflexivity.
  - intros cached Hc. discriminate.
  - intros []. exists tt. reflexivity.
  - reflexivity.
  - intros []. exists tt. reflexivity.
  - reflexivity.
  - intros []. exists tt. reflexivity.
  - intros []. reflexivity.
  - reflexivity.
  - intros [db lock cache []].
    destruct (_refresh_token Sample.granting_world "google" (token_of_row Sample.stale_row)
                (mkState db lock cache tt)) as [[[refreshed|]|e|] s1] eqn:H;
      [eauto|vm_compute in H; discriminate..].
Defined.

Lemma get_token_database_down_witness :
  exists s',
    get_token Sample.token_world_outage "u1" "google" true Sample.manager_with_stale_cache
    = (Returns (Some (Sample.token_expiring_in (-60))), s')
    /\ is_expired (utc Sample.utc_reading) (Sample.token_expiring_in (-60)) 300 = Ok true
    /\ exists s'',
         get_token Sample.token_world_outage "u1" "google" true s' = (Returns None, s'').
Proof.
  assert (Hstale : forall (x : unit) cached,
             cache_get (_cache Sample.manager_with_stale_cache) "u1" "google" = Some cached ->
             is_expired (utc (now_utc Sample.token_world_outage x)) cached 300 = Ok true).
  { intros x cached Hc. vm_compute in Hc. injection Hc as <-. reflexivity. }
  destruct (get_token_database_down Sample.token_world_outage "u1" "google" true
              Sample.manager_with_stale_cache) as (Hfirst & _).
  - reflexivity.
  - intros cached Hc. exists true. apply (Hstale tt), Hc.
  - destruct Hfirst as (s' & Hget & Hlock & Hcache & Hheld).
    + reflexivity.
    + right. exists tt. eexists _, _. repeat split; reflexivity.
    + exists s'. split; [rewrite Hget; f_equal|]. split; [reflexivity|].
      destruct (get_token_database_down Sample.token_world_outage "u1" "google" true s')
        as (_ & Hsecond).
      * exact Hlock.
      * intros cached Hc. rewrite Hcache in Hc. exists true. apply Hstale, Hc.
      * destruct Hsecond as (s'' & Hnone & _).
        -- apply Hheld; [apply (Hstale tt)|exists tt; reflexivity].
        -- eexists _, _. reflexivity.
        -- intros cached Hc. rewrite Hcache in Hc. apply Hstale, Hc.
        -- exists s''. exact Hnone.
Defined.

Lemma delete_token_forgets_witness :
  exists s',
    delete_token Sample.token_world_outage Sample.token_queries_outage "u1" "google"
      Sample.manager_with_stale_cache = (Returns true, s')
    /\ cache_get (_cache s') "u1" "google" = None
    /\ exists s'',
         delete_token Sample.token_world_outage Sample.token_queries_outage "u1" "google" s'
         = (Returns false, s'').
Proof.
  destruct (delete_token_forgets Sample.token_world_outage Sample.token_queries_outage
              "u1" "google" Sample.manager_with_stale_cache eq_refl)
    as (b & s' & Hdel & Hlock & Hgone & _ & Hdown & _).
  destruct (Hdown eq_refl) as (-> & Hheld);
    [right; exists tt; eexists _, _; repeat split; reflexivity|].
  exists s'. split; [exact Hdel|]. split; [exact Hgone|].
  destruct (delete_token_forgets Sample.token_world_outage Sample.token_queries_outage
              "u1" "google" s' Hlock)
    as (b' & s'' & Hdel' & _ & _ & _ & _ & Hlost).
  exists s''. rewrite Hdel'. f_equal. f_equal. apply Hlost.
  - apply Hheld. exists tt. reflexivity.
  - eexists _, _. reflexivity.
Defined.

Lemma list_platforms_falls_back_on_cache_witness :
  exists s',
    list_platforms Sample.token_world_outage Sample.token_queries_outage "u1"
      Sample.manager_with_two_cached = (Returns ["shopify"; "google"], s')
    /\ exists s'',
         list_platforms Sample.token_world_outage Sample.token_queries_outage "u1" s'
         = (Returns [], s'').
Proof.
  destruct (list_platforms_falls_back_on_cache Sample.token_world_outage
              Sample.token_queries_outage "u1" Sample.manager_with_two_cached eq_refl)
    as ((platforms & s' & Hlist & Hlock & _ & Hdown & _) & _).
  destruct (Hdown eq_refl) as (-> & _ & Hheld);
    [right; exists tt; eexists _, _; repeat split; reflexivity|].
  exists s'. split; [exact Hlist|].
  destruct (list_platforms_falls_back_on_cache Sample.token_world_outage
              Sample.token_queries_outage "u1" s' Hlock)
    as ((platforms' & s'' & Hlist' & _ & _ & _ & Hlost) & _).
  exists s''. rewrite Hlist'. f_equal. f_equal. apply Hlost.
  - apply Hheld. exists tt. reflexivity.
  - eexists _, _. reflexivity.
Defined.

Lemma refresh_token_outcome_witness :
  _refresh_token Sample.terse_world "google" (token_of_row Sample.stale_row)
    Sample.new_manager
  = (Returns
       (Some (mkTokenData (VStr "ya29.c2Ch") (VStr "1//0gRefresh")
                (Some (mkDatetime (Sample.utc_reading + 3600 * us_per_second) (Some 0)))
                (VStr "1234567890")
                (VList [VStr "https://www.googleapis.com/auth/adwords"]) VNone)),
     Sample.new_manager)
  /\ _refresh_token Sample.terse_world "shopify" (token_of_row Sample.stale_row)
       Sample.new_manager
     = (Returns None, Sample.new_manager).
Proof.
  destruct (refresh_token_outcome Sample.terse_world "google"
              (token_of_row Sample.stale_row) Sample.new_manager) as (_ & Hgoogle).
  destruct (refresh_token_outcome Sample.terse_world "shopify"
              (token_of_row Sample.stale_row) Sample.new_manager) as (Hshopify & _).
  split.
  - destruct (Hgoogle 200 (Ok (VDict [("access_token", VStr "ya29.c2Ch")])) tt)
      as (_ & Hok).
    + right. reflexivity.
    + vm_compute. discriminate.
    + vm_compute. discriminate.
    + reflexivity.
    + rewrite (Hok [("access_token", VStr "ya29.c2Ch")] eq_refl eq_refl eq_refl eq_refl).
      reflexivity.
  - apply Hshopify. left. reflexivity.
Defined.

Lemma get_token_reads_through_witness :
  exists s',
    get_token Sample.fresh_token_world "u1" "google" true Sample.new_manager
    = (Returns (Some (token_of_row Sample.fresh_row)), s')
    /\ get_token Sample.fresh_token_world "u1" "google" true s'
       = (Returns (Some (token_of_row Sample.fresh_row)), s').
Proof.
  destruct (get_token_reads_through Sample.fresh_token_world "u1" "google" true
              Sample.a_user_uuid Sample.a_user_uuid Sample.fresh_row Sample.new_manager)
    as (s' & Hfirst & _ & _ & Hsecond).
  - reflexivity.
  - reflexivity.
  - intros []. exists tt. reflexivity.
  - reflexivity.
  - intros []. exists tt. reflexivity.
  - reflexivity.
  - intros []. exists tt. reflexivity.
  - intros []. reflexivity.
  - exists s'. split; assumption.
Defined.

End TokenManagerLaws.

(** ** The sync loops *)
Module DataSyncLaws.
Import DataSync.

Section Service.
Context {Ext : Type} (O : Outside Ext).

Lemma run_bind {S A B} (m : Task S A) (k : A -> Task S B) s a s1 :
  m s = (Returns a, s1) -> Task.bind m k s = k a s1.
Proof. intros H. unfold Task.bind. rewrite H. reflexivity. Qed.

Lemma run_bind_raises {S A B} (m : Task S A) (k : A -> Task S B) s e s1 :
  m s = (Raises e, s1) -> Task.bind m k s = (Raises e, s1).
Proof. intros H. unfold Task.bind. rewrite H. reflexivity. Qed.

(** An order that is a dict leaves the loop body with one more
    error and nothing else changed: either it does not normalize, or
    it does and the insert raises. *)
Lemma sync_order_dict user_uuid normalizer d s r :
  exists s' text,
    sync_order O user_uuid normalizer (VDict d) (s, r)
    = (Returns tt,
       (s', append_error r
              ("Order " +:+ PyVal.str (PyVal.get_default d "id" (VStr "unknown"))
                 +:+ ": " +:+ text)))
    /\ transactions s' = transactions s.
Proof.
  destruct (Normalizer.normalize normalizer (runtime O (ext s)) d) as [tx|e] eqn:Hn.
  - destruct (DataSyncFacts.insert_transaction_fails O user_uuid tx s) as ((e & He) & Ht).
    destruct (_insert_transaction O user_uuid tx s) as [o s'] eqn:Hins.
    cbn [fst snd] in He, Ht. subst o. exists s', (exc_str e). split; [|exact Ht].
    unfold sync_order, Task.try_except, Task.bind, Task.gets, Task.lift, up,
      Normalizer.normalize_value.
    cbn [fst snd]. rewrite Hn.
    change (fst (s, r)) with s. change (snd (s, r)) with r.
    rewrite Hins. reflexivity.
  - exists s, (exc_str e). split; [|reflexivity].
    unfold sync_order, Task.try_except, Task.bind, Task.gets, Task.lift, up,
      Normalizer.normalize_value.
    cbn [fst snd]. rewrite Hn. reflexivity.
Qed.

(** An order that is no dict makes the handler of the loop body
    raise in its turn, on [order_data.get]. *)
Lemma sync_order_not_dict user_uuid normalizer v s r :
  (forall d, v <> VDict d) ->
  sync_order O user_uuid normalizer v (s, r)
  = (Raises (mkExc AttributeError
               ("'" +:+ PyVal.type_name v +:+ "' object has no attribute 'get'")),
     (s, r)).
Proof.
  intros Hv.
  unfold sync_order, Task.try_except, Task.bind, Task.gets, Task.lift, up,
    Normalizer.normalize_value, item_error.
  destruct v; try reflexivity. destruct (Hv d eq_refl).
Qed.

(** The loop over the orders of a fetch.  Every order that is a dict
    ends as one error of the report, in the order of the fetch, and
    none is counted as synced: the counts and the table of
    transactions are as before the loop.  The first order that is no
    dict ends the loop with an AttributeError, which the enclosing
    [try] reports as a failed fetch; the orders after it are not
    looked at. *)
Theorem order_loop_reports_each_order user_uuid normalizer ds s r :
  exists s' msgs,
    Forall2
      (fun d msg =>
         exists text,
           msg = "Order " +:+ PyVal.str (PyVal.get_default d "id" (VStr "unknown"))
                   +:+ ": " +:+ text)
      ds msgs
    /\ transactions s' = transactions s
    /\ for_ (map VDict ds) (sync_order O user_uuid normalizer) (s, r)
       = (Returns tt,
          (s', mkResult (platform r) (transactions_synced r) (products_synced r)
                 (campaigns_synced r) (errors r ++ msgs)))
    /\ forall v rest,
         (forall d, v <> VDict d) ->
         for_ (map VDict ds ++ v :: rest) (sync_order O user_uuid normalizer) (s, r)
         = (Raises (mkExc AttributeError
                      ("'" +:+ PyVal.type_name v +:+ "' object has no attribute 'get'")),
            (s', mkResult (platform r) (transactions_synced r) (products_synced r)
                   (campaigns_synced r) (errors r ++ msgs))).
Proof.
  revert s r. induction ds as [|d ds IH]; intros s r.
  - exists s, []. split; [constructor|]. split; [reflexivity|].
    rewrite app_nil_r. destruct r as [p t pr c errs]. cbn [map app].
    split; [reflexivity|].
    intros v rest Hv. unfold for_. cbn [Task.for_each].
    rewrite (run_bind_raises _ _ _ _ _ (sync_order_not_dict user_uuid normalizer v s _ Hv)).
    reflexivity.
  - destruct (sync_order_dict user_uuid normalizer d s r) as (s1 & text & Hd & Ht1).
    destruct (IH s1 (append_error r
                       ("Order " +:+ PyVal.str (PyVal.get_default d "id" (VStr "unknown"))
                          +:+ ": " +:+ text)))
      as (s2 & msgs & Hall & Ht2 & Hloop & Hstop).
    exists s2, (("Order " +:+ PyVal.str (PyVal.get_default d "id" (VStr "unknown"))
                   +:+ ": " +:+ text) :: msgs).
    split; [constructor; [eauto|exact Hall]|].
    split; [congruence|].
    cbn [append_error platform transactions_synced products_synced campaigns_synced errors]
      in Hloop, Hstop.
    rewrite <- app_assoc in Hloop, Hstop. cbn [app] in Hloop, Hstop.
    split.
    + unfold for_ in *. cbn [map Task.for_each].
      rewrite (run_bind _ _ _ _ _ Hd). exact Hloop.
    + intros v rest Hv. unfold for_ in *. cbn [map app Task.for_each].
      rewrite (run_bind _ _ _ _ _ Hd). apply Hstop. exact Hv.
Qed.

(** A campaign that is a dict and is stored leaves the loop body
    counted and with one more error: its spend either does not
    normalize, or does and the insert raises. *)
Lemma sync_campaign_dict name user_uuid normalizer d s r :
  (forall v x, exists x', upsert_campaign O user_uuid name v x = (Ok tt, x')) ->
  exists s' text,
    sync_campaign O name user_uuid normalizer (VDict d) (s, r)
    = (Returns tt,
       (s', append_error (count_campaign r)
              ("Campaign " +:+ PyVal.str (PyVal.get_default d "id" (VStr "unknown"))
                 +:+ ": " +:+ text)))
    /\ transactions s' = transactions s.
Proof.
  intros Hstored. destruct (Hstored (VDict d) (ext s)) as (x1 & Hx1).
  set (s1 := mkState (_db s) (_mcp_router s) (transactions s) x1).
  destruct (Normalizer.normalize normalizer (runtime O x1) d) as [tx|e] eqn:Hn.
  - destruct (DataSyncFacts.insert_transaction_fails O user_uuid tx s1) as ((e & He) & Ht).
    destruct (_insert_transaction O user_uuid tx s1) as [o s'] eqn:Hins.
    cbn [fst snd] in He, Ht. subst o. exists s', (exc_str e). split; [|exact Ht].
    unfold sync_campaign, Task.try_except, Task.bind, Task.gets, Task.lift, up, call,
      update_result, Task.modify, Normalizer.normalize_value.
    cbn [fst snd]. rewrite Hx1. cbn [fst snd ext]. rewrite Hn.
    fold s1.
    change (fst (s1, count_campaign r)) with s1.
    change (snd (s1, count_campaign r)) with (count_campaign r).
    rewrite Hins. reflexivity.
  - exists s1, (exc_str e). split; [|reflexivity].
    unfold sync_campaign, Task.try_except, Task.bind, Task.gets, Task.lift, up, call,
      update_result, Task.modify, Normalizer.normalize_value.
    cbn [fst snd]. rewrite Hx1. cbn [fst snd ext]. rewrite Hn. reflexivity.
Qed.

(** The loop over the campaigns of an ad account, when every
    campaign is stored.  Each campaign is counted under
    [campaigns_synced] and is, all the same, reported as an error,
    in the order of the fetch: its spend is not recorded, the count
    of transactions and the table being as before the loop. *)
Theorem campaign_loop_counts_and_reports name user_uuid normalizer ds s r :
  (forall v x, exists x', upsert_campaign O user_uuid name v x = (Ok tt, x')) ->
  exists s' msgs,
    Forall2
      (fun d msg =>
         exists text,
           msg = "Campaign " +:+ PyVal.str (PyVal.get_default d "id" (VStr "unknown"))
                   +:+ ": " +:+ text)
      ds msgs
    /\ transactions s' = transactions s
    /\ for_ (map VDict ds) (sync_campaign O name user_uuid normalizer) (s, r)
       = (Returns tt,
          (s', mkResult (platform r) (transactions_synced r) (products_synced r)
                 (campaigns_synced r + Z.of_nat (length ds)) (errors r ++ msgs))).
Proof.
  intros Hstored. revert s r. induction ds as [|d ds IH]; intros s r.
  - exists s, []. split; [constructor|]. split; [reflexivity|].
    rewrite app_nil_r, Z.add_0_r. destruct r as [p t pr c errs]. reflexivity.
  - destruct (sync_campaign_dict name user_uuid normalizer d s r Hstored)
      as (s1 & text & Hd & Ht1).
    destruct (IH s1 (append_error (count_campaign r)
                       ("Campaign "
                          +:+ PyVal.str (PyVal.get_default d "id" (VStr "unknown"))
                          +:+ ": " +:+ text)))
      as (s2 & msgs & Hall & Ht2 & Hloop).
    exists s2, (("Campaign " +:+ PyVal.str (PyVal.get_default d "id" (VStr "unknown"))
                   +:+ ": " +:+ text) :: msgs).
    split; [constructor; [eauto|exact Hall]|].
    split; [congruence|].
    cbn [append_error count_campaign platform transactions_synced products_synced
         campaigns_synced errors] in Hloop.
    rewrite <- app_assoc in Hloop. cbn [app] in Hloop.
    unfold for_ in *. cbn [map Task.for_each].
    rewrite (run_bind _ _ _ _ _ Hd), Hloop. do 3 f_equal.
    cbn [length]. lia.
Qed.

End Service.

(** *** All platforms *)

Section AllPlatforms.
Context {Ext : Type} (O : Outside Ext).
Variable list_platforms : string -> Ext -> result (list string) * Ext.

Abbreviation supported := ["shopify"; "meta"; "google"].

(** For a platform it does not know, [sync_platform] goes to no
    collaborator: the report is one error that names the platform in
    lower case. *)
Lemma sync_platform_unsupported user_id platform date_from date_to s r s1 :
  ~ In (PyStr.lower platform) supported ->
  sync_platform O user_id platform date_from date_to s = (Returns r, s1) ->
  r = append_error (new_result (PyStr.lower platform))
        ("Unsupported platform: " +:+ PyStr.lower platform).
Proof.
  intros Hnot. unfold sync_platform. intros H.
  apply DataSyncFacts.bind_returns in H. destruct H as (to & s2 & _ & H).
  apply DataSyncFacts.bind_returns in H. destruct H as (from & s3 & _ & H).
  revert H. unfold Task.try_except.
  destruct (String.eqb_spec (PyStr.lower platform) "shopify") as [Heq|_];
    [exfalso; apply Hnot; rewrite Heq; cbn; auto|].
  destruct (String.eqb_spec (PyStr.lower platform) "meta") as [Heq|_];
    [exfalso; apply Hnot; rewrite Heq; cbn; auto|].
  destruct (String.eqb_spec (PyStr.lower platform) "google") as [Heq|_];
    [exfalso; apply Hnot; rewrite Heq; cbn; auto|].
  cbn. intros H. injection H as <- _. reflexivity.
Qed.

Lemma all_platforms_loop user_id date_from date_to connected :
  forall acc s report s',
    Task.for_each connected
      (fun platform results =>
         let* platform_result := sync_platform O user_id platform date_from date_to in
         Task.ret (add_platform results platform platform_result))
      acc s = (Returns report, s') ->
    all_user_id report = all_user_id acc
    /\ platforms_synced report = (platforms_synced acc ++ connected)%list
    /\ total_transactions report = total_transactions acc
    /\ transactions s' = transactions s
    /\ exists more,
         all_errors report = (all_errors acc ++ more)%list
         /\ forall p, In p connected -> ~ In (PyStr.lower p) supported ->
                      In ("Unsupported platform: " +:+ PyStr.lower p) more.
Proof.
  induction connected as [|p rest IH]; intros acc s report s' H; cbn [Task.for_each] in H.
  - injection H as <- <-. rewrite !app_nil_r. repeat split.
    exists []. rewrite app_nil_r. split; [reflexivity|]. intros p [].
  - apply DataSyncFacts.bind_returns in H. destruct H as (acc1 & s1 & Hbody & Hrest).
    apply DataSyncFacts.bind_returns in Hbody.
    destruct Hbody as (pr & s1' & Hsync & Hret).
    injection Hret as <- <-.
    pose proof (DataSyncFacts.quiet_sync_platform O user_id p date_from date_to s) as Hq.
    rewrite Hsync in Hq. destruct Hq as (Htable & Hcount).
    apply IH in Hrest.
    destruct Hrest as (Huser & Hplat & Htotal & Htable' & more & Herrors & Hin).
    cbn [add_platform all_user_id platforms_synced total_transactions all_errors]
      in Huser, Hplat, Htotal, Herrors.
    split; [exact Huser|].
    split; [rewrite Hplat, <- app_assoc; reflexivity|].
    split; [lia|]. split; [congruence|].
    exists (errors pr ++ more)%list.
    split; [rewrite Herrors, <- app_assoc; reflexivity|].
    intros q [<-|Hq] Hnot.
    + apply in_or_app. left.
      rewrite (sync_platform_unsupported _ _ _ _ _ _ _ Hnot Hsync). left. reflexivity.
    + apply in_or_app. right. apply Hin; assumption.
Qed.

(** A report of [sync_all_platforms] names under [platforms_synced]
    every platform the token manager listed, in its order, whether
    the sync of the platform got anywhere or not: a platform the
    service does not know is named too, and leaves the error
    "Unsupported platform".  The report counts no transaction, and
    the table of transactions is as it was: every insert raises. *)
Theorem sync_all_platforms_report user_id date_from date_to s report s' :
  sync_all_platforms O list_platforms user_id date_from date_to s = (Returns report, s') ->
  exists connected x,
    list_platforms user_id (ext s) = (Ok connected, x)
    /\ all_user_id report = user_id
    /\ platforms_synced report = connected
    /\ total_transactions report = 0
    /\ transactions s' = transactions s
    /\ forall p, In p connected -> ~ In (PyStr.lower p) supported ->
                 In ("Unsupported platform: " +:+ PyStr.lower p) (all_errors report).
Proof.
  unfold sync_all_platforms. intros H.
  apply DataSyncFacts.bind_returns in H. destruct H as (connected & s1 & Hcall & Hloop).
  unfold call in Hcall.
  destruct (list_platforms user_id (ext s)) as [[l|e] x] eqn:Hl; [|discriminate].
  injection Hcall as -> <-.
  apply all_platforms_loop in Hloop.
  destruct Hloop as (Huser & Hplat & Htotal & Htable & more & Herrors & Hin).
  exists connected, x. cbn in Huser, Hplat, Htotal, Htable, Herrors.
  repeat split; try assumption.
  intros p Hp Hnot. rewrite Herrors. apply Hin; assumption.
Qed.

Lemma all_platforms_loop_returns user_id date_from date_to connected :
  (date_from = None ->
   forall x, 31 <= match date_to with Some d => d | None => today O x end
             <= PyTime.MAX_ORDINAL) ->
  forall acc s,
    exists report s',
      Task.for_each connected
        (fun platform results =>
           let* platform_result := sync_platform O user_id platform date_from date_to in
           Task.ret (add_platform results platform platform_result))
        acc s = (Returns report, s').
Proof.
  intros Hwindow. induction connected as [|p rest IH]; intros acc s; cbn [Task.for_each].
  - eexists _, _. reflexivity.
  - destruct (DataSyncFacts.sync_platform_returns O user_id p date_from date_to s)
      as (pr & s1 & Hsync); [intros Hnone; apply Hwindow, Hnone|].
    destruct (IH (add_platform acc p pr) s1) as (report & s' & Hrest).
    exists report, s'.
    rewrite (run_bind _ _ _ _ _
               (run_bind _ (fun r => Task.ret (add_platform acc p r)) _ _ _ Hsync)).
    exact Hrest.
Qed.

(** [sync_all_platforms] has no [try] of its own.  It returns a
    report when the token manager answers and the window can be
    computed, that is, when [date_from] is given or [date_to], today
    when left out, is 0001-01-31 or later, and also when no platform
    is connected.  With [date_from] left out and [date_to] within the
    first thirty days of the calendar, the OverflowError of the first
    platform leaves the call, and with it go the reports of all the
    platforms. *)
Theorem sync_all_platforms_completes user_id date_from date_to s connected x :
  list_platforms user_id (ext s) = (Ok connected, x) ->
  ((date_from = None ->
    forall x, 31 <= match date_to with Some d => d | None => today O x end
              <= PyTime.MAX_ORDINAL) ->
   exists report s',
     sync_all_platforms O list_platforms user_id date_from date_to s = (Returns report, s'))
  /\ (connected = [] ->
      sync_all_platforms O list_platforms user_id date_from date_to s
      = (Returns (mkAllResult user_id [] 0 0 0 []),
         mkState (_db s) (_mcp_router s) (transactions s) x))
  /\ (forall d, date_from = None -> date_to = Some d -> 1 <= d <= 30 ->
                connected <> [] ->
                sync_all_platforms O list_platforms user_id date_from date_to s
                = (Raises (mkExc OverflowError "date value out of range"),
                   mkState (_db s) (_mcp_router s) (transactions s) x)).
Proof.
  intros Hl.
  assert (Hcall : call (list_platforms user_id) s
                  = (Returns connected, mkState (_db s) (_mcp_router s) (transactions s) x))
    by (unfold call; rewrite Hl; reflexivity).
  unfold sync_all_platforms. rewrite (run_bind _ _ _ _ _ Hcall).
  split; [|split].
  - intros Hwindow. apply all_platforms_loop_returns. exact Hwindow.
  - intros ->. reflexivity.
  - intros d -> -> Hd Hne. destruct connected as [|p rest]; [contradiction|].
    cbn [Task.for_each].
    apply run_bind_raises. apply run_bind_raises.
    apply DataSyncFacts.default_window_overflows. exact Hd.
Qed.

End AllPlatforms.

Lemma order_loop_reports_each_order_witness :
  exists s',
    for_ [VDict Sample.order_plain; VDict Sample.order_malformed]
      (sync_order (Sample.sync_world (Ok (VList []))) Sample.a_user_uuid Normalizer.Shopify)
      (Sample.new_service, new_result "shopify")
    = (Returns tt,
       (s', mkResult "shopify" 0 0 0
              [ "Order ord_2: 'NormalizedTransaction' object has no attribute 'occurred_at'";
                "Order ord_5: [<class 'decimal.ConversionSyntax'>]" ])).
Proof.
  destruct (order_loop_reports_each_order (Sample.sync_world (Ok (VList [])))
              Sample.a_user_uuid Normalizer.Shopify
              [Sample.order_plain; Sample.order_malformed]
              Sample.new_service (new_result "shopify"))
    as (s' & msgs & _ & _ & Hloop & _).
  exists s'. cbn [map] in Hloop. rewrite Hloop.
  vm_compute in Hloop. injection Hloop as <- <-. reflexivity.
Defined.

Lemma campaign_loop_counts_and_reports_witness :
  exists s',
    for_ [VDict [("id", VStr "c1"); ("spend", VStr "150.50")];
          VDict [("id", VStr "c2"); ("spend", VStr "12.00")]]
      (sync_campaign (Sample.sync_world (Ok (VList []))) "meta" Sample.a_user_uuid
         Normalizer.Meta)
      (Sample.new_service, new_result "meta")
    = (Returns tt,
       (s', mkResult "meta" 0 0 2
              [ "Campaign c1: 'NormalizedTransaction' object has no attribute 'occurred_at'";
                "Campaign c2: 'NormalizedTransaction' object has no attribute 'occurred_at'"
              ])).
Proof.
  destruct (campaign_loop_counts_and_reports (Sample.sync_world (Ok (VList [])))
              "meta" Sample.a_user_uuid Normalizer.Meta
              [[("id", VStr "c1"); ("spend", VStr "150.50")];
               [("id", VStr "c2"); ("spend", VStr "12.00")]]
              Sample.new_service (new_result "meta"))
    as (s' & msgs & _ & _ & Hloop).
  - intros v []. exists tt. reflexivity.
  - exists s'. cbn [map] in Hloop. rewrite Hloop.
    vm_compute in Hloop. injection Hloop as <- <-. reflexivity.
Defined.

Lemma sync_all_platforms_report_witness :
  exists report s',
    sync_all_platforms (Sample.sync_world (Ok (VList [VDict Sample.order_plain])))
      (fun _ x => (Ok ["shopify"; "stripe"], x)) "u1" None None Sample.new_service
    = (Returns report, s')
    /\ platforms_synced report = ["shopify"; "stripe"]
    /\ total_transactions report = 0
    /\ In "Unsupported platform: stripe" (all_errors report).
Proof.
  destruct (sync_all_platforms (Sample.sync_world (Ok (VList [VDict Sample.order_plain])))
              (fun _ x => (Ok ["shopify"; "stripe"], x)) "u1" None None Sample.new_service)
    as [[report|e|] s'] eqn:H; [|vm_compute in H; discriminate..].
  exists report, s'. split; [reflexivity|].
  destruct (sync_all_platforms_report _ _ _ _ _ _ _ _ H)
    as (connected & x & Hl & _ & Hplat & Htotal & _ & Hunsupported).
  injection Hl as <- _.
  split; [exact Hplat|]. split; [exact Htotal|].
  apply (Hunsupported "stripe"); [right; left; reflexivity|].
  vm_compute. intros [Hs|[Hs|[Hs|[]]]]; discriminate.
Defined.

Lemma sync_all_platforms_completes_witness :
  (exists report s',
      sync_all_platforms Sample.offline_world (fun _ x => (Ok ["shopify"; "meta"], x))
        "u1" None None Sample.new_service = (Returns report, s'))
  /\ sync_all_platforms Sample.offline_world (fun _ x => (Ok ["shopify"; "meta"], x))
       "u1" None (Some 15) Sample.new_service
     = (Raises (mkExc OverflowError "date value out of range"), Sample.new_service).
Proof.
  destruct (sync_all_platforms_completes Sample.offline_world
              (fun _ x => (Ok ["shopify"; "meta"], x)) "u1" None None
              Sample.new_service ["shopify"; "meta"] tt eq_refl) as (Hreturns & _).
  destruct (sync_all_platforms_completes Sample.offline_world
              (fun _ x => (Ok ["shopify"; "meta"], x)) "u1" None (Some 15)
              Sample.new_service ["shopify"; "meta"] tt eq_refl) as (_ & _ & Hraises).
  split.
  - apply Hreturns. intros _ []. vm_compute. split; discriminate.
  - apply (Hraises 15); [reflexivity|reflexivity|lia|discriminate].
Defined.

End DataSyncLaws.

(** ** Transactions as dicts *)
Module ModelsLaws.
Import Dec Models Normalizer NormalizerFacts NormalizerLaws.

Lemma type_of_value_of_type t : TransactionType_of_value (TransactionType_value t) = Ok t.
Proof. destruct t; reflexivity. Qed.

Lemma to_str_not_empty neg c e : PyStr.is_empty (to_str (Fin neg c e)) = false.
Proof.
  pose proof (DecText.of_string_to_str neg c e) as H.
  destruct (to_str (Fin neg c e)); [discriminate H|reflexivity].
Qed.

Lemma decimal_comes_back d :
  (forall u, d = Some u -> finite u = true) ->
  decimal_if_truthy (str_if_nonzero d) = Ok (drop_zero d).
Proof.
  intros Hfin. destruct d as [u|]; [|reflexivity].
  specialize (Hfin u eq_refl). destruct u as [neg c e| |]; try discriminate Hfin.
  unfold str_if_nonzero, drop_zero. destruct (Dec.truthy (Fin neg c e)); [|reflexivity].
  unfold decimal_if_truthy. rewrite to_str_not_empty, DecText.of_string_to_str. reflexivity.
Qed.

(** What [from_dict] makes of the dict of a transaction: the
    constructor is run on the fields of the transaction, a zero
    [amount_usd] or [cost_per_unit] having become [None]. *)
Lemma from_dict_of_to_dict rt isoformat tx moment :
  timestamp tx = TsDatetime moment ->
  fromisoformat rt (isoformat moment) = Ok moment ->
  finite (amount tx) = true ->
  (forall u, amount_usd tx = Some u -> finite u = true) ->
  (forall u, cost_per_unit tx = Some u -> finite u = true) ->
  exists data,
    to_dict isoformat tx = Ok data
    /\ from_dict rt data
       = post_init rt
           (mkTransaction (id tx) (platform tx) (platform_id tx) (type tx) (amount tx)
              (currency tx) (timestamp tx) (drop_zero (amount_usd tx)) (sku_id tx)
              (quantity tx) (drop_zero (cost_per_unit tx)) (campaign_id tx)
              (customer_id tx) (metadata tx)).
Proof.
  intros Hts Hiso Hamount Husd Hcost.
  unfold to_dict. rewrite Hts. cbn [rbind]. eexists. split; [reflexivity|].
  unfold from_dict.
  cbn [d_id d_platform d_platform_id d_type d_amount d_currency d_amount_usd d_timestamp
       d_sku_id d_quantity d_cost_per_unit d_campaign_id d_customer_id d_metadata].
  rewrite type_of_value_of_type. cbn [rbind].
  destruct (amount tx) as [neg c e| |] eqn:Ha; try discriminate Hamount.
  rewrite DecText.of_string_to_str. cbn [rbind].
  rewrite Hiso. cbn [rbind].
  rewrite (decimal_comes_back _ Husd). cbn [rbind].
  rewrite (decimal_comes_back _ Hcost). cbn [rbind].
  reflexivity.
Qed.

(** A transaction an adapter has returned comes back from its dict.
    Let its timestamp be a datetime whose ISO text is read back as
    that datetime, its amount be finite, and the random id not be
    empty.  Then [to_dict] returns a dict, and [from_dict] makes of
    that dict the same transaction, but for one field: a unit cost of
    zero has become [None].  When the timestamp is no datetime,
    [to_dict] raises AttributeError. *)
Theorem normalized_transaction_round_trip self rt raw tx isoformat :
  normalize self rt raw = Ok tx ->
  PyStr.is_empty (uuid4 rt 0%nat) = false ->
  (forall moment,
      timestamp tx = TsDatetime moment ->
      fromisoformat rt (isoformat moment) = Ok moment ->
      finite (amount tx) = true ->
      (forall u, cost_per_unit tx = Some u -> finite u = true) ->
      exists data,
        to_dict isoformat tx = Ok data
        /\ from_dict rt data
           = Ok (mkTransaction (id tx) (platform tx) (platform_id tx) (type tx) (amount tx)
                   (currency tx) (timestamp tx) (amount_usd tx) (sku_id tx) (quantity tx)
                   (drop_zero (cost_per_unit tx)) (campaign_id tx) (customer_id tx)
                   (metadata tx))
        /\ (drop_zero (cost_per_unit tx) = cost_per_unit tx -> from_dict rt data = Ok tx))
  /\ (forall v,
        timestamp tx = TsValue v ->
        to_dict isoformat tx
        = raise AttributeError
            ("'" +:+ PyVal.type_name v +:+ "' object has no attribute 'isoformat'")).
Proof.
  intros Hn Hid. split.
  - intros moment Hts Hiso Hamount Hcost.
    destruct (normalize_common self rt raw tx Hn) as (Hidtx & Hplat & _ & _).
    destruct (normalize_amount_usd self rt raw tx Hn) as (c & Hcur & Husd).
    rewrite Hid in Hidtx.
    assert (Husd_fin : forall u, amount_usd tx = Some u -> finite u = true).
    { intros u Hu. rewrite Husd in Hu.
      destruct (String.eqb (PyStr.upper c) "USD"); [|discriminate].
      injection Hu as <-. exact Hamount. }
    destruct (from_dict_of_to_dict rt isoformat tx moment Hts Hiso Hamount Husd_fin Hcost)
      as (data & Hto & Hfrom).
    exists data. split; [exact Hto|].
    assert (Hback : from_dict rt data
                    = Ok (mkTransaction (id tx) (platform tx) (platform_id tx) (type tx)
                            (amount tx) (currency tx) (timestamp tx) (amount_usd tx)
                            (sku_id tx) (quantity tx) (drop_zero (cost_per_unit tx))
                            (campaign_id tx) (customer_id tx) (metadata tx))).
    { rewrite Hfrom. unfold post_init.
      cbn [id platform platform_id type amount currency timestamp amount_usd sku_id
           quantity cost_per_unit campaign_id customer_id metadata].
      rewrite Hidtx, Hid, Hplat, Hcur, Husd.
      assert (Hname : PyStr.strip (PyStr.lower (platform_of self)) = platform_of self)
        by (destruct self; reflexivity).
      rewrite Hname.
      destruct (String.eqb (PyStr.upper c) "USD"); cbn [drop_zero]; [|reflexivity].
      destruct (Dec.truthy (amount tx)); reflexivity. }
    split; [exact Hback|].
    intros Hsame. rewrite Hback, Hsame. destruct tx; reflexivity.
  - intros v Hts. unfold to_dict. rewrite Hts. reflexivity.
Qed.

Lemma normalized_transaction_round_trip_witness :
  exists tx data,
    normalize Shopify Sample.runtime Sample.order_dated = Ok tx
    /\ to_dict Sample.isoformat tx = Ok data
    /\ d_amount data = "49.99"
    /\ d_timestamp data = "2024-01-15T10:30:00+00:00"
    /\ from_dict Sample.runtime data = Ok tx.
Proof.
  destruct (normalize Shopify Sample.runtime Sample.order_dated) as [tx|e] eqn:H;
    [|vm_compute in H; discriminate].
  destruct (normalized_transaction_round_trip Shopify Sample.runtime Sample.order_dated tx
              Sample.isoformat H eq_refl) as (Hback & _).
  vm_compute in H. injection H as <-.
  destruct (Hback (PyTime.mkDatetime (PyTime.wall Sample.a_moment) (Some 0))
              eq_refl eq_refl eq_refl ltac:(discriminate))
    as (data & Hto & _ & Hfrom).
  eexists _, data. split; [reflexivity|]. split; [exact Hto|].
  vm_compute in Hto. injection Hto as <-.
  split; [reflexivity|]. split; [reflexivity|]. apply Hfrom. reflexivity.
Defined.

End ModelsLaws.

(** * Checks of the model on concrete inputs *)

Example Decimal_parse_1 : Dec.of_string "100.00" = Ok (Dec.Fin false 10000 (-2)).
Proof. reflexivity. Qed.
Example Decimal_parse_2 : Dec.of_string " -1_000.5e-3 " = Ok (Dec.Fin true 10005 (-4)).
Proof. reflexivity. Qed.
Example Decimal_parse_3 : Dec.of_string "abc" = Dec.conversion_syntax.
Proof. reflexivity. Qed.
Example Decimal_parse_4 : Dec.of_string ".5" = Ok (Dec.Fin false 5 (-1))
  /\ Dec.of_string "5." = Ok (Dec.Fin false 5 0) /\ Dec.of_string "." = Dec.conversion_syntax
  /\ Dec.of_string "1e" = Dec.conversion_syntax /\ Dec.of_string "-Infinity" = Ok (Dec.Inf true)
  /\ Dec.of_string "nan" = Ok (Dec.NaN false) /\ Dec.of_string EmptyString = Dec.conversion_syntax.
Proof. repeat split; reflexivity. Qed.
Example Decimal_div_1 :
  Dec.div (Dec.lit "1500000") (Dec.lit "1000000") = Ok (Dec.Fin false 15 (-1)).
Proof. vm_compute. reflexivity. Qed.
Example Decimal_div_2 :
  Dec.div (Dec.lit "1") (Dec.lit "3") = Ok (Dec.Fin false 3333333333333333333333333333 (-28)).
Proof. vm_compute. reflexivity. Qed.
Example Decimal_div_3 :
  Dec.div (Dec.lit "2") (Dec.lit "3") = Ok (Dec.Fin false 6666666666666666666666666667 (-28)).
Proof. vm_compute. reflexivity. Qed.
Example Decimal_mul_1 :
  Dec.mul (Dec.lit "100.00") (Dec.lit "1.08") = Ok (Dec.Fin false 1080000 (-4)).
Proof. vm_compute. reflexivity. Qed.
Example Decimal_quantize_1 :
  Dec.quantize_half_up (Dec.lit "108.0000") (-2) = Ok (Dec.Fin false 10800 (-2))
  /\ Dec.quantize_half_up (Dec.lit "0.005") (-2) = Ok (Dec.Fin false 1 (-2))
  /\ Dec.quantize_half_up (Dec.lit "0.0049") (-2) = Ok (Dec.Fin false 0 (-2))
  /\ Dec.quantize_half_up (Dec.lit "-2.675") (-2) = Ok (Dec.Fin true 268 (-2))
  /\ Dec.quantize_half_up (Dec.lit "7") (-2) = Ok (Dec.Fin false 700 (-2))
  /\ is_ok (Dec.quantize_half_up (Dec.lit "1E+26") (-2)) = false
  /\ is_ok (Dec.quantize_half_up (Dec.lit "99999999999999999999999999.99") (-2)) = true
  /\ is_ok (Dec.quantize_half_up (Dec.lit "99999999999999999999999999.995") (-2)) = false.
Proof. vm_compute. repeat split; reflexivity. Qed.

(** The two ways of a Google campaign that the spec describes. *)
Example google_micros_example :
  Normalizer.GoogleNormalizer.amount_of Sample.campaign_micros = Ok (Dec.lit "1.5")
  /\ Dec.num_eqb (Dec.lit "1.5") (Dec.lit "1.50") = true
  /\ Normalizer.GoogleNormalizer.amount_of Sample.campaign_cost = Ok (Dec.lit "2.50").
Proof. vm_compute. repeat split; reflexivity. Qed.

(** A first sync of two good orders: both are normalized, none is
    stored, and the report holds the error of each insert. *)
Example first_sync_report :
  DataSync.sync_platform
    (Sample.sync_world (Ok (VList [VDict Sample.order_plain; VDict Sample.order_eur])))
    "u1" "Shopify" None None Sample.new_service
  = (Returns
       (DataSync.mkResult "shopify" 0 0 0
          [ "Order ord_2: 'NormalizedTransaction' object has no attribute 'occurred_at'";
            "Order ord_1: 'NormalizedTransaction' object has no attribute 'occurred_at'" ]),
     DataSync.mkState true true empty tt).
Proof. vm_compute. reflexivity. Qed.

(** With nothing reachable the report holds the first failure. *)
Example offline_sync_report :
  DataSync.sync_platform Sample.offline_world "u1" "meta" None None Sample.new_service
  = (Returns (DataSync.mkResult "meta" 0 0 0 ["All connection attempts failed"]),
     Sample.new_service).
Proof. vm_compute. reflexivity. Qed.

(** An order with a negative total passes [normalize]; [validate] would
    refuse it. *)
Example negative_order_not_validated :
  exists tx,
    Normalizer.ShopifyNormalizer.normalize Sample.runtime Sample.order_negative = Ok tx
    /\ Models.validate tx
       = raise ValueError "Amount must be non-negative for type TransactionType.ORDER".
Proof. eexists. split; vm_compute; reflexivity. Qed.

(** When the refresh succeeds, [get_token] calls [store_token] while it
    holds the lock that [store_token] asks for: the call never
    completes. *)
Example refresh_success_deadlocks :
  fst (TokenManager.get_token Sample.granting_world "u1" "google" true Sample.new_manager)
  = Hangs.
Proof. vm_compute. reflexivity. Qed.

(** [str] of a Decimal: plain notation down to six zeros after the
    point, scientific notation past that and for a positive exponent. *)
Example Decimal_str_1 :
  map Dec.to_str
    [ Dec.lit "0.123"; Dec.lit "123"; Dec.lit "12E+3"; Dec.lit "-0.00000000";
      Dec.lit "0.000005"; Dec.lit "0.0000005"; Dec.lit "1234567E-13"; Dec.lit "-100.00" ]
  = [ "0.123"; "123"; "1.2E+4"; "-0E-8"; "0.000005"; "5E-7"; "1.234567E-7"; "-100.00" ].
Proof. vm_compute. reflexivity. Qed.

(** A unit cost of zero does not come back from the dict. *)
Example zero_cost_is_dropped :
  Models.str_if_nonzero (Some (Dec.lit "0.00")) = None
  /\ Models.decimal_if_truthy (Models.str_if_nonzero (Some (Dec.lit "0.00"))) = Ok None
  /\ Models.decimal_if_truthy (Models.str_if_nonzero (Some (Dec.lit "4.20")))
     = Ok (Some (Dec.lit "4.20")).
Proof. vm_compute. repeat split; reflexivity. Qed.
